(** * AlmanaqueLuso: the notification scheduler, the push delivery channel
      and the push-subscription route

    A shallow embedding of
      - server/jobs/notificationScheduler.ts   (isQuietHours,
        getUsersForNotifications, getRelevantEvents, sendDailyDigest,
        sendImmediateNotifications),
      - server/services/pushNotificationService.ts  (sendToUser),
      - server/routes.ts                       (POST /api/push/subscribe),
      - shared/schema.ts                       (the three tables they touch).

    The database, the console, the push network and the clock are made
    explicit: a [World] holds the tables and the traces, an [Env] holds what
    the code cannot control (the clock reading, which database statement
    fails, what the push service answers). *)

From Stdlib Require Import ZArith List String Ascii Bool Lia DecimalString.
Import ListNotations.
Local Open Scope string_scope.
Local Open Scope Z_scope.

(** ** JavaScript values used by the scheduler *)

Module JS.

(** The numbers the time arithmetic meets: the integers and NaN.
    [Number("ab")] is NaN, and so is any sum or product with [undefined]. *)
Inductive number : Type :=
| NaN : number
| Num : Z -> number.

Definition add (a b : number) : number :=
  match a, b with
  | Num x, Num y => Num (x + y)
  | _, _ => NaN
  end.

Definition mul (a b : number) : number :=
  match a, b with
  | Num x, Num y => Num (x * y)
  | _, _ => NaN
  end.

(** Relational operators: every comparison with NaN is false. *)
Definition lt (a b : number) : bool :=
  match a, b with
  | Num x, Num y => x <? y
  | _, _ => false
  end.

Definition gt (a b : number) : bool := lt b a.

Definition le (a b : number) : bool :=
  match a, b with
  | Num x, Num y => x <=? y
  | _, _ => false
  end.

Definition ge (a b : number) : bool := le b a.

(** White space that [Number] strips (the ASCII part of it). *)
Definition isWhiteSpace (c : ascii) : bool :=
  match nat_of_ascii c with
  | 9%nat | 10%nat | 11%nat | 12%nat | 13%nat | 32%nat => true
  | _ => false
  end.

Fixpoint trimStart (s : string) : string :=
  match s with
  | EmptyString => EmptyString
  | String c rest => if isWhiteSpace c then trimStart rest else s
  end.

Fixpoint trimEnd (s : string) : string :=
  match s with
  | EmptyString => EmptyString
  | String c rest =>
      match trimEnd rest with
      | EmptyString => if isWhiteSpace c then EmptyString else String c EmptyString
      | t => String c t
      end
  end.

Definition trim (s : string) : string := trimEnd (trimStart s).

Definition digitValue (c : ascii) : option Z :=
  let n := Z.of_nat (nat_of_ascii c) in
  if (48 <=? n) && (n <=? 57) then Some (n - 48) else None.

Fixpoint decimalDigits (acc : Z) (s : string) : option Z :=
  match s with
  | EmptyString => Some acc
  | String c rest =>
      match digitValue c with
      | Some d => decimalDigits (10 * acc + d) rest
      | None => None
      end
  end.

Definition unsignedDecimal (s : string) : number :=
  match s with
  | EmptyString => NaN
  | _ => match decimalDigits 0 s with
         | Some v => Num v
         | None => NaN
         end
  end.

(** [Number(s)] on the literals whose value is an integer written in
    decimal: optional white space around, an optional sign, digits; the
    empty (or blank) string is 0. Anything that is not a numeric literal
    ("soon", "ab", "9h") is NaN. The literal forms whose value needs more
    than [Z] or another notation (fractions, exponents, 0x/0o/0b prefixes,
    Infinity) are not covered, and a run of digits is taken exactly, also
    beyond 2^53 where JavaScript rounds: the theorems on the time windows
    are about times of day written as two digits, a colon and two digits
    ([hhmm] below), on which this definition is exact, or about strings
    that are no numeric literal at all; the others name the tests of the
    code on the stored strings as they are. *)
Definition Number (s : string) : number :=
  match trim s with
  | EmptyString => Num 0
  | String "-"%char rest =>
      match unsignedDecimal rest with
      | Num v => Num (- v)
      | NaN => NaN
      end
  | String "+"%char rest => unsignedDecimal rest
  | t => unsignedDecimal t
  end.

(** [s.split(sep)] for a one-character separator: never empty, the empty
    string splits into one empty piece. *)
Fixpoint split (sep : ascii) (s : string) : list string :=
  match s with
  | EmptyString => [EmptyString]
  | String c rest =>
      let pieces := split sep rest in
      if Ascii.eqb c sep then EmptyString :: pieces
      else match pieces with
           | p :: ps => String c p :: ps
           | [] => [String c EmptyString]
           end
  end.

(** Array destructuring [const [a, b] = xs]: a missing position is
    [undefined], which the arithmetic that follows turns into NaN. *)
Definition element (xs : list number) (i : nat) : number :=
  nth i xs NaN.

(** [x || dflt] on a nullable text column: null and the empty string are
    falsy. *)
Definition orDefault (x : option string) (dflt : string) : string :=
  match x with
  | None => dflt
  | Some EmptyString => dflt
  | Some s => s
  end.

(** [array.join(sep)]. *)
Fixpoint join (sep : string) (xs : list string) : string :=
  match xs with
  | [] => EmptyString
  | [x] => x
  | x :: rest => x ++ sep ++ join sep rest
  end.

(** Template-literal rendering of an integer. *)
Definition showZ (z : Z) : string := NilZero.string_of_int (Z.to_int z).

End JS.

Import JS.

(** ** Time-of-day arithmetic of the scheduler *)

(** [const [h, m] = s.split(':').map(Number); h * 60 + m]. *)
Definition totalMinutes (s : string) : number :=
  let parts := map Number (split ":"%char s) in
  add (mul (element parts 0) (Num 60)) (element parts 1).

(** The two returns of [isQuietHours], on the three minute counts. *)
Definition quietHoursTest (currentTime startTime endTime : number) : bool :=
  if gt startTime endTime
  then ge currentTime startTime || le currentTime endTime
  else ge currentTime startTime && le currentTime endTime.

(** The [continue] condition of the digest loop (line 143). *)
Definition outsideSendWindow (currentTotalMinutes preferredTotalMinutes : number) : bool :=
  lt currentTotalMinutes preferredTotalMinutes
  || ge currentTotalMinutes (add preferredTotalMinutes (Num 15)).

(** A well-formed time of day, as the preference form writes it: two
    digits, a colon, two digits. *)
Definition digitChar (d : Z) : ascii := ascii_of_nat (48 + Z.to_nat d).

Definition twoDigits (n : Z) : string :=
  String (digitChar (n / 10)) (String (digitChar (n mod 10)) EmptyString).

Definition hhmm (h m : Z) : string := twoDigits h ++ ":" ++ twoDigits m.

(** ** The tables (shared/schema.ts) *)

(** A jsonb value, kept as its serialised text: nothing here looks inside. *)
Definition Json := string.

(** notification_preferences. Every column but the two ids is nullable. *)
Record NotificationPreferences : Type := {
  pref_id : Z;
  pref_userId : Z;
  tidesEnabled : option bool;
  sportsEnabled : option bool;
  astronomyEnabled : option bool;
  agricultureEnabled : option bool;
  culturalEnabled : option bool;
  holidaysEnabled : option bool;
  tidesFrequency : option string;
  sportsFrequency : option string;
  astronomyFrequency : option string;
  agricultureFrequency : option string;
  culturalFrequency : option string;
  holidaysFrequency : option string;
  preferredNotificationTime : option string;
  quietHoursStart : option string;
  quietHoursEnd : option string
}.

(** push_subscriptions. [sub_id] is the serial primary key, [sub_endpoint]
    is unique. Timestamps are milliseconds since the epoch. *)
Record PushSubscription : Type := {
  sub_id : Z;
  sub_userId : Z;
  sub_endpoint : string;
  sub_keys : Json;
  sub_userAgent : option string;
  sub_createdAt : Z
}.

(** events, with the columns the scheduler reads. *)
Record Event : Type := {
  ev_id : Z;
  ev_type : string;
  ev_title : string;
  ev_startAt : Z;
  ev_location : option string
}.

(** ** Payloads, exceptions, console lines *)

Record NotificationPayload : Type := {
  title : string;
  body : string;
  url : option string;
  tag : option string
}.

(** What can be thrown: a rejected database statement, a rejected push
    (with the HTTP status code when the push service answered), a request
    body the zod schema refuses. *)
Inductive Exn : Type :=
| DbError : Exn
| WebPushError (statusCode : option Z) : Exn
| ZodError : Exn.

(** [error.statusCode]: only a push rejection carries one. *)
Definition statusCode (error : Exn) : option Z :=
  match error with
  | WebPushError sc => sc
  | _ => None
  end.

(** The console, one constructor per message of the three files;
    [Err...] lines go through console.error, the others through
    console.log. *)
Inductive Line : Type :=
| LogDigestRunning
| LogDigestSent (notificationsSent : Z)
| ErrDigestJobFailed (error : Exn)
| LogDigestCompleted
| ErrFailedToSendToUser (userId : Z) (error : Exn)
| ErrFailedToSendImmediate (error : Exn)
| ErrImmediateCheckFailed (error : Exn)
| LogNoSubscriptions (userId : Z)
| LogPushSent (userId : Z) (endpointPrefix : string)
| LogRemovedExpired (userId : Z)
| ErrFailedToSendPush (userId : Z) (error : Exn)
| ErrSendingPush (error : Exn)
| ErrPushSubscription (error : Exn).

Definition isErrorLine (l : Line) : bool :=
  match l with
  | ErrDigestJobFailed _ | ErrFailedToSendToUser _ _ | ErrFailedToSendImmediate _
  | ErrImmediateCheckFailed _ | ErrFailedToSendPush _ _ | ErrSendingPush _
  | ErrPushSubscription _ => true
  | _ => false
  end.

(** The database statements the three files issue. *)
Inductive Statement : Type :=
| SelectPreferences
| SelectSubscriptionsOfUser (userId : Z)
| SelectSubscriptionsByEndpoint (endpoint : string) (limit : nat)
| SelectEvents (types : list string) (startFrom startTo : Z) (limit : nat)
| SelectEventsAnyOf (types : list string) (startFrom startTo : Z) (limit : nat)
| DeleteSubscriptionById (id : Z)
| UpdateSubscriptionByEndpoint (endpoint : string) (keys : option Json)
    (userAgent : option (option string))
| InsertSubscription (userId : Z) (endpoint : string) (keys : option Json)
    (userAgent : option string).

(** ** The world and its environment *)

(** What the push service answers to one [webpush.sendNotification]. *)
Inductive PushAnswer : Type :=
| Accepted
| Rejected (statusCode : option Z).

(** What the code does not control. [clock] is the reading of [new Date()]
    during the tick (one reading per tick: the readings the code takes for
    each user differ by the latency of the statements in between);
    [tzOffsetMinutes] places the server's local time (a zone with a fixed
    offset, so a calendar day is 24 hours); [dbFails n] says whether the
    n-th database statement issued so far rejects; [drawsId n] says, for
    an INSERT that is the n-th statement and rejects, whether it had drawn
    its id from the serial before it was rejected (PostgreSQL draws the
    id when it forms the row, so a constraint that refuses the row comes
    after the draw, and a statement that never ran has drawn nothing);
    [webpush] is the push service. *)
Record Env : Type := {
  clock : Z;
  tzOffsetMinutes : Z;
  dbFails : nat -> bool;
  drawsId : nat -> bool;
  webpush : string -> NotificationPayload -> PushAnswer
}.

(** The state the code acts on: the three tables and the serial of
    push_subscriptions, and four traces in chronological order: the
    database statements issued, the calls of [webpush.sendNotification],
    the calls of [PushNotificationService.sendToUser] (one call is one
    notification for a user) and the console. *)
Record World : Type := {
  notificationPreferences : list NotificationPreferences;
  pushSubscriptions : list PushSubscription;
  events : list Event;
  pushSubscriptionsSerial : Z;
  dbTrace : list Statement;
  pushTrace : list (string * NotificationPayload);
  notified : list (Z * NotificationPayload);
  console : list Line
}.

Definition setPushSubscriptions (subs : list PushSubscription) (serial : Z) (w : World) : World :=
  {| notificationPreferences := notificationPreferences w;
     pushSubscriptions := subs;
     events := events w;
     pushSubscriptionsSerial := serial;
     dbTrace := dbTrace w;
     pushTrace := pushTrace w;
     notified := notified w;
     console := console w |}.

Definition recordStatement (s : Statement) (w : World) : World :=
  {| notificationPreferences := notificationPreferences w;
     pushSubscriptions := pushSubscriptions w;
     events := events w;
     pushSubscriptionsSerial := pushSubscriptionsSerial w;
     dbTrace := dbTrace w ++ [s];
     pushTrace := pushTrace w;
     notified := notified w;
     console := console w |}.

Definition recordPush (endpoint : string) (payload : NotificationPayload) (w : World) : World :=
  {| notificationPreferences := notificationPreferences w;
     pushSubscriptions := pushSubscriptions w;
     events := events w;
     pushSubscriptionsSerial := pushSubscriptionsSerial w;
     dbTrace := dbTrace w;
     pushTrace := pushTrace w ++ [(endpoint, payload)];
     notified := notified w;
     console := console w |}.

Definition recordNotified (userId : Z) (payload : NotificationPayload) (w : World) : World :=
  {| notificationPreferences := notificationPreferences w;
     pushSubscriptions := pushSubscriptions w;
     events := events w;
     pushSubscriptionsSerial := pushSubscriptionsSerial w;
     dbTrace := dbTrace w;
     pushTrace := pushTrace w;
     notified := notified w ++ [(userId, payload)];
     console := console w |}.

Definition recordLine (l : Line) (w : World) : World :=
  {| notificationPreferences := notificationPreferences w;
     pushSubscriptions := pushSubscriptions w;
     events := events w;
     pushSubscriptionsSerial := pushSubscriptionsSerial w;
     dbTrace := dbTrace w;
     pushTrace := pushTrace w;
     notified := notified w;
     console := console w ++ [l] |}.

(** ** Computations: state that survives an exception *)

Inductive Result (A : Type) : Type :=
| Ok (a : A)
| Throw (error : Exn).

Arguments Ok {A} a.
Arguments Throw {A} error.

Definition M (A : Type) : Type := World -> Result A * World.

Definition ret {A : Type} (a : A) : M A := fun w => (Ok a, w).

Definition bind {A B : Type} (m : M A) (k : A -> M B) : M B :=
  fun w =>
    match m w with
    | (Ok a, w1) => k a w1
    | (Throw e, w1) => (Throw e, w1)
    end.

Definition throw {A : Type} (e : Exn) : M A := fun w => (Throw e, w).

(** [try { m } catch (error) { handler }]. *)
Definition tryCatch {A : Type} (m : M A) (handler : Exn -> M A) : M A :=
  fun w =>
    match m w with
    | (Ok a, w1) => (Ok a, w1)
    | (Throw e, w1) => handler e w1
    end.

(** [try { m } finally { cleanup }]. *)
Definition tryFinally {A : Type} (m : M A) (cleanup : M unit) : M A :=
  fun w =>
    match m w with
    | (r, w1) =>
        match cleanup w1 with
        | (Ok _, w2) => (r, w2)
        | (Throw e, w2) => (Throw e, w2)
        end
    end.

(** [await Promise.allSettled([p])] for one promise: a rejection is kept in
    the settled record and never thrown. *)
Definition settled (p : M unit) : M unit :=
  fun w => (Ok tt, snd (p w)).

Definition consoleWrite (l : Line) : M unit :=
  fun w => (Ok tt, recordLine l w).

Declare Scope comp_scope.
Delimit Scope comp_scope with comp.
Notation "x <- m ;; k" := (bind m (fun x => k))
  (at level 100, m at next level, right associativity) : comp_scope.
Notation "m ;;; k" := (bind m (fun _ => k))
  (at level 100, right associativity) : comp_scope.
Local Open Scope comp_scope.

(** [for (const x of xs) { body(x) }]. *)
Fixpoint forEach {A : Type} (xs : list A) (body : A -> M unit) : M unit :=
  match xs with
  | [] => ret tt
  | x :: rest => body x ;;; forEach rest body
  end.

(** ** The database *)

(** One statement: it is written to the trace, then it rejects if the
    environment says so (the tables are then untouched), else it runs. *)
Definition statement {A : Type} (env : Env) (s : Statement)
    (run : World -> A * World) : M A :=
  fun w =>
    let w1 := recordStatement s w in
    if dbFails env (List.length (dbTrace w)) then (Throw DbError, w1)
    else let (a, w2) := run w1 in (Ok a, w2).

(** A statement that PostgreSQL refuses whatever the tables hold and
    whatever the environment: it is written to the trace and throws. *)
Definition refusedStatement {A : Type} (s : Statement) : M A :=
  fun w => (Throw DbError, recordStatement s w).

(** [db.select().from(notificationPreferences)]. *)
Definition selectPreferences (env : Env) : M (list NotificationPreferences) :=
  statement env SelectPreferences (fun w => (notificationPreferences w, w)).

(** [db.select().from(pushSubscriptions).where(eq(userId, u))]. *)
Definition selectSubscriptionsOfUser (env : Env) (userId : Z) : M (list PushSubscription) :=
  statement env (SelectSubscriptionsOfUser userId)
    (fun w => (filter (fun s => sub_userId s =? userId) (pushSubscriptions w), w)).

(** [... .where(eq(endpoint, e)).limit(n)]. *)
Definition selectSubscriptionsByEndpoint (env : Env) (endpoint : string) (limit : nat)
    : M (list PushSubscription) :=
  statement env (SelectSubscriptionsByEndpoint endpoint limit)
    (fun w =>
       (firstn limit
          (filter (fun s => String.eqb (sub_endpoint s) endpoint) (pushSubscriptions w)),
        w)).

(** A WHERE clause on the events: the type is one of [types] (for the
    tide query, [eq(events.type, 'tide')], the one type 'tide'),
    [gte(startAt, startFrom)] and [lte(startAt, startTo)]. *)
Definition eventMatches (types : list string) (startFrom startTo : Z) (e : Event) : bool :=
  existsb (String.eqb (ev_type e)) types
  && (startFrom <=? ev_startAt e)
  && (ev_startAt e <=? startTo).

(** [db.select().from(events).where(and(...)).limit(n)]; without ORDER BY
    the rows come in table order. *)
Definition selectEvents (env : Env) (types : list string) (startFrom startTo : Z)
    (limit : nat) : M (list Event) :=
  statement env (SelectEvents types startFrom startTo limit)
    (fun w => (firstn limit (filter (eventMatches types startFrom startTo) (events w)), w)).

(** The query of [getRelevantEvents]:
    [.where(and(sql`${events.type} = ANY(${eventTypes})`, gte(...),
    lte(...))).limit(n)]. Inside a [sql] template drizzle writes an array
    as a parenthesised list of parameters, so the condition reaches the
    database as [type = ANY(($1, ..., $k))]: the operand of ANY is a row
    (for k = 1 a scalar, for which the text of the type is no array
    literal), not an array, and PostgreSQL rejects the statement. The
    storage layer of the repository writes the same condition with
    [inArray(events.type, types)]. *)
Definition selectEventsAnyOf (types : list string) (startFrom startTo : Z)
    (limit : nat) : M (list Event) :=
  refusedStatement (SelectEventsAnyOf types startFrom startTo limit).

(** The table without the rows of one id. *)
Definition withoutId (id : Z) (subs : list PushSubscription) : list PushSubscription :=
  filter (fun s => negb (sub_id s =? id)) subs.

(** [db.delete(pushSubscriptions).where(eq(id, i))]. *)
Definition deleteSubscriptionById (env : Env) (id : Z) : M unit :=
  statement env (DeleteSubscriptionById id)
    (fun w => (tt, setPushSubscriptions (withoutId id (pushSubscriptions w))
                     (pushSubscriptionsSerial w) w)).

(** The row after [.set({ keys, userAgent })]: drizzle leaves out of the
    SET list a column whose value is [undefined]. *)
Definition refreshed (keys : Json) (userAgent : option (option string))
    (s : PushSubscription) : PushSubscription :=
  {| sub_id := sub_id s;
     sub_userId := sub_userId s;
     sub_endpoint := sub_endpoint s;
     sub_keys := keys;
     sub_userAgent := match userAgent with
                      | Some ua => ua
                      | None => sub_userAgent s
                      end;
     sub_createdAt := sub_createdAt s |}.

(** [db.update(pushSubscriptions).set({...}).where(eq(endpoint, e))];
    [keys] is [None] when the value is null, which the NOT NULL column
    refuses: the statement is rejected and no row changes. The handler
    issues it only after it has found a row with the endpoint. *)
Definition updateSubscriptionByEndpoint (env : Env) (endpoint : string)
    (keys : option Json) (userAgent : option (option string)) : M unit :=
  match keys with
  | Some k =>
      statement env (UpdateSubscriptionByEndpoint endpoint keys userAgent)
        (fun w => (tt, setPushSubscriptions
                         (map (fun s => if String.eqb (sub_endpoint s) endpoint
                                        then refreshed k userAgent s else s)
                              (pushSubscriptions w))
                         (pushSubscriptionsSerial w) w))
  | None => refusedStatement (UpdateSubscriptionByEndpoint endpoint keys userAgent)
  end.

(** The serial after an id has been drawn from it. *)
Definition drawId (w : World) : World :=
  setPushSubscriptions (pushSubscriptions w) (pushSubscriptionsSerial w + 1) w.

(** [db.insert(pushSubscriptions).values(v)]: the id comes from the serial,
    created_at from defaultNow(). Null keys are refused by the NOT NULL
    column after the id has been drawn; a statement that the environment
    rejects has drawn its id or not, as the environment says. *)
Definition insertSubscription (env : Env) (userId : Z) (endpoint : string)
    (keys : option Json) (userAgent : option string) : M unit :=
  fun w =>
    let n := List.length (dbTrace w) in
    let w1 := recordStatement (InsertSubscription userId endpoint keys userAgent) w in
    if dbFails env n
    then (Throw DbError, if drawsId env n then drawId w1 else w1)
    else
      match keys with
      | None => (Throw DbError, drawId w1)
      | Some k =>
          (Ok tt, setPushSubscriptions
                    (pushSubscriptions w1 ++
                       [{| sub_id := pushSubscriptionsSerial w1;
                           sub_userId := userId;
                           sub_endpoint := endpoint;
                           sub_keys := k;
                           sub_userAgent := userAgent;
                           sub_createdAt := clock env |}])
                    (pushSubscriptionsSerial w1 + 1) w1)
      end.

(** ** The clock *)

Definition msPerMinute : Z := 60000.
Definition msPerHour : Z := 3600000.
Definition msPerDay : Z := 86400000.

(** [date.getHours()] and [date.getMinutes()], in the server's zone. *)
Definition getHours (env : Env) (date : Z) : Z :=
  ((date + tzOffsetMinutes env * msPerMinute) / msPerHour) mod 24.

Definition getMinutes (env : Env) (date : Z) : Z :=
  ((date + tzOffsetMinutes env * msPerMinute) / msPerMinute) mod 60.

(** [d.setDate(d.getDate() + 1)] and [d.setHours(d.getHours() + 1)]. *)
Definition nextDay (date : Z) : Z := date + msPerDay.
Definition nextHour (date : Z) : Z := date + msPerHour.

(** [now.getHours() * 60 + now.getMinutes()]. *)
Definition currentMinutes (env : Env) : Z :=
  getHours env (clock env) * 60 + getMinutes env (clock env).

(** ** server/services/pushNotificationService.ts *)

(** [webpush.sendNotification(pushSubscription, JSON.stringify(payload))]. *)
Definition sendNotification (env : Env) (endpoint : string) (keys : Json)
    (payload : NotificationPayload) : M unit :=
  fun w =>
    let w1 := recordPush endpoint payload w in
    match webpush env endpoint payload with
    | Accepted => (Ok tt, w1)
    | Rejected sc => (Throw (WebPushError sc), w1)
    end.

(** [error.statusCode === 410 || error.statusCode === 404]. *)
Definition isGone (error : Exn) : bool :=
  match statusCode error with
  | Some code => (code =? 410) || (code =? 404)
  | None => false
  end.

(** The body of [subscriptions.map(async (sub) => { ... })]. *)
Definition sendToDevice (env : Env) (userId : Z) (payload : NotificationPayload)
    (sub : PushSubscription) : M unit :=
  tryCatch
    (sendNotification env (sub_endpoint sub) (sub_keys sub) payload ;;;
     consoleWrite (LogPushSent userId (substring 0 50 (sub_endpoint sub))))
    (fun error =>
       if isGone error
       then deleteSubscriptionById env (sub_id sub) ;;;
            consoleWrite (LogRemovedExpired userId)
       else consoleWrite (ErrFailedToSendPush userId error)).

(** [await Promise.allSettled(subscriptions.map(async (sub) => ...))]:
    the device promises are run one after the other, in the order of the
    select; each is settled on its own. *)
Definition fanOut (env : Env) (userId : Z) (payload : NotificationPayload)
    (subs : list PushSubscription) : M unit :=
  forEach subs (fun sub => settled (sendToDevice env userId payload sub)).


(** [PushNotificationService.sendToUser]; the call is written into
    [notified] on entry. *)
Definition sendToUser (env : Env) (userId : Z) (payload : NotificationPayload) : M unit :=
  fun w =>
    tryCatch
      (subscriptions <- selectSubscriptionsOfUser env userId ;;
       match subscriptions with
       | [] => consoleWrite (LogNoSubscriptions userId)
       | _ => fanOut env userId payload subscriptions
       end)
      (fun error => consoleWrite (ErrSendingPush error) ;;; throw error)
      (recordNotified userId payload w).

(** ** server/jobs/notificationScheduler.ts *)

Record NotificationContext : Type := {
  ctx_userId : Z;
  ctx_preferences : NotificationPreferences;
  ctx_subscriptions : list PushSubscription
}.

(** [isQuietHours(quietStart, quietEnd)], reading the clock. *)
Definition isQuietHours (env : Env) (quietStart quietEnd : string) : bool :=
  let currentTime := Num (currentMinutes env) in
  let startTime := totalMinutes quietStart in
  let endTime := totalMinutes quietEnd in
  quietHoursTest currentTime startTime endTime.

(** The loop of [getUsersForNotifications] over the preference rows. *)
Fixpoint collectContexts (env : Env) (prefs : list NotificationPreferences)
    (contexts : list NotificationContext) : M (list NotificationContext) :=
  match prefs with
  | [] => ret contexts
  | pref :: rest =>
      if isQuietHours env (orDefault (quietHoursStart pref) "22:00")
                          (orDefault (quietHoursEnd pref) "08:00")
      then collectContexts env rest contexts
      else
        subs <- selectSubscriptionsOfUser env (pref_userId pref) ;;
        match subs with
        | [] => collectContexts env rest contexts
        | _ => collectContexts env rest
                 (contexts ++ [{| ctx_userId := pref_userId pref;
                                  ctx_preferences := pref;
                                  ctx_subscriptions := subs |}])%list
        end
  end.

Definition getUsersForNotifications (env : Env) : M (list NotificationContext) :=
  prefs <- selectPreferences env ;;
  collectContexts env prefs [].

(** A nullable boolean column used as a condition. *)
Definition truthy (b : option bool) : bool :=
  match b with
  | Some true => true
  | _ => false
  end.

(** [column !== 'literal'] on a nullable text column. *)
Definition differs (column : option string) (literal : string) : bool :=
  match column with
  | Some v => negb (String.eqb v literal)
  | None => true
  end.

(** The [eventTypes] array of [getRelevantEvents] after the six pushes. *)
Definition eventTypes (preferences : NotificationPreferences) : list string :=
  ((if truthy (tidesEnabled preferences) && differs (tidesFrequency preferences) "never"
    then ["tide"] else []) ++
   (if truthy (sportsEnabled preferences) && differs (sportsFrequency preferences) "never"
    then ["match_liga"; "uefa"; "fifa"] else []) ++
   (if truthy (astronomyEnabled preferences) && differs (astronomyFrequency preferences) "never"
    then ["astronomy"; "moon"] else []) ++
   (if truthy (agricultureEnabled preferences) && differs (agricultureFrequency preferences) "never"
    then ["agriculture"] else []) ++
   (if truthy (culturalEnabled preferences) && differs (culturalFrequency preferences) "never"
    then ["event_pt"; "cultural"] else []) ++
   (if truthy (holidaysEnabled preferences) && differs (holidaysFrequency preferences) "never"
    then ["holiday"] else []))%list.

Definition getRelevantEvents (env : Env) (context : NotificationContext) : M (list Event) :=
  let preferences := ctx_preferences context in
  let now := clock env in
  let tomorrow := nextDay now in
  match eventTypes preferences with
  | [] => ret []
  | types => selectEventsAnyOf types now tomorrow 10
  end.

(** The payload of the digest. *)
Definition digestPayload (relevantEvents : list Event) : NotificationPayload :=
  {| title := "AlmanaqueLuso - " ++ showZ (Z.of_nat (List.length relevantEvents))
              ++ " eventos hoje";
     body := join ", " (map ev_title (firstn 3 relevantEvents));
     url := Some "/dashboard";
     tag := Some "daily-digest" |}.

(** One turn of the loop of [sendDailyDigest]; the result is the new value
    of [notificationsSent]. *)
Definition digestForContext (env : Env) (context : NotificationContext)
    (notificationsSent : Z) : M Z :=
  let preferences := ctx_preferences context in
  let subscriptions := ctx_subscriptions context in
  let preferredTotalMinutes :=
    totalMinutes (orDefault (preferredNotificationTime preferences) "09:00") in
  let currentTotalMinutes := Num (currentMinutes env) in
  if outsideSendWindow currentTotalMinutes preferredTotalMinutes
  then ret notificationsSent
  else
    relevantEvents <- getRelevantEvents env context ;;
    match relevantEvents with
    | [] => ret notificationsSent
    | _ =>
        tryCatch
          (sendToUser env (ctx_userId context) (digestPayload relevantEvents) ;;;
           ret (notificationsSent + Z.of_nat (List.length subscriptions)))
          (fun error =>
             consoleWrite (ErrFailedToSendToUser (ctx_userId context) error) ;;;
             ret notificationsSent)
    end.

Fixpoint digestLoop (env : Env) (contexts : list NotificationContext)
    (notificationsSent : Z) : M Z :=
  match contexts with
  | [] => ret notificationsSent
  | context :: rest =>
      n <- digestForContext env context notificationsSent ;;
      digestLoop env rest n
  end.

(** The [try] block of [sendDailyDigest]. *)
Definition digestJob (env : Env) : M unit :=
  contexts <- getUsersForNotifications env ;;
  notificationsSent <- digestLoop env contexts 0 ;;
  consoleWrite (LogDigestSent notificationsSent).

Definition sendDailyDigest (env : Env) : M unit :=
  consoleWrite LogDigestRunning ;;;
  tryFinally
    (tryCatch (digestJob env)
       (fun error => consoleWrite (ErrDigestJobFailed error)))
    (consoleWrite LogDigestCompleted).

(** The payload of one tide alert; a null location prints as "null". *)
Definition tidePayload (tide : Event) : NotificationPayload :=
  {| title := "AlmanaqueLuso - MarÃ© PrÃ³xima";
     body := ev_title tide ++ " - " ++
             match ev_location tide with
             | Some l => l
             | None => "null"
             end;
     url := Some "/dashboard";
     tag := Some ("tide-" ++ showZ (ev_id tide)) |}.

(** The body of [for (const tide of upcomingTides)]. *)
Definition alertTide (env : Env) (context : NotificationContext) (tide : Event) : M unit :=
  tryCatch
    (sendToUser env (ctx_userId context) (tidePayload tide))
    (fun error => consoleWrite (ErrFailedToSendImmediate error)).

(** One turn of the loop of [sendImmediateNotifications]. *)
Definition immediateForContext (env : Env) (context : NotificationContext) : M unit :=
  let preferences := ctx_preferences context in
  if negb (truthy (tidesEnabled preferences))
     || differs (tidesFrequency preferences) "immediate"
  then ret tt
  else
    let now := clock env in
    let oneHour := nextHour now in
    upcomingTides <- selectEvents env ["tide"] now oneHour 5 ;;
    forEach upcomingTides (alertTide env context).

Definition sendImmediateNotifications (env : Env) : M unit :=
  tryCatch
    (contexts <- getUsersForNotifications env ;;
     forEach contexts (immediateForContext env))
    (fun error => consoleWrite (ErrImmediateCheckFailed error)).

(** ** server/routes.ts: POST /api/push/subscribe *)

(** One property of the JSON request body, as the zod schema sees it. *)
Inductive Field (A : Type) : Type :=
| Missing
| Null
| Value (a : A)
| IllTyped.

Arguments Missing {A}.
Arguments Null {A}.
Arguments Value {A} a.
Arguments IllTyped {A}.

Record SubscribeBody : Type := {
  body_endpoint : Field string;
  body_keys : Field Json;
  body_userAgent : Field string
}.

(** The parsed insert record; [ins_keys] is [None] when the value is
    null, [ins_userAgent] is [None] when the property is [undefined]. *)
Record InsertPushSubscription : Type := {
  ins_userId : Z;
  ins_endpoint : string;
  ins_keys : option Json;
  ins_userAgent : option (option string)
}.

(** What the schema makes of the [keys] property: the column is jsonb, and
    the schema of a jsonb column takes every JSON value, null among them;
    only a missing property is refused. No JSON value is ill-typed for it,
    so [IllTyped] does not arise; it is refused here. *)
Definition acceptedKeys (keys : Field Json) : option (option Json) :=
  match keys with
  | Value k => Some (Some k)
  | Null => Some None
  | Missing => None
  | IllTyped => None
  end.

(** [insertPushSubscriptionSchema.parse({ ...req.body, userId })]: user_id
    and endpoint are NOT NULL without default, keys is a required JSON
    value, user_agent is nullable; id and created_at are omitted. *)
Definition parseInsertPushSubscription (userId : Z) (b : SubscribeBody)
    : M InsertPushSubscription :=
  match body_endpoint b, acceptedKeys (body_keys b) with
  | Value e, Some k =>
      match body_userAgent b with
      | Missing => ret {| ins_userId := userId; ins_endpoint := e; ins_keys := k;
                          ins_userAgent := None |}
      | Null => ret {| ins_userId := userId; ins_endpoint := e; ins_keys := k;
                       ins_userAgent := Some None |}
      | Value ua => ret {| ins_userId := userId; ins_endpoint := e; ins_keys := k;
                           ins_userAgent := Some (Some ua) |}
      | IllTyped => throw ZodError
      end
  | _, _ => throw ZodError
  end.

Inductive Response : Type :=
| Json200
| Status500 (error : Exn).

(** The handler, after [authenticate] has set [req.userId]. *)
Definition pushSubscribe (env : Env) (userId : Z) (b : SubscribeBody) : M Response :=
  tryCatch
    (subscriptionData <- parseInsertPushSubscription userId b ;;
     existing <- selectSubscriptionsByEndpoint env (ins_endpoint subscriptionData) 1 ;;
     match existing with
     | _ :: _ =>
         updateSubscriptionByEndpoint env (ins_endpoint subscriptionData)
           (ins_keys subscriptionData) (ins_userAgent subscriptionData)
     | [] =>
         insertSubscription env (ins_userId subscriptionData)
           (ins_endpoint subscriptionData) (ins_keys subscriptionData)
           (match ins_userAgent subscriptionData with
            | Some ua => ua
            | None => None
            end)
     end ;;;
     ret Json200)
    (fun error => consoleWrite (ErrPushSubscription error) ;;; ret (Status500 error)).

(** ** What a computation leaves alone *)

(** [m] never changes the [field] of the world, whether it returns or
    throws. *)
Definition preserves {X A : Type} (field : World -> X) (m : M A) : Prop :=
  forall w, field (snd (m w)) = field w.

(** ** The categories, in the words of the specification

    The code has no type of categories: it names the twelve columns one by
    one. These definitions state the mapping from a category to its
    event-type codes as the specification words it; [eventTypes] above is
    compared with them. *)

Inductive Category : Type :=
| Tides | Sports | Astronomy | Agriculture | Cultural | Holidays.

Definition categoryCodes (c : Category) : list string :=
  match c with
  | Tides => ["tide"]
  | Sports => ["match_liga"; "uefa"; "fifa"]
  | Astronomy => ["astronomy"; "moon"]
  | Agriculture => ["agriculture"]
  | Cultural => ["event_pt"; "cultural"]
  | Holidays => ["holiday"]
  end.

Definition categoryEnabled (p : NotificationPreferences) (c : Category) : option bool :=
  match c with
  | Tides => tidesEnabled p
  | Sports => sportsEnabled p
  | Astronomy => astronomyEnabled p
  | Agriculture => agricultureEnabled p
  | Cultural => culturalEnabled p
  | Holidays => holidaysEnabled p
  end.

Definition categoryFrequency (p : NotificationPreferences) (c : Category) : option string :=
  match c with
  | Tides => tidesFrequency p
  | Sports => sportsFrequency p
  | Astronomy => astronomyFrequency p
  | Agriculture => agricultureFrequency p
  | Cultural => culturalFrequency p
  | Holidays => holidaysFrequency p
  end.

(** Enabled, with a frequency that is not 'never'. *)
Definition categoryActive (p : NotificationPreferences) (c : Category) : Prop :=
  categoryEnabled p c = Some true /\ categoryFrequency p c <> Some "never".

(** The same row with another preferred notification time. *)
Definition withPreferredTime (preferred : option string)
    (p : NotificationPreferences) : NotificationPreferences :=
  {| pref_id := pref_id p;
     pref_userId := pref_userId p;
     tidesEnabled := tidesEnabled p;
     sportsEnabled := sportsEnabled p;
     astronomyEnabled := astronomyEnabled p;
     agricultureEnabled := agricultureEnabled p;
     culturalEnabled := culturalEnabled p;
     holidaysEnabled := holidaysEnabled p;
     tidesFrequency := tidesFrequency p;
     sportsFrequency := sportsFrequency p;
     astronomyFrequency := astronomyFrequency p;
     agricultureFrequency := agricultureFrequency p;
     culturalFrequency := culturalFrequency p;
     holidaysFrequency := holidaysFrequency p;
     preferredNotificationTime := preferred;
     quietHoursStart := quietHoursStart p;
     quietHoursEnd := quietHoursEnd p |}.

Definition contextWithPreferredTime (preferred : option string)
    (c : NotificationContext) : NotificationContext :=
  {| ctx_userId := ctx_userId c;
     ctx_preferences := withPreferredTime preferred (ctx_preferences c);
     ctx_subscriptions := ctx_subscriptions c |}.

(** ** Concrete scenarios *)

Module Scenario.

(** A row with the column defaults of the schema. *)
Definition defaultPreferences (id userId : Z) : NotificationPreferences :=
  {| pref_id := id;
     pref_userId := userId;
     tidesEnabled := Some true;
     sportsEnabled := Some true;
     astronomyEnabled := Some true;
     agricultureEnabled := Some false;
     culturalEnabled := Some true;
     holidaysEnabled := Some true;
     tidesFrequency := Some "immediate";
     sportsFrequency := Some "daily";
     astronomyFrequency := Some "daily";
     agricultureFrequency := Some "weekly";
     culturalFrequency := Some "weekly";
     holidaysFrequency := Some "daily";
     preferredNotificationTime := Some "09:00";
     quietHoursStart := Some "22:00";
     quietHoursEnd := Some "08:00" |}.

(** The same row with other time preferences. *)
Definition withTimes (preferred quietStart quietEnd : string)
    (p : NotificationPreferences) : NotificationPreferences :=
  {| pref_id := pref_id p;
     pref_userId := pref_userId p;
     tidesEnabled := tidesEnabled p;
     sportsEnabled := sportsEnabled p;
     astronomyEnabled := astronomyEnabled p;
     agricultureEnabled := agricultureEnabled p;
     culturalEnabled := culturalEnabled p;
     holidaysEnabled := holidaysEnabled p;
     tidesFrequency := tidesFrequency p;
     sportsFrequency := sportsFrequency p;
     astronomyFrequency := astronomyFrequency p;
     agricultureFrequency := agricultureFrequency p;
     culturalFrequency := culturalFrequency p;
     holidaysFrequency := holidaysFrequency p;
     preferredNotificationTime := Some preferred;
     quietHoursStart := Some quietStart;
     quietHoursEnd := Some quietEnd |}.

Definition device (id userId : Z) (endpoint : string) : PushSubscription :=
  {| sub_id := id;
     sub_userId := userId;
     sub_endpoint := endpoint;
     sub_keys := "{}";
     sub_userAgent := Some "Firefox";
     sub_createdAt := 0 |}.

Definition event (id : Z) (type name : string) (startAt : Z) : Event :=
  {| ev_id := id;
     ev_type := type;
     ev_title := name;
     ev_startAt := startAt;
     ev_location := Some "Lisboa" |}.

(** Midnight UTC of day 20000 after the epoch, in milliseconds. *)
Definition midnight : Z := 20000 * msPerDay.

(** The server runs in UTC; the clock reads [hh]:[mm] on that day; a
    rejected INSERT has drawn its id. *)
Definition envAt (hh mm : Z) (faults : nat -> bool)
    (answer : string -> NotificationPayload -> PushAnswer) : Env :=
  {| clock := midnight + hh * msPerHour + mm * msPerMinute;
     tzOffsetMinutes := 0;
     dbFails := faults;
     drawsId := fun _ => true;
     webpush := answer |}.

Definition noFault : nat -> bool := fun _ => false.
Definition faultAt (k : nat) : nat -> bool := fun n => Nat.eqb n k.
Definition allAccepted : string -> NotificationPayload -> PushAnswer :=
  fun _ _ => Accepted.

Definition world (prefs : list NotificationPreferences) (subs : list PushSubscription)
    (evs : list Event) : World :=
  {| notificationPreferences := prefs;
     pushSubscriptions := subs;
     events := evs;
     pushSubscriptionsSerial := 100;
     dbTrace := [];
     pushTrace := [];
     notified := [];
     console := [] |}.

(** Two users with the default preferences, one device each, and one
    league match three hours after nine o'clock. *)
Definition twoUsers : World :=
  world [defaultPreferences 1 1; defaultPreferences 2 2]
        [device 11 1 "https://push.example/a"; device 12 2 "https://push.example/b"]
        [event 1 "match_liga" "Benfica - Porto" (midnight + 12 * msPerHour)].

(** One user whose three time preferences are not times, a league match
    at noon and a tide at half past three at night. *)
Definition nightTide : Event :=
  event 2 "tide" "Preia-mar" (midnight + 3 * msPerHour + 30 * msPerMinute).

Definition malformedUser : World :=
  world [withTimes "soon" "late" "early" (defaultPreferences 7 7)]
        [device 17 7 "https://push.example/m"]
        [event 1 "match_liga" "Benfica - Porto" (midnight + 12 * msPerHour); nightTide].



Definition boundaryContext : NotificationContext :=
  {| ctx_userId := 1;
     ctx_preferences := defaultPreferences 1 1;
     ctx_subscriptions := [device 11 1 "https://push.example/a"] |}.

(** A push service for which the first device is gone and the second one
    is unreachable for now. *)
Definition goneAndBusy : string -> NotificationPayload -> PushAnswer :=
  fun endpoint _ =>
    if String.eqb endpoint "https://push.example/a" then Rejected (Some 410)
    else if String.eqb endpoint "https://push.example/b" then Rejected (Some 503)
    else Accepted.

(** One user with three devices, and a device of somebody else. *)
Definition threeDevices : World :=
  world [defaultPreferences 1 1]
        [device 11 1 "https://push.example/a"; device 12 1 "https://push.example/b";
         device 13 1 "https://push.example/c"; device 14 2 "https://push.example/d"]
        [].

Definition testPayload : NotificationPayload :=
  {| title := "Teste AlmanaqueLuso";
     body := "Esta e uma notificacao de teste!";
     url := Some "/dashboard";
     tag := Some "test-notification" |}.

(** A re-subscription of the endpoint of device 11 by user 2, and a
    first subscription of a new endpoint. *)
Definition resubscribe : SubscribeBody :=
  {| body_endpoint := Value "https://push.example/a";
     body_keys := Value "{new}";
     body_userAgent := Value "Chrome" |}.

Definition subscribeNew : SubscribeBody :=
  {| body_endpoint := Value "https://push.example/z";
     body_keys := Value "{new}";
     body_userAgent := Missing |}.

End Scenario.

(** ** The rest of server/services/pushNotificationService.ts *)

Module PushNotificationService.

(** [a < b], [a > b] and [a >= b] on two strings: the order of their code
    units, position by position. Strings are byte strings here; on ASCII
    text, which the times of day are, the two orders are the same. *)
Definition lessThan (a b : string) : bool := String.ltb a b.
Definition greaterThan (a b : string) : bool := String.ltb b a.
Definition atLeast (a b : string) : bool := negb (String.ltb a b).

Fixpoint replicate (n : nat) (c : ascii) : string :=
  match n with
  | O => EmptyString
  | S k => String c (replicate k c)
  end.

(** [s.padStart(targetLength, fill)] for a one-character [fill]. *)
Definition padStart (targetLength : nat) (fill : ascii) (s : string) : string :=
  replicate (targetLength - String.length s) fill ++ s.

(** The template literal of [isQuietHours]: hours and minutes of the clock,
    each padded to two characters, with a colon between them. *)
Definition currentTime (env : Env) : string :=
  padStart 2 "0"%char (showZ (getHours env (clock env)))
  ++ ":" ++ padStart 2 "0"%char (showZ (getMinutes env (clock env))).

(** [PushNotificationService.isQuietHours(prefs)]: the bounds and the
    current time are compared as strings. *)
Definition isQuietHours (env : Env) (prefs : NotificationPreferences) : bool :=
  let quietStart := orDefault (quietHoursStart prefs) "22:00" in
  let quietEnd := orDefault (quietHoursEnd prefs) "08:00" in
  if greaterThan quietStart quietEnd
  then atLeast (currentTime env) quietStart || lessThan (currentTime env) quietEnd
  else atLeast (currentTime env) quietStart && lessThan (currentTime env) quietEnd.

(** [PushNotificationService.sendToUsers]: one [sendToUser] per id, all of
    them settled; the promises are run in the order of the ids. *)
Definition sendToUsers (env : Env) (userIds : list Z) (payload : NotificationPayload)
    : M unit :=
  forEach userIds (fun userId => settled (sendToUser env userId payload)).

End PushNotificationService.

(** ** The ticks: initNotificationScheduler *)

(** [cron.schedule('*/15 * * * *', ...)]: the job runs in the minutes of
    the day whose minute-of-the-hour is a multiple of 15. Both jobs have
    this schedule. *)
Definition cronEveryFifteenMinutes (minuteOfDay : Z) : bool :=
  (minuteOfDay mod 60) mod 15 =? 0.

(** ** Names for what the loops of the scheduler test *)

(** The test of [getUsersForNotifications] on one preference row. *)
Definition quietNow (env : Env) (pref : NotificationPreferences) : bool :=
  isQuietHours env (orDefault (quietHoursStart pref) "22:00")
                   (orDefault (quietHoursEnd pref) "08:00").


(** The rows of the subscription table that belong to one user. *)
Definition subscriptionsOf (userId : Z) (subs : list PushSubscription)
    : list PushSubscription :=
  filter (fun s => sub_userId s =? userId) subs.

Definition contextOf (pref : NotificationPreferences) (subs : list PushSubscription)
    : NotificationContext :=
  {| ctx_userId := pref_userId pref;
     ctx_preferences := pref;
     ctx_subscriptions := subscriptionsOf (pref_userId pref) subs |}.

(** The contexts of a tick, written without the loop: the rows that are not
    quiet and whose user has a registration, in the order of the table. *)
Definition candidateContexts (env : Env) (prefs : list NotificationPreferences)
    (subs : list PushSubscription) : list NotificationContext :=
  flat_map (fun pref =>
              if quietNow env pref then []
              else match subscriptionsOf (pref_userId pref) subs with
                   | [] => []
                   | _ => [contextOf pref subs]
                   end) prefs.

(** The constraints of push_subscriptions: the primary key, the unique
    endpoint, and a serial that is ahead of every id handed out. *)
Definition keysHold (w : World) : Prop :=
  NoDup (map sub_id (pushSubscriptions w))
  /\ NoDup (map sub_endpoint (pushSubscriptions w))
  /\ (forall s, In s (pushSubscriptions w) -> sub_id s < pushSubscriptionsSerial w).

(** Several statements written to the trace, one after the other. *)
Definition recordStatements (l : list Statement) (w : World) : World :=
  fold_left (fun w s => recordStatement s w) l w.

(** The statements of [getUsersForNotifications] when all are answered:
    the preferences, then the registrations of each user that is not
    quiet. *)
Definition candidateStatements (env : Env) (prefs : list NotificationPreferences)
    : list Statement :=
  map (fun pref => SelectSubscriptionsOfUser (pref_userId pref))
      (filter (fun pref => negb (quietNow env pref)) prefs).

(** [m] takes every world to a world related to it by [R], whether it
    returns or throws. *)
Definition respects {A : Type} (R : World -> World -> Prop) (m : M A) : Prop :=
  forall w, R w (snd (m w)).

(** Nothing is added to the subscription table. *)
Definition noNewRows (w w' : World) : Prop :=
  forall s, In s (pushSubscriptions w') -> In s (pushSubscriptions w).

(** What a tick only reads. *)
Definition sameStore (w w' : World) : Prop :=
  events w' = events w
  /\ notificationPreferences w' = notificationPreferences w
  /\ pushSubscriptionsSerial w' = pushSubscriptionsSerial w.


(** [payload] is the alert of a tide of the table [evs] for the preference
    row [pref]: tides are enabled at frequency 'immediate' and the tide
    starts within the next hour. *)
Definition tideAlertFor (env : Env) (evs : list Event) (pref : NotificationPreferences)
    (payload : NotificationPayload) : Prop :=
  tidesEnabled pref = Some true
  /\ tidesFrequency pref = Some "immediate"
  /\ exists tide,
       In tide evs
       /\ ev_type tide = "tide"
       /\ clock env <= ev_startAt tide <= clock env + msPerHour
       /\ payload = tidePayload tide.

(** ** The other push and preference routes, and sendWithPreferences

    Their database statements and console lines are journalled beside the
    world, in a [Site]; the number of a statement, which the environment
    uses to say whether it fails, counts the statements of both traces. *)

(** The fifteen settings of a preference row as a request or a default
    object carries them: [None] is a property left out ([undefined]),
    [Some None] is null. *)
Record PreferencesData : Type := {
  d_tidesEnabled : option (option bool);
  d_sportsEnabled : option (option bool);
  d_astronomyEnabled : option (option bool);
  d_agricultureEnabled : option (option bool);
  d_culturalEnabled : option (option bool);
  d_holidaysEnabled : option (option bool);
  d_tidesFrequency : option (option string);
  d_sportsFrequency : option (option string);
  d_astronomyFrequency : option (option string);
  d_agricultureFrequency : option (option string);
  d_culturalFrequency : option (option string);
  d_holidaysFrequency : option (option string);
  d_preferredNotificationTime : option (option string);
  d_quietHoursStart : option (option string);
  d_quietHoursEnd : option (option string)
}.

Inductive RouteStatement : Type :=
| SelectSubscriptionsOfUserLimit (userId : Z) (limit : nat)
| DeleteSubscriptionsByEndpoint (endpoint : string)
| SelectPreferencesOfUser (userId : Z) (limit : nat)
| UpdatePreferencesOfUser (userId : Z) (data : PreferencesData)
| InsertPreferences (userId : Z) (data : PreferencesData).

Inductive RouteLine : Type :=
| ErrPushStatusCheck (error : Exn)
| ErrPushUnsubscribe (error : Exn)
| ErrGetPreferences (error : Exn)
| ErrUpdatePreferences (error : Exn)
| ErrTestNotification (error : Exn)
| LogTypeDisabled (userId : Z) (notificationType : Category)
| LogWillBeBatched (userId : Z) (notificationType : Category) (frequency : option string)
| ErrCheckingPreferences (error : Exn).

Record Site : Type := {
  site_world : World;
  preferencesSerial : Z;
  routeStatements : list RouteStatement;
  routeConsole : list RouteLine
}.

Definition withWorld (w : World) (s : Site) : Site :=
  {| site_world := w;
     preferencesSerial := preferencesSerial s;
     routeStatements := routeStatements s;
     routeConsole := routeConsole s |}.

Definition recordRouteStatement (label : RouteStatement) (s : Site) : Site :=
  {| site_world := site_world s;
     preferencesSerial := preferencesSerial s;
     routeStatements := routeStatements s ++ [label];
     routeConsole := routeConsole s |}.

Definition recordRouteLine (l : RouteLine) (s : Site) : Site :=
  {| site_world := site_world s;
     preferencesSerial := preferencesSerial s;
     routeStatements := routeStatements s;
     routeConsole := routeConsole s ++ [l] |}.

Definition setNotificationPreferences (prefs : list NotificationPreferences) (serial : Z)
    (s : Site) : Site :=
  {| site_world := {| notificationPreferences := prefs;
                 pushSubscriptions := pushSubscriptions (site_world s);
                 events := events (site_world s);
                 pushSubscriptionsSerial := pushSubscriptionsSerial (site_world s);
                 dbTrace := dbTrace (site_world s);
                 pushTrace := pushTrace (site_world s);
                 notified := notified (site_world s);
                 console := console (site_world s) |};
     preferencesSerial := serial;
     routeStatements := routeStatements s;
     routeConsole := routeConsole s |}.

(** Computations on a site, with the same exceptions. *)
Definition Handler (A : Type) : Type := Site -> Result A * Site.

Definition hret {A : Type} (a : A) : Handler A := fun s => (Ok a, s).

Definition hbind {A B : Type} (m : Handler A) (k : A -> Handler B) : Handler B :=
  fun s =>
    match m s with
    | (Ok a, s1) => k a s1
    | (Throw e, s1) => (Throw e, s1)
    end.

Definition hthrow {A : Type} (e : Exn) : Handler A := fun s => (Throw e, s).

Definition hcatch {A : Type} (m : Handler A) (handler : Exn -> Handler A) : Handler A :=
  fun s =>
    match m s with
    | (Ok a, s1) => (Ok a, s1)
    | (Throw e, s1) => handler e s1
    end.

Definition routeWrite (l : RouteLine) : Handler unit :=
  fun s => (Ok tt, recordRouteLine l s).

(** The number of the next statement. *)
Definition position (s : Site) : nat :=
  (List.length (dbTrace (site_world s)) + List.length (routeStatements s))%nat.

(** The environment as a computation on the world sees it when [k]
    statements are in the journal. *)
Definition shifted (env : Env) (k : nat) : Env :=
  {| clock := clock env;
     tzOffsetMinutes := tzOffsetMinutes env;
     dbFails := fun n => dbFails env (n + k)%nat;
     drawsId := fun n => drawsId env (n + k)%nat;
     webpush := webpush env |}.

(** A computation on the world, run inside a site. *)
Definition lift {A : Type} (env : Env) (m : Env -> M A) : Handler A :=
  fun s =>
    let (r, w') := m (shifted env (List.length (routeStatements s))) (site_world s) in
    (r, withWorld w' s).

(** One journalled statement. *)
Definition routeStatement {A : Type} (env : Env) (label : RouteStatement)
    (run : Site -> A * Site) : Handler A :=
  fun s =>
    let s1 := recordRouteStatement label s in
    if dbFails env (position s) then (Throw DbError, s1)
    else let (a, s2) := run s1 in (Ok a, s2).

Declare Scope handler_scope.
Delimit Scope handler_scope with handler.
Notation "x <- m ;; k" := (hbind m (fun x => k))
  (at level 100, m at next level, right associativity) : handler_scope.
Notation "m ;;; k" := (hbind m (fun _ => k))
  (at level 100, right associativity) : handler_scope.
Local Open Scope handler_scope.

(** [... .from(pushSubscriptions).where(eq(userId, u)).limit(n)]. *)
Definition selectSubscriptionsOfUserLimit (env : Env) (userId : Z) (limit : nat)
    : Handler (list PushSubscription) :=
  routeStatement env (SelectSubscriptionsOfUserLimit userId limit)
    (fun s => (firstn limit (subscriptionsOf userId (pushSubscriptions (site_world s))), s)).

(** [db.delete(pushSubscriptions).where(eq(endpoint, e))]. *)
Definition deleteSubscriptionsByEndpoint (env : Env) (endpoint : string) : Handler unit :=
  routeStatement env (DeleteSubscriptionsByEndpoint endpoint)
    (fun s =>
       (tt, withWorld
              (setPushSubscriptions
                 (filter (fun r => negb (String.eqb (sub_endpoint r) endpoint))
                    (pushSubscriptions (site_world s)))
                 (pushSubscriptionsSerial (site_world s)) (site_world s)) s)).

(** [... .from(notificationPreferences).where(eq(userId, u)).limit(n)]. *)
Definition selectPreferencesOfUser (env : Env) (userId : Z) (limit : nat)
    : Handler (list NotificationPreferences) :=
  routeStatement env (SelectPreferencesOfUser userId limit)
    (fun s => (firstn limit
                 (filter (fun p => pref_userId p =? userId)
                    (notificationPreferences (site_world s))), s)).

(** A column after [.set] or [.values]: a property left out keeps what is
    there (the current value, or the column default), null and a value
    replace it. *)
Definition choose {A : Type} (given : option (option A)) (current : option A) : option A :=
  match given with
  | Some v => v
  | None => current
  end.

Definition applyData (d : PreferencesData) (row : NotificationPreferences)
    : NotificationPreferences :=
  {| pref_id := pref_id row;
     pref_userId := pref_userId row;
     tidesEnabled := choose (d_tidesEnabled d) (tidesEnabled row);
     sportsEnabled := choose (d_sportsEnabled d) (sportsEnabled row);
     astronomyEnabled := choose (d_astronomyEnabled d) (astronomyEnabled row);
     agricultureEnabled := choose (d_agricultureEnabled d) (agricultureEnabled row);
     culturalEnabled := choose (d_culturalEnabled d) (culturalEnabled row);
     holidaysEnabled := choose (d_holidaysEnabled d) (holidaysEnabled row);
     tidesFrequency := choose (d_tidesFrequency d) (tidesFrequency row);
     sportsFrequency := choose (d_sportsFrequency d) (sportsFrequency row);
     astronomyFrequency := choose (d_astronomyFrequency d) (astronomyFrequency row);
     agricultureFrequency := choose (d_agricultureFrequency d) (agricultureFrequency row);
     culturalFrequency := choose (d_culturalFrequency d) (culturalFrequency row);
     holidaysFrequency := choose (d_holidaysFrequency d) (holidaysFrequency row);
     preferredNotificationTime :=
       choose (d_preferredNotificationTime d) (preferredNotificationTime row);
     quietHoursStart := choose (d_quietHoursStart d) (quietHoursStart row);
     quietHoursEnd := choose (d_quietHoursEnd d) (quietHoursEnd row) |}.

(** [db.update(notificationPreferences).set({ ...prefsData, updatedAt })
    .where(eq(userId, u))]; the two timestamp columns are not modelled. *)
Definition updatePreferencesOfUser (env : Env) (userId : Z) (d : PreferencesData)
    : Handler unit :=
  routeStatement env (UpdatePreferencesOfUser userId d)
    (fun s =>
       (tt, setNotificationPreferences
              (map (fun p => if pref_userId p =? userId then applyData d p else p)
                 (notificationPreferences (site_world s)))
              (preferencesSerial s) s)).

(** The serial of notification_preferences after an id has been drawn. *)
Definition drawPreferencesId (s : Site) : Site :=
  {| site_world := site_world s;
     preferencesSerial := preferencesSerial s + 1;
     routeStatements := routeStatements s;
     routeConsole := routeConsole s |}.

(** [db.insert(notificationPreferences).values({ ...prefsData, userId })]:
    the id comes from the serial, a property left out takes the default of
    its column. A rejected insert (the user of the token is gone, a row
    of the user has appeared meanwhile, the connection is lost) has drawn
    its id or not, as the environment says. *)
Definition insertPreferences (env : Env) (userId : Z) (d : PreferencesData)
    : Handler unit :=
  fun s =>
    let s1 := recordRouteStatement (InsertPreferences userId d) s in
    if dbFails env (position s)
    then (Throw DbError, if drawsId env (position s) then drawPreferencesId s1 else s1)
    else
      (Ok tt, setNotificationPreferences
                (notificationPreferences (site_world s1) ++
                   [applyData d (Scenario.defaultPreferences (preferencesSerial s1) userId)])
                (preferencesSerial s1 + 1) s1).

(** *** server/services/pushNotificationService.ts: sendWithPreferences *)

(** [PushNotificationService.sendWithPreferences]; [pref[enabledField]]
    and [pref[frequencyField]] are the two columns of the category. *)
Definition sendWithPreferences (env : Env) (userId : Z) (notificationType : Category)
    (payload : NotificationPayload) : Handler unit :=
  hcatch
    (prefs <- selectPreferencesOfUser env userId 1 ;;
     match prefs with
     | [] => lift env (fun e => sendToUser e userId payload)
     | pref :: _ =>
         if negb (truthy (categoryEnabled pref notificationType))
         then routeWrite (LogTypeDisabled userId notificationType)
         else
           let frequency := categoryFrequency pref notificationType in
           if negb (differs frequency "immediate")
           then lift env (fun e => sendToUser e userId payload)
           else routeWrite (LogWillBeBatched userId notificationType frequency)
     end)
    (fun error => routeWrite (ErrCheckingPreferences error) ;;; hthrow error).

(** *** server/routes.ts: the push routes *)

(** [{ success: true, ... }], or status 500. *)
Inductive Reply : Type :=
| ReplySuccess
| ReplyError (error : Exn).

Inductive StatusReply : Type :=
| StatusJson (isSubscribed : bool) (subscription : option PushSubscription)
| StatusError (error : Exn).

(** GET /api/push/subscription-status. *)
Definition subscriptionStatus (env : Env) (userId : Z) : Handler StatusReply :=
  hcatch
    (subscription <- selectSubscriptionsOfUserLimit env userId 1 ;;
     hret (StatusJson (match subscription with
                       | [] => false
                       | _ => true
                       end)
                      (hd_error subscription)))
    (fun error => routeWrite (ErrPushStatusCheck error) ;;; hret (StatusError error)).

(** POST /api/push/unsubscribe, for a body whose [endpoint] is a string;
    the handler reads [req.userId] and does not use it. *)
Definition pushUnsubscribe (env : Env) (userId : Z) (endpoint : string) : Handler Reply :=
  hcatch
    (deleteSubscriptionsByEndpoint env endpoint ;;;
     hret ReplySuccess)
    (fun error => routeWrite (ErrPushUnsubscribe error) ;;; hret (ReplyError error)).

Definition testNotification : NotificationPayload :=
  {| title := "Teste AlmanaqueLuso";
     body := "Esta é uma notificação de teste!";
     url := Some "/dashboard";
     tag := Some "test-notification" |}.

(** POST /api/push/test. *)
Definition pushTest (env : Env) (userId : Z) : Handler Reply :=
  hcatch
    (lift env (fun e => sendToUser e userId testNotification) ;;;
     hret ReplySuccess)
    (fun error => routeWrite (ErrTestNotification error) ;;; hret (ReplyError error)).

(** POST /api/push/subscribe, run inside a site. *)
Definition pushSubscribeRoute (env : Env) (userId : Z) (b : SubscribeBody)
    : Handler Response :=
  lift env (fun e => pushSubscribe e userId b).

(** *** server/routes.ts: the notification-preference routes *)

Record PreferencesBody : Type := {
  pb_tidesEnabled : Field bool;
  pb_sportsEnabled : Field bool;
  pb_astronomyEnabled : Field bool;
  pb_agricultureEnabled : Field bool;
  pb_culturalEnabled : Field bool;
  pb_holidaysEnabled : Field bool;
  pb_tidesFrequency : Field string;
  pb_sportsFrequency : Field string;
  pb_astronomyFrequency : Field string;
  pb_agricultureFrequency : Field string;
  pb_culturalFrequency : Field string;
  pb_holidaysFrequency : Field string;
  pb_preferredNotificationTime : Field string;
  pb_quietHoursStart : Field string;
  pb_quietHoursEnd : Field string
}.

(** A nullable, optional property under zod: [None] when it has the wrong
    type. *)
Definition accepted {A : Type} (f : Field A) : option (option (option A)) :=
  match f with
  | Missing => Some None
  | Null => Some (Some None)
  | Value a => Some (Some (Some a))
  | IllTyped => None
  end.

Definition bothAccepted {A B : Type} (x : option A) (k : A -> option B) : option B :=
  match x with
  | Some a => k a
  | None => None
  end.

(** The parsed record when every property is accepted; id, userId,
    createdAt and updatedAt are not part of the schema. *)
Definition acceptedPreferences (b : PreferencesBody) : option PreferencesData :=
  bothAccepted (accepted (pb_tidesEnabled b)) (fun a1 =>
  bothAccepted (accepted (pb_sportsEnabled b)) (fun a2 =>
  bothAccepted (accepted (pb_astronomyEnabled b)) (fun a3 =>
  bothAccepted (accepted (pb_agricultureEnabled b)) (fun a4 =>
  bothAccepted (accepted (pb_culturalEnabled b)) (fun a5 =>
  bothAccepted (accepted (pb_holidaysEnabled b)) (fun a6 =>
  bothAccepted (accepted (pb_tidesFrequency b)) (fun f1 =>
  bothAccepted (accepted (pb_sportsFrequency b)) (fun f2 =>
  bothAccepted (accepted (pb_astronomyFrequency b)) (fun f3 =>
  bothAccepted (accepted (pb_agricultureFrequency b)) (fun f4 =>
  bothAccepted (accepted (pb_culturalFrequency b)) (fun f5 =>
  bothAccepted (accepted (pb_holidaysFrequency b)) (fun f6 =>
  bothAccepted (accepted (pb_preferredNotificationTime b)) (fun t1 =>
  bothAccepted (accepted (pb_quietHoursStart b)) (fun t2 =>
  bothAccepted (accepted (pb_quietHoursEnd b)) (fun t3 =>
  Some {| d_tidesEnabled := a1; d_sportsEnabled := a2; d_astronomyEnabled := a3;
          d_agricultureEnabled := a4; d_culturalEnabled := a5; d_holidaysEnabled := a6;
          d_tidesFrequency := f1; d_sportsFrequency := f2; d_astronomyFrequency := f3;
          d_agricultureFrequency := f4; d_culturalFrequency := f5;
          d_holidaysFrequency := f6;
          d_preferredNotificationTime := t1; d_quietHoursStart := t2;
          d_quietHoursEnd := t3 |}))))))))))))))).

(** [insertNotificationPreferencesSchema.parse(req.body)]. *)
Definition parsePreferences (b : PreferencesBody) : Handler PreferencesData :=
  match acceptedPreferences b with
  | Some d => hret d
  | None => hthrow ZodError
  end.

(** The default object of GET /api/notifications/preferences. *)
Definition defaultSettings : PreferencesData :=
  {| d_tidesEnabled := Some (Some true);
     d_sportsEnabled := Some (Some true);
     d_astronomyEnabled := Some (Some true);
     d_agricultureEnabled := Some (Some false);
     d_culturalEnabled := Some (Some true);
     d_holidaysEnabled := Some (Some true);
     d_tidesFrequency := Some (Some "immediate");
     d_sportsFrequency := Some (Some "daily");
     d_astronomyFrequency := Some (Some "daily");
     d_agricultureFrequency := Some (Some "weekly");
     d_culturalFrequency := Some (Some "weekly");
     d_holidaysFrequency := Some (Some "daily");
     d_preferredNotificationTime := Some (Some "09:00");
     d_quietHoursStart := Some (Some "22:00");
     d_quietHoursEnd := Some (Some "08:00") |}.

Inductive PreferencesReply : Type :=
| PreferencesRow (row : NotificationPreferences)
| PreferencesDefaults (settings : PreferencesData)
| PreferencesError (error : Exn).

(** GET /api/notifications/preferences. *)
Definition getPreferences (env : Env) (userId : Z) : Handler PreferencesReply :=
  hcatch
    (prefs <- selectPreferencesOfUser env userId 1 ;;
     match prefs with
     | [] => hret (PreferencesDefaults defaultSettings)
     | row :: _ => hret (PreferencesRow row)
     end)
    (fun error => routeWrite (ErrGetPreferences error) ;;; hret (PreferencesError error)).

(** PUT /api/notifications/preferences. *)
Definition putPreferences (env : Env) (userId : Z) (b : PreferencesBody) : Handler Reply :=
  hcatch
    (prefsData <- parsePreferences b ;;
     existing <- selectPreferencesOfUser env userId 1 ;;
     match existing with
     | _ :: _ => updatePreferencesOfUser env userId prefsData
     | [] => insertPreferences env userId prefsData
     end ;;;
     hret ReplySuccess)
    (fun error => routeWrite (ErrUpdatePreferences error) ;;; hret (ReplyError error)).

Local Close Scope handler_scope.

(** A site around a world, with an empty journal. *)
Definition siteOf (w : World) : Site :=
  {| site_world := w; preferencesSerial := 100; routeStatements := []; routeConsole := [] |}.

(** A request that sets the three times and nothing else. *)
Definition timesBody (preferred quietStart quietEnd : string) : PreferencesBody :=
  {| pb_tidesEnabled := Missing; pb_sportsEnabled := Missing;
     pb_astronomyEnabled := Missing; pb_agricultureEnabled := Missing;
     pb_culturalEnabled := Missing; pb_holidaysEnabled := Missing;
     pb_tidesFrequency := Missing; pb_sportsFrequency := Missing;
     pb_astronomyFrequency := Missing; pb_agricultureFrequency := Missing;
     pb_culturalFrequency := Missing; pb_holidaysFrequency := Missing;
     pb_preferredNotificationTime := Value preferred;
     pb_quietHoursStart := Value quietStart;
     pb_quietHoursEnd := Value quietEnd |}.

(** A request with no property at all. *)
Definition emptyBody : PreferencesBody :=
  {| pb_tidesEnabled := Missing; pb_sportsEnabled := Missing;
     pb_astronomyEnabled := Missing; pb_agricultureEnabled := Missing;
     pb_culturalEnabled := Missing; pb_holidaysEnabled := Missing;
     pb_tidesFrequency := Missing; pb_sportsFrequency := Missing;
     pb_astronomyFrequency := Missing; pb_agricultureFrequency := Missing;
     pb_culturalFrequency := Missing; pb_holidaysFrequency := Missing;
     pb_preferredNotificationTime := Missing;
     pb_quietHoursStart := Missing;
     pb_quietHoursEnd := Missing |}.

(** * Properties *)

Import Scenario.

(** ** The time windows *)

Ltac js_compare :=
  unfold outsideSendWindow, quietHoursTest, JS.gt, JS.ge, JS.lt, JS.le, JS.add;
  cbn beta iota.

Lemma outsideSendWindow_spec (preferred now : Z) :
  outsideSendWindow (Num now) (Num preferred) = false <-> 0 <= now - preferred < 15.
Proof.
  js_compare. rewrite orb_false_iff, Z.ltb_ge, Z.leb_gt. lia.
Qed.

(** Outside the window the turn of the loop does nothing at all. *)
Lemma digestForContext_outside env context n w :
  outsideSendWindow (Num (currentMinutes env))
    (totalMinutes (orDefault (preferredNotificationTime (ctx_preferences context)) "09:00"))
  = true ->
  digestForContext env context n w = (Ok n, w).
Proof.
  intros H. unfold digestForContext. rewrite H. reflexivity.
Qed.

(** A well-formed HH:MM string parses to its minutes since midnight. *)
Lemma Number_twoDigits (n : Z) : 0 <= n < 100 -> Number (twoDigits n) = Num n.
Proof.
  intros H. rewrite <- (Z2Nat.id n) by lia.
  assert (Hk : (Z.to_nat n < 100)%nat) by lia.
  generalize dependent (Z.to_nat n). clear H. intros k Hk.
  do 100 (destruct k as [|k]; [vm_compute; reflexivity|]). lia.
Qed.

Lemma split_twoDigits (n : Z) :
  0 <= n < 100 -> split ":"%char (twoDigits n) = [twoDigits n].
Proof.
  intros H. rewrite <- (Z2Nat.id n) by lia.
  assert (Hk : (Z.to_nat n < 100)%nat) by lia.
  generalize dependent (Z.to_nat n). clear H. intros k Hk.
  do 100 (destruct k as [|k]; [vm_compute; reflexivity|]). lia.
Qed.

Lemma split_hhmm (h m : Z) :
  0 <= h < 100 -> 0 <= m < 100 ->
  split ":"%char (hhmm h m) = [twoDigits h; twoDigits m].
Proof.
  intros Hh Hm. unfold hhmm.
  assert (Hsplit : forall c1 c2 rest,
             Ascii.eqb c1 ":"%char = false -> Ascii.eqb c2 ":"%char = false ->
             split ":"%char (String c1 (String c2 (String ":"%char rest)))
             = String c1 (String c2 EmptyString) :: split ":"%char rest).
  { intros c1 c2 rest H1 H2. cbn [split]. rewrite H1, H2. reflexivity. }
  pose proof (split_twoDigits h Hh) as Hone.
  pose proof (split_twoDigits m Hm) as Htwo.
  unfold twoDigits in *. cbn [append].
  assert (Hc : Ascii.eqb (digitChar (h / 10)) ":"%char = false
               /\ Ascii.eqb (digitChar (h mod 10)) ":"%char = false).
  { cbn [split] in Hone.
    destruct (Ascii.eqb (digitChar (h mod 10)) ":"%char);
      destruct (Ascii.eqb (digitChar (h / 10)) ":"%char);
      try discriminate Hone; split; reflexivity. }
  destruct Hc as [H1 H2]. rewrite (Hsplit _ _ _ H1 H2).
  now rewrite Htwo.
Qed.

Lemma totalMinutes_hhmm (h m : Z) :
  0 <= h < 100 -> 0 <= m < 100 -> totalMinutes (hhmm h m) = Num (h * 60 + m).
Proof.
  intros Hh Hm. unfold totalMinutes. rewrite (split_hhmm h m Hh Hm).
  cbn [map element nth]. now rewrite !Number_twoDigits.
Qed.

(** The clock reading is a minute of the day. *)
Lemma currentMinutes_range env : 0 <= currentMinutes env < 1440.
Proof.
  unfold currentMinutes, getHours, getMinutes.
  pose proof (Z.mod_pos_bound
                ((clock env + tzOffsetMinutes env * msPerMinute) / msPerHour) 24).
  pose proof (Z.mod_pos_bound
                ((clock env + tzOffsetMinutes env * msPerMinute) / msPerMinute) 60).
  lia.
Qed.

(** The query of the digest is refused whenever there is a type to ask
    for. *)
Lemma getRelevantEvents_rejected env context w :
  eventTypes (ctx_preferences context) <> [] ->
  getRelevantEvents env context w
  = (Throw DbError,
     recordStatement
       (SelectEventsAnyOf (eventTypes (ctx_preferences context)) (clock env)
          (nextDay (clock env)) 10) w).
Proof.
  intros Htypes. unfold getRelevantEvents.
  destruct (eventTypes (ctx_preferences context)); [congruence | reflexivity].
Qed.

Lemma getRelevantEvents_none env context w :
  eventTypes (ctx_preferences context) = [] ->
  getRelevantEvents env context w = (Ok [], w).
Proof. intros Htypes. unfold getRelevantEvents. now rewrite Htypes. Qed.

(** Inside the window the turn of the loop goes on to the fetch of the
    events, and ends there when there is a type to ask for. *)
Lemma digestForContext_fetches env context n w :
  outsideSendWindow (Num (currentMinutes env))
    (totalMinutes (orDefault (preferredNotificationTime (ctx_preferences context)) "09:00"))
  = false ->
  eventTypes (ctx_preferences context) <> [] ->
  digestForContext env context n w
  = (Throw DbError,
     recordStatement
       (SelectEventsAnyOf (eventTypes (ctx_preferences context)) (clock env)
          (nextDay (clock env)) 10) w).
Proof.
  intros Hwin Htypes. unfold digestForContext. rewrite Hwin.
  unfold bind. now rewrite (getRelevantEvents_rejected env context w Htypes).
Qed.

Lemma dbTrace_grows (q : Statement) (w : World) : dbTrace w <> (dbTrace w ++ [q])%list.
Proof.
  intros H. apply (f_equal (@List.length Statement)) in H.
  rewrite length_app in H. cbn in H. lia.
Qed.

(** C1. For a context whose preferred time (the stored one, or the
    default "09:00") is the time of day h:m, that is [preferred] = 60 h + m
    minutes since midnight, and that has a category to fetch events for,
    at a clock reading of [now] minutes since midnight: the turn of the
    loop of sendDailyDigest goes past its send-window check, on to the
    events query, exactly when 0 <= now - preferred < 15; with a negative
    difference, and with a difference of 15 or more, and only then, the
    user is skipped: the turn ends with the counter and the world as they
    were. *)
Theorem send_window_iff env context notificationsSent w h m :
  0 <= h < 24 -> 0 <= m < 60 ->
  orDefault (preferredNotificationTime (ctx_preferences context)) "09:00" = hhmm h m ->
  eventTypes (ctx_preferences context) <> [] ->
  let preferred := h * 60 + m in
  let now := currentMinutes env in
  let query := SelectEventsAnyOf (eventTypes (ctx_preferences context)) (clock env)
                 (nextDay (clock env)) 10 in
  (0 <= now - preferred < 15
   <-> dbTrace (snd (digestForContext env context notificationsSent w))
       = (dbTrace w ++ [query])%list)
  /\ (now - preferred < 0 \/ 15 <= now - preferred
      <-> digestForContext env context notificationsSent w = (Ok notificationsSent, w)).
Proof.
  intros Hh Hm Hpref Htypes preferred now query.
  assert (Htotal : totalMinutes
                     (orDefault (preferredNotificationTime (ctx_preferences context))
                        "09:00") = Num preferred)
    by (rewrite Hpref; apply totalMinutes_hhmm; lia).
  destruct (outsideSendWindow (Num now) (Num preferred)) eqn:E.
  - assert (Hout : ~ (0 <= now - preferred < 15)).
    { intros Hin. apply outsideSendWindow_spec in Hin. congruence. }
    rewrite (digestForContext_outside env context notificationsSent w)
      by (rewrite Htotal; exact E).
    cbn [snd]. split; split; intros H.
    + contradiction.
    + exfalso. exact (dbTrace_grows query w H).
    + reflexivity.
    + lia.
  - assert (Hin : 0 <= now - preferred < 15) by (now apply outsideSendWindow_spec).
    rewrite (digestForContext_fetches env context notificationsSent w)
      by (rewrite ?Htotal; assumption).
    cbn [snd]. split; split; intros H.
    + reflexivity.
    + exact Hin.
    + lia.
    + discriminate H.
Qed.

(** C1 at work: the first user of [twoUsers], whose preferred time is
    09:00; at 09:14 the turn goes on to the events query, at 08:59 and at
    09:15 the user is skipped. *)
Lemma send_window_iff_witness :
  dbTrace (snd (digestForContext (envAt 9 14 noFault allAccepted) boundaryContext 0
                  twoUsers))
  = [SelectEventsAnyOf (eventTypes (defaultPreferences 1 1))
       (clock (envAt 9 14 noFault allAccepted))
       (nextDay (clock (envAt 9 14 noFault allAccepted))) 10]
  /\ digestForContext (envAt 8 59 noFault allAccepted) boundaryContext 0 twoUsers
     = (Ok 0, twoUsers)
  /\ digestForContext (envAt 9 15 noFault allAccepted) boundaryContext 0 twoUsers
     = (Ok 0, twoUsers).
Proof.
  assert (Hh : 0 <= 9 < 24) by lia.
  assert (Hm : 0 <= 0 < 60) by lia.
  assert (Hpref : orDefault (preferredNotificationTime (ctx_preferences boundaryContext))
                    "09:00" = hhmm 9 0) by reflexivity.
  assert (Htypes : eventTypes (ctx_preferences boundaryContext) <> [])
    by (vm_compute; discriminate).
  assert (H914 : currentMinutes (envAt 9 14 noFault allAccepted) = 554)
    by (vm_compute; reflexivity).
  assert (H859 : currentMinutes (envAt 8 59 noFault allAccepted) = 539)
    by (vm_compute; reflexivity).
  assert (H915 : currentMinutes (envAt 9 15 noFault allAccepted) = 555)
    by (vm_compute; reflexivity).
  split; [|split].
  - apply (proj1 (send_window_iff (envAt 9 14 noFault allAccepted) boundaryContext 0
                    twoUsers 9 0 Hh Hm Hpref Htypes)).
    rewrite H914. lia.
  - apply (proj2 (send_window_iff (envAt 8 59 noFault allAccepted) boundaryContext 0
                    twoUsers 9 0 Hh Hm Hpref Htypes)).
    rewrite H859. lia.
  - apply (proj2 (send_window_iff (envAt 9 15 noFault allAccepted) boundaryContext 0
                    twoUsers 9 0 Hh Hm Hpref Htypes)).
    rewrite H915. lia.
Defined.

(** C3. For quiet hours from the time of day h1:m1 to the time of day
    h2:m2, that is from [startTime] = 60 h1 + m1 to [endTime] = 60 h2 + m2
    minutes since midnight, at a clock reading of [now] minutes since
    midnight: when the window does not wrap (start <= end) the predicate
    of the scheduler is true exactly on start <= now <= end, and when it
    wraps past midnight (start > end) exactly on now >= start or
    now <= end. *)
Theorem quiet_hours_iff env h1 m1 h2 m2 :
  0 <= h1 < 24 -> 0 <= m1 < 60 -> 0 <= h2 < 24 -> 0 <= m2 < 60 ->
  let startTime := h1 * 60 + m1 in
  let endTime := h2 * 60 + m2 in
  let now := currentMinutes env in
  (startTime <= endTime ->
     (isQuietHours env (hhmm h1 m1) (hhmm h2 m2) = true <-> startTime <= now <= endTime))
  /\ (startTime > endTime ->
     (isQuietHours env (hhmm h1 m1) (hhmm h2 m2) = true
      <-> (now >= startTime \/ now <= endTime))).
Proof.
  intros Hh1 Hm1 Hh2 Hm2 startTime endTime now. unfold isQuietHours.
  rewrite !totalMinutes_hhmm by lia. fold startTime endTime now.
  split; intros H; js_compare.
  - destruct (Z.ltb_spec endTime startTime); [lia|].
    rewrite andb_true_iff, !Z.leb_le. lia.
  - destruct (Z.ltb_spec endTime startTime); [|lia].
    rewrite orb_true_iff, !Z.leb_le. lia.
Qed.

(** C3 at work: 08:00 to 12:00 is quiet at 10:00 and not at 12:01; 22:00
    to 08:00 is quiet at 00:30 and not at 08:01. *)
Lemma quiet_hours_iff_witness :
  isQuietHours (envAt 10 0 noFault allAccepted) "08:00" "12:00" = true
  /\ isQuietHours (envAt 12 1 noFault allAccepted) "08:00" "12:00" <> true
  /\ isQuietHours (envAt 0 30 noFault allAccepted) "22:00" "08:00" = true
  /\ isQuietHours (envAt 8 1 noFault allAccepted) "22:00" "08:00" <> true.
Proof.
  assert (Ha : currentMinutes (envAt 10 0 noFault allAccepted) = 600)
    by (vm_compute; reflexivity).
  assert (Hb : currentMinutes (envAt 12 1 noFault allAccepted) = 721)
    by (vm_compute; reflexivity).
  assert (Hc : currentMinutes (envAt 0 30 noFault allAccepted) = 30)
    by (vm_compute; reflexivity).
  assert (Hd : currentMinutes (envAt 8 1 noFault allAccepted) = 481)
    by (vm_compute; reflexivity).
  change "08:00" with (hhmm 8 0). change "12:00" with (hhmm 12 0).
  change "22:00" with (hhmm 22 0).
  split; [|split; [|split]].
  - apply (proj1 (quiet_hours_iff (envAt 10 0 noFault allAccepted) 8 0 12 0
                    ltac:(lia) ltac:(lia) ltac:(lia) ltac:(lia))); rewrite ?Ha; lia.
  - intros H.
    apply (proj1 (quiet_hours_iff (envAt 12 1 noFault allAccepted) 8 0 12 0
                    ltac:(lia) ltac:(lia) ltac:(lia) ltac:(lia))) in H;
      rewrite ?Hb in H; lia.
  - apply (proj2 (quiet_hours_iff (envAt 0 30 noFault allAccepted) 22 0 8 0
                    ltac:(lia) ltac:(lia) ltac:(lia) ltac:(lia))); rewrite ?Hc; lia.
  - intros H.
    apply (proj2 (quiet_hours_iff (envAt 8 1 noFault allAccepted) 22 0 8 0
                    ltac:(lia) ltac:(lia) ltac:(lia) ltac:(lia))) in H;
      rewrite ?Hd in H; lia.
Defined.

(** The predicate of the scheduler is that test on the parsed strings. *)
Lemma isQuietHours_unfold env quietStart quietEnd :
  isQuietHours env quietStart quietEnd
  = quietHoursTest (Num (currentMinutes env)) (totalMinutes quietStart)
      (totalMinutes quietEnd).
Proof. reflexivity. Qed.

(** On well-formed strings the predicate compares the minute counts. *)
Lemma isQuietHours_hhmm env h1 m1 h2 m2 :
  0 <= h1 < 100 -> 0 <= m1 < 100 -> 0 <= h2 < 100 -> 0 <= m2 < 100 ->
  isQuietHours env (hhmm h1 m1) (hhmm h2 m2)
  = quietHoursTest (Num (currentMinutes env)) (Num (h1 * 60 + m1)) (Num (h2 * 60 + m2)).
Proof.
  intros. unfold isQuietHours. now rewrite !totalMinutes_hhmm.
Qed.



(** ** Malformed time preferences *)

(** No comparison with NaN holds: the send-window check lets the user
    through, and the quiet-hours predicate answers no. *)
Lemma outsideSendWindow_NaN (current : number) :
  outsideSendWindow current NaN = false.
Proof. destruct current; reflexivity. Qed.

Lemma quietHoursTest_NaN_start (current endTime : number) :
  quietHoursTest current NaN endTime = false.
Proof. destruct current, endTime; reflexivity. Qed.

Lemma quietHoursTest_NaN_end (current startTime : number) :
  quietHoursTest current startTime NaN = false.
Proof.
  destruct current, startTime; js_compare; try reflexivity.
  apply andb_false_r.
Qed.

(** C7 fails on the code. A user whose three time preferences are "soon",
    "late" and "early" is not skipped: the quiet-hours filter lets them
    through at every hour, so at three o'clock at night the immediate job
    alerts them of the tide of half past three; and the send-window check
    of the digest job lets them through at every hour too, so at three
    o'clock at night the digest job goes on to their events query. *)
Theorem malformed_times_are_delivered :
  totalMinutes "soon" = NaN
  /\ isQuietHours (envAt 3 0 noFault allAccepted) "late" "early" = false
  /\ fst (sendImmediateNotifications (envAt 3 0 noFault allAccepted) malformedUser) = Ok tt
  /\ notified (snd (sendImmediateNotifications (envAt 3 0 noFault allAccepted)
                      malformedUser))
     = [(7, tidePayload nightTide)]
  /\ map fst (pushTrace (snd (sendImmediateNotifications (envAt 3 0 noFault allAccepted)
                                malformedUser)))
     = ["https://push.example/m"]
  /\ dbTrace (snd (sendDailyDigest (envAt 3 0 noFault allAccepted) malformedUser))
     = [SelectPreferences; SelectSubscriptionsOfUser 7;
        SelectEventsAnyOf (eventTypes (defaultPreferences 7 7))
          (clock (envAt 3 0 noFault allAccepted))
          (nextDay (clock (envAt 3 0 noFault allAccepted))) 10].
Proof. vm_compute. repeat split. Qed.

(** ** Frame reasoning: what a computation leaves alone *)

Section Frame.

Context {X : Type} (field : World -> X).

Lemma preserves_ret {A} (a : A) : preserves field (ret a).
Proof. intros w. reflexivity. Qed.

Lemma preserves_throw {A} (e : Exn) : preserves field (@throw A e).
Proof. intros w. reflexivity. Qed.

Lemma preserves_bind {A B} (m : M A) (k : A -> M B) :
  preserves field m -> (forall a, preserves field (k a)) -> preserves field (bind m k).
Proof.
  intros Hm Hk w. unfold bind. specialize (Hm w).
  destruct (m w) as [[a|e] w1]; cbn in *.
  - rewrite Hk. exact Hm.
  - exact Hm.
Qed.

Lemma preserves_tryCatch {A} (m : M A) (h : Exn -> M A) :
  preserves field m -> (forall e, preserves field (h e)) -> preserves field (tryCatch m h).
Proof.
  intros Hm Hh w. unfold tryCatch. specialize (Hm w).
  destruct (m w) as [[a|e] w1]; cbn in *.
  - exact Hm.
  - rewrite Hh. exact Hm.
Qed.

Lemma preserves_settled (p : M unit) : preserves field p -> preserves field (settled p).
Proof. intros Hp w. apply Hp. Qed.

Lemma preserves_forEach {A} (xs : list A) (body : A -> M unit) :
  (forall x, preserves field (body x)) -> preserves field (forEach xs body).
Proof.
  intros Hbody. induction xs as [|x rest IH]; cbn [forEach].
  - apply preserves_ret.
  - apply preserves_bind; [apply Hbody | intros _; exact IH].
Qed.

Lemma preserves_statement {A} env s (run : World -> A * World) :
  (forall w, field (recordStatement s w) = field w) ->
  (forall w, field (snd (run w)) = field w) ->
  preserves field (statement env s run).
Proof.
  intros Hrec Hrun w. unfold statement.
  destruct (dbFails env (List.length (dbTrace w))); cbn.
  - apply Hrec.
  - specialize (Hrun (recordStatement s w)).
    destruct (run (recordStatement s w)) as [a w2]; cbn in *.
    rewrite Hrun. apply Hrec.
Qed.

Lemma preserves_consoleWrite l :
  (forall w, field (recordLine l w) = field w) -> preserves field (consoleWrite l).
Proof. intros H w. apply H. Qed.

End Frame.

(** The fields each part of the code leaves alone. *)

Lemma selectSubscriptionsOfUser_frame {X} (field : World -> X) env userId :
  (forall s w, field (recordStatement s w) = field w) ->
  preserves field (selectSubscriptionsOfUser env userId).
Proof. intros H. apply preserves_statement; [apply H | reflexivity]. Qed.

Lemma selectEvents_frame {X} (field : World -> X) env types a b n :
  (forall s w, field (recordStatement s w) = field w) ->
  preserves field (selectEvents env types a b n).
Proof. intros H. apply preserves_statement; [apply H | reflexivity]. Qed.

Lemma sendToDevice_frame {X} (field : World -> X) env userId payload sub :
  (forall s w, field (recordStatement s w) = field w) ->
  (forall l w, field (recordLine l w) = field w) ->
  (forall e p w, field (recordPush e p w) = field w) ->
  (forall subs n w, field (setPushSubscriptions subs n w) = field w) ->
  preserves field (sendToDevice env userId payload sub).
Proof.
  intros Hs Hl Hp Hset. unfold sendToDevice.
  apply preserves_tryCatch.
  - apply preserves_bind.
    + intros w. unfold sendNotification.
      destruct (webpush env (sub_endpoint sub) payload); cbn; apply Hp.
    + intros _. apply preserves_consoleWrite, Hl.
  - intros e. destruct (isGone e).
    + apply preserves_bind.
      * apply preserves_statement; [apply Hs | intros w; cbn; apply Hset].
      * intros _. apply preserves_consoleWrite, Hl.
    + apply preserves_consoleWrite, Hl.
Qed.

(** [sendToUser] leaves alone whatever is neither the subscription table
    nor one of the four traces, and writes its call into [notified]
    first. *)
Lemma sendToUser_frame {X} (field : World -> X) env userId payload w :
  (forall s w, field (recordStatement s w) = field w) ->
  (forall l w, field (recordLine l w) = field w) ->
  (forall e p w, field (recordPush e p w) = field w) ->
  (forall subs n w, field (setPushSubscriptions subs n w) = field w) ->
  field (snd (sendToUser env userId payload w))
  = field (recordNotified userId payload w).
Proof.
  intros Hs Hl Hp Hset. unfold sendToUser.
  apply (preserves_tryCatch field).
  - apply preserves_bind.
    + apply selectSubscriptionsOfUser_frame, Hs.
    + intros subs. destruct subs as [|s0 rest].
      * apply preserves_consoleWrite, Hl.
      * apply preserves_forEach. intros sub. apply preserves_settled.
        apply sendToDevice_frame; assumption.
  - intros e. apply preserves_bind.
    + apply preserves_consoleWrite, Hl.
    + intros _. apply preserves_throw.
Qed.

Lemma sendToUser_events env userId payload w :
  events (snd (sendToUser env userId payload w)) = events w.
Proof. rewrite (sendToUser_frame events); reflexivity. Qed.

Lemma sendToUser_notified env userId payload w :
  notified (snd (sendToUser env userId payload w))
  = (notified w ++ [(userId, payload)])%list.
Proof. rewrite (sendToUser_frame notified); reflexivity. Qed.

(** ** The push delivery channel *)

Lemma filter_all {A : Type} (l : list A) : filter (fun _ => true) l = l.
Proof.
  induction l as [|a l IH]; cbn; [reflexivity | now rewrite IH].
Qed.


Section Delivery.

Variable env : Env.
Variable userId : Z.
Variable payload : NotificationPayload.





Lemma fanOut_cons sub rest w :
  fanOut env userId payload (sub :: rest) w
  = fanOut env userId payload rest (snd (sendToDevice env userId payload sub w)).
Proof. reflexivity. Qed.

Lemma fanOut_returns subs : forall w, fst (fanOut env userId payload subs w) = Ok tt.
Proof.
  induction subs as [|sub rest IH]; intros w; [reflexivity|].
  rewrite fanOut_cons. apply IH.
Qed.





End Delivery.



(** When its own select is answered, [sendToUser] returns, and what it
    does to the world is the fan-out over the devices of the user. *)
Lemma sendToUser_run env userId payload w :
  dbFails env (List.length (dbTrace w)) = false ->
  let mine := filter (fun s => sub_userId s =? userId) (pushSubscriptions w) in
  let w1 := recordStatement (SelectSubscriptionsOfUser userId)
              (recordNotified userId payload w) in
  sendToUser env userId payload w
  = (Ok tt, match mine with
            | [] => recordLine (LogNoSubscriptions userId) w1
            | _ => snd (fanOut env userId payload mine w1)
            end).
Proof.
  intros Hok mine w1.
  unfold sendToUser, tryCatch, bind, selectSubscriptionsOfUser, statement.
  cbn [dbTrace recordNotified]. rewrite Hok.
  cbn [pushSubscriptions recordStatement recordNotified].
  fold mine. fold w1.
  destruct mine as [|s0 rest] eqn:E; [reflexivity|].
  pose proof (fanOut_returns env userId payload (s0 :: rest) w1) as Hret.
  destruct (fanOut env userId payload (s0 :: rest) w1) as [r w2].
  cbn in Hret. subst r. reflexivity.
Qed.



(** ** The relevant events of the digest *)

Lemma truthy_true (b : option bool) : truthy b = true <-> b = Some true.
Proof. destruct b as [[|]|]; cbn; split; congruence. Qed.

Lemma differs_true (column : option string) (literal : string) :
  differs column literal = true <-> column <> Some literal.
Proof.
  destruct column as [v|]; cbn.
  - rewrite negb_true_iff. destruct (String.eqb_spec v literal); split; congruence.
  - split; congruence.
Qed.

Lemma active_iff (enabled : option bool) (frequency : option string) :
  truthy enabled && differs frequency "never" = true
  <-> enabled = Some true /\ frequency <> Some "never".
Proof. now rewrite andb_true_iff, truthy_true, differs_true. Qed.

(** The array built by the six [if]s holds the codes of the categories
    that are enabled with a frequency other than 'never', and only them. *)
Lemma eventTypes_spec (p : NotificationPreferences) (t : string) :
  In t (eventTypes p) <-> exists c, categoryActive p c /\ In t (categoryCodes c).
Proof.
  unfold eventTypes, categoryActive. rewrite !in_app_iff. split.
  - intros H.
    repeat (destruct H as [H|H]);
      match type of H with
      | In _ (if ?b then _ else _) =>
          destruct b eqn:E; [apply active_iff in E | contradiction]
      end;
      [ exists Tides | exists Sports | exists Astronomy
      | exists Agriculture | exists Cultural | exists Holidays ];
      (split; [exact E | exact H]).
  - intros [c [Hact Hin]]. apply active_iff in Hact.
    destruct c; cbn [categoryEnabled categoryFrequency categoryCodes] in *;
      rewrite Hact; tauto.
Qed.

Lemma firstn_Forall {A : Type} (P : A -> Prop) (n : nat) (l : list A) :
  Forall P l -> Forall P (firstn n l).
Proof.
  intros H. revert n.
  induction H as [|x l Hx Hl IH]; intros [|n]; cbn; constructor; auto.
Qed.

(** What a successful event query answers. *)
Lemma selectEvents_result env types a b n w evs w' :
  selectEvents env types a b n w = (Ok evs, w') ->
  evs = firstn n (filter (eventMatches types a b) (events w))
  /\ w' = recordStatement (SelectEvents types a b n) w.
Proof.
  unfold selectEvents, statement.
  destruct (dbFails env (List.length (dbTrace w))); intros H; inversion H; subst.
  split; reflexivity.
Qed.

Lemma selectEvents_rows env types a b n w evs w' :
  selectEvents env types a b n w = (Ok evs, w') ->
  (List.length evs <= n)%nat
  /\ Forall (fun e => In e (events w)
                      /\ In (ev_type e) types
                      /\ a <= ev_startAt e <= b) evs.
Proof.
  intros H. apply selectEvents_result in H. destruct H as [-> _]. split.
  - apply firstn_le_length.
  - apply firstn_Forall, Forall_forall. intros e He.
    apply filter_In in He. destruct He as [He Hm]. split; [exact He|].
    unfold eventMatches in Hm. rewrite !andb_true_iff, !Z.leb_le in Hm.
    destruct Hm as [[Ht Ha] Hb]. split; [|lia].
    apply existsb_exists in Ht. destruct Ht as [t [Ht Heq]].
    apply String.eqb_eq in Heq. now rewrite Heq.
Qed.



(** ** The immediate tide alerts *)

(** One alert: the call is made, and whatever it throws is caught. *)
Lemma alertTide_step env context tide w :
  fst (alertTide env context tide w) = Ok tt
  /\ notified (snd (alertTide env context tide w))
     = (notified w ++ [(ctx_userId context, tidePayload tide)])%list
  /\ events (snd (alertTide env context tide w)) = events w.
Proof.
  unfold alertTide, tryCatch.
  pose proof (sendToUser_notified env (ctx_userId context) (tidePayload tide) w) as Hn.
  pose proof (sendToUser_events env (ctx_userId context) (tidePayload tide) w) as He.
  destruct (sendToUser env (ctx_userId context) (tidePayload tide) w) as [[[]|e] w1];
    cbn in *; auto.
Qed.

Lemma alertTide_loop env context tides : forall w,
  fst (forEach tides (alertTide env context) w) = Ok tt
  /\ notified (snd (forEach tides (alertTide env context) w))
     = (notified w ++ map (fun tide => (ctx_userId context, tidePayload tide)) tides)%list.
Proof.
  induction tides as [|tide rest IH]; intros w.
  - cbn. now rewrite app_nil_r.
  - cbn [forEach]. unfold bind.
    destruct (alertTide_step env context tide w) as [Hr [Hn _]].
    destruct (alertTide env context tide w) as [r w1]. cbn in Hr, Hn. subst r.
    destruct (IH w1) as [IHr IHn]. split; [exact IHr|].
    rewrite IHn, Hn. cbn [map]. now rewrite <- app_assoc.
Qed.




(** ** The digest of one user *)


(** A turn of the loop ends with the counter and the world as they were,
    or in the refused query of a context that is inside its window and has
    a type to ask for. *)
Lemma digestForContext_cases env context n w :
  digestForContext env context n w = (Ok n, w)
  \/ (outsideSendWindow (Num (currentMinutes env))
        (totalMinutes
           (orDefault (preferredNotificationTime (ctx_preferences context)) "09:00"))
      = false
      /\ eventTypes (ctx_preferences context) <> []
      /\ digestForContext env context n w
         = (Throw DbError,
            recordStatement
              (SelectEventsAnyOf (eventTypes (ctx_preferences context)) (clock env)
                 (nextDay (clock env)) 10) w)).
Proof.
  destruct (outsideSendWindow (Num (currentMinutes env))
              (totalMinutes
                 (orDefault (preferredNotificationTime (ctx_preferences context)) "09:00")))
    eqn:Hwin.
  - left. now apply digestForContext_outside.
  - destruct (eventTypes (ctx_preferences context)) as [|t0 ts] eqn:E.
    + left. unfold digestForContext. rewrite Hwin. unfold bind.
      now rewrite (getRelevantEvents_none env context w E).
    + right. split; [reflexivity|]. split; [discriminate|].
      rewrite <- E. apply digestForContext_fetches; [exact Hwin | rewrite E; discriminate].
Qed.

(** The loop leaves the counter and the world as they were, or ends in
    the refused query of one of its contexts. *)
Lemma digestLoop_cases env contexts : forall n w,
  digestLoop env contexts n w = (Ok n, w)
  \/ exists context,
       In context contexts
       /\ digestLoop env contexts n w
          = (Throw DbError,
             recordStatement
               (SelectEventsAnyOf (eventTypes (ctx_preferences context)) (clock env)
                  (nextDay (clock env)) 10) w).
Proof.
  induction contexts as [|c rest IH]; intros n w; [left; reflexivity|].
  cbn [digestLoop]. unfold bind.
  destruct (digestForContext_cases env c n w) as [Hskip|[_ [_ Hthrow]]].
  - rewrite Hskip. destruct (IH n w) as [Hrest|[c' [Hin Hrest]]].
    + left. exact Hrest.
    + right. exists c'. split; [now right | exact Hrest].
  - rewrite Hthrow. right. exists c. split; [now left | reflexivity].
Qed.

Lemma collectContexts_frame {X} (field : World -> X) env prefs :
  (forall s w, field (recordStatement s w) = field w) ->
  forall contexts, preserves field (collectContexts env prefs contexts).
Proof.
  intros H. induction prefs as [|pref rest IH]; intros contexts; cbn [collectContexts].
  - apply preserves_ret.
  - destruct (isQuietHours env _ _); [apply IH|].
    apply preserves_bind; [apply selectSubscriptionsOfUser_frame, H|].
    intros subs. destruct subs; apply IH.
Qed.

Lemma getUsersForNotifications_frame {X} (field : World -> X) env :
  (forall s w, field (recordStatement s w) = field w) ->
  preserves field (getUsersForNotifications env).
Proof.
  intros H. unfold getUsersForNotifications. apply preserves_bind.
  - apply preserves_statement; [apply H | reflexivity].
  - intros prefs. now apply collectContexts_frame.
Qed.

(** The world after a tick of the digest job, by what its [try] block
    did. *)
Lemma sendDailyDigest_world env w :
  snd (sendDailyDigest env w)
  = recordLine LogDigestCompleted
      (match digestJob env (recordLine LogDigestRunning w) with
       | (Ok _, w1) => w1
       | (Throw e, w1) => recordLine (ErrDigestJobFailed e) w1
       end).
Proof.
  unfold sendDailyDigest, bind, tryFinally, tryCatch, consoleWrite.
  destruct (digestJob env (recordLine LogDigestRunning w)) as [[[]|e] w1]; reflexivity.
Qed.

(** A tick of the digest job leaves alone whatever is neither the trace
    of statements nor the console. *)
Lemma sendDailyDigest_frame {X} (field : World -> X) env w :
  (forall s w, field (recordStatement s w) = field w) ->
  (forall l w, field (recordLine l w) = field w) ->
  field (snd (sendDailyDigest env w)) = field w.
Proof.
  intros Hs Hl. rewrite sendDailyDigest_world, Hl.
  set (w0 := recordLine LogDigestRunning w).
  assert (Hjob : field (match digestJob env w0 with
                        | (Ok _, w1) => w1
                        | (Throw e, w1) => recordLine (ErrDigestJobFailed e) w1
                        end) = field w0).
  { unfold digestJob, bind.
    pose proof (getUsersForNotifications_frame field env Hs w0) as Hcand.
    destruct (getUsersForNotifications env w0) as [[cs|e] w1]; cbn [snd] in Hcand.
    - destruct (digestLoop_cases env cs 0 w1) as [Hloop|[c [_ Hloop]]]; rewrite Hloop.
      + unfold consoleWrite. now rewrite Hl.
      + now rewrite Hl, Hs.
    - now rewrite Hl. }
  rewrite Hjob. apply Hl.
Qed.

(** C9 fails on the code. Inside the send window, a context that has no
    active category is passed over in silence, as the claim says of a day
    without events. But a context that has an active category never gets
    as far as the events: the turn ends in the refused query, whatever the
    events table holds, so a day without matching events is an error on
    the console and a day with matching events has no digest. A tick of
    the digest job calls sendToUser for nobody and sends no push. *)
Theorem digest_never_composed env w :
  notified (snd (sendDailyDigest env w)) = notified w
  /\ pushTrace (snd (sendDailyDigest env w)) = pushTrace w
  /\ (forall context n w0 c,
        outsideSendWindow (Num (currentMinutes env))
          (totalMinutes
             (orDefault (preferredNotificationTime (ctx_preferences context)) "09:00"))
        = false ->
        categoryActive (ctx_preferences context) c ->
        digestForContext env context n w0
        = (Throw DbError,
           recordStatement
             (SelectEventsAnyOf (eventTypes (ctx_preferences context)) (clock env)
                (nextDay (clock env)) 10) w0))
  /\ (forall context n w0,
        (forall c, ~ categoryActive (ctx_preferences context) c) ->
        digestForContext env context n w0 = (Ok n, w0)).
Proof.
  split; [apply sendDailyDigest_frame; reflexivity|].
  split; [apply sendDailyDigest_frame; reflexivity|]. split.
  - intros context n w0 c Hwin Hact.
    apply digestForContext_fetches; [exact Hwin|]. intros E.
    assert (Hcode : exists t, In t (categoryCodes c))
      by (destruct c; eexists; left; reflexivity).
    destruct Hcode as [t Ht].
    assert (Hin : In t (eventTypes (ctx_preferences context)))
      by (apply eventTypes_spec; eauto).
    rewrite E in Hin. exact Hin.
  - intros context n w0 Hnone.
    destruct (digestForContext_cases env context n w0) as [H|[_ [Htypes _]]];
      [exact H|].
    exfalso. destruct (eventTypes (ctx_preferences context)) as [|t0 ts] eqn:E;
      [congruence|].
    assert (Hin : In t0 (eventTypes (ctx_preferences context))) by (rewrite E; now left).
    apply eventTypes_spec in Hin. destruct Hin as [c [Hact _]].
    exact (Hnone c Hact).
Qed.

(** C9 at the failing inputs, at nine o'clock, the preferred time of
    every user: with the league match of [twoUsers] three hours ahead
    nobody gets a digest and the job fails; with the empty events table of
    [threeDevices] the job fails as well. *)
Lemma digest_never_composed_witness :
  notified (snd (sendDailyDigest (envAt 9 0 noFault allAccepted) twoUsers)) = []
  /\ console (snd (sendDailyDigest (envAt 9 0 noFault allAccepted) twoUsers))
     = [LogDigestRunning; ErrDigestJobFailed DbError; LogDigestCompleted]
  /\ console (snd (sendDailyDigest (envAt 9 0 noFault allAccepted) threeDevices))
     = [LogDigestRunning; ErrDigestJobFailed DbError; LogDigestCompleted].
Proof.
  split; [|split].
  - rewrite (proj1 (digest_never_composed (envAt 9 0 noFault allAccepted) twoUsers)).
    reflexivity.
  - vm_compute. reflexivity.
  - vm_compute. reflexivity.
Defined.

(** ** Failures during a tick of the digest job *)





(** ** POST /api/push/subscribe *)

(** A body that passes validation is one with an endpoint and with keys
    that are a JSON value, null among them; the user id of the insert
    record is that of the authenticated user. *)
Lemma parseInsertPushSubscription_ok userId b data w w' :
  parseInsertPushSubscription userId b w = (Ok data, w') ->
  w' = w /\ ins_userId data = userId
  /\ body_endpoint b = Value (ins_endpoint data)
  /\ acceptedKeys (body_keys b) = Some (ins_keys data).
Proof.
  unfold parseInsertPushSubscription.
  destruct (body_endpoint b) as [| |e|]; try (intros H; discriminate H).
  destruct (acceptedKeys (body_keys b)) as [k|]; try (intros H; discriminate H).
  destruct (body_userAgent b) as [| |ua|]; intros H; inversion H; subst;
    repeat split.
Qed.

(** Whether some row of the table has the endpoint. *)
Lemma endpoint_lookup (endpoint : string) (subs : list PushSubscription) :
  (exists s, In s subs /\ sub_endpoint s = endpoint)
  <-> filter (fun s => String.eqb (sub_endpoint s) endpoint) subs <> [].
Proof.
  split.
  - intros [s [Hin Heq]] Hnil.
    assert (Hs : In s (filter (fun s => String.eqb (sub_endpoint s) endpoint) subs)).
    { apply filter_In. split; [exact Hin|]. now apply String.eqb_eq. }
    rewrite Hnil in Hs. exact Hs.
  - intros Hne.
    destruct (filter (fun s => String.eqb (sub_endpoint s) endpoint) subs) as [|s l] eqn:E;
      [congruence|].
    assert (Hs : In s (filter (fun s => String.eqb (sub_endpoint s) endpoint) subs))
      by (rewrite E; now left).
    apply filter_In in Hs. destruct Hs as [Hin Heq].
    exists s. split; [exact Hin | now apply String.eqb_eq].
Qed.

(** A statement that the database answers. *)
Lemma statement_answered {A : Type} env s (run : World -> A * World) w :
  dbFails env (List.length (dbTrace w)) = false ->
  statement env s run w
  = (Ok (fst (run (recordStatement s w))), snd (run (recordStatement s w))).
Proof.
  intros Hok. unfold statement. rewrite Hok.
  destruct (run (recordStatement s w)); reflexivity.
Qed.

Lemma dbTrace_after_statement s w :
  List.length (dbTrace (recordStatement s w)) = S (List.length (dbTrace w)).
Proof. cbn. rewrite length_app. cbn. apply Nat.add_1_r. Qed.

(** The handler after a body that passes validation and a select that is
    answered: the write, and the reply by what the write did. *)
Lemma pushSubscribe_write env userId b data w :
  parseInsertPushSubscription userId b w = (Ok data, w) ->
  dbFails env (List.length (dbTrace w)) = false ->
  let w1 := recordStatement (SelectSubscriptionsByEndpoint (ins_endpoint data) 1) w in
  let write :=
    match filter (fun s => String.eqb (sub_endpoint s) (ins_endpoint data))
            (pushSubscriptions w) with
    | _ :: _ =>
        updateSubscriptionByEndpoint env (ins_endpoint data) (ins_keys data)
          (ins_userAgent data)
    | [] =>
        insertSubscription env (ins_userId data) (ins_endpoint data) (ins_keys data)
          (match ins_userAgent data with
           | Some ua => ua
           | None => None
           end)
    end in
  pushSubscribe env userId b w
  = match write w1 with
    | (Ok _, w2) => (Ok Json200, w2)
    | (Throw e, w2) => (Ok (Status500 e), recordLine (ErrPushSubscription e) w2)
    end.
Proof.
  intros Hparse Hok w1 write.
  unfold pushSubscribe, tryCatch. unfold bind at 1. rewrite Hparse.
  unfold bind at 1. unfold selectSubscriptionsByEndpoint.
  rewrite (statement_answered env _ _ w Hok). cbn [fst snd]. fold w1.
  change (pushSubscriptions w1) with (pushSubscriptions w).
  subst write.
  destruct (filter (fun s => String.eqb (sub_endpoint s) (ins_endpoint data))
              (pushSubscriptions w)) as [|s0 l]; cbn [firstn]; unfold bind.
  - destruct (insertSubscription env _ _ _ _ w1) as [[[]|e] w2]; reflexivity.
  - destruct (updateSubscriptionByEndpoint env _ _ _ w1) as [[[]|e] w2]; reflexivity.
Qed.

(** What the handler does to the table when the keys are not null and the
    two statements are answered. *)
Lemma pushSubscribe_run env userId b data keys w :
  parseInsertPushSubscription userId b w = (Ok data, w) ->
  ins_keys data = Some keys ->
  dbFails env (List.length (dbTrace w)) = false ->
  dbFails env (S (List.length (dbTrace w))) = false ->
  exists w',
    pushSubscribe env userId b w = (Ok Json200, w')
    /\ pushSubscriptions w'
       = match filter (fun s => String.eqb (sub_endpoint s) (ins_endpoint data))
                 (pushSubscriptions w) with
         | [] =>
             (pushSubscriptions w ++
                [{| sub_id := pushSubscriptionsSerial w;
                    sub_userId := ins_userId data;
                    sub_endpoint := ins_endpoint data;
                    sub_keys := keys;
                    sub_userAgent := match ins_userAgent data with
                                     | Some ua => ua
                                     | None => None
                                     end;
                    sub_createdAt := clock env |}])%list
         | _ =>
             map (fun s => if String.eqb (sub_endpoint s) (ins_endpoint data)
                           then refreshed keys (ins_userAgent data) s else s)
                 (pushSubscriptions w)
         end.
Proof.
  intros Hparse Hkeys Hok1 Hok2.
  rewrite (pushSubscribe_write env userId b data w Hparse Hok1). cbn zeta.
  set (w1 := recordStatement _ w).
  assert (Hok2' : dbFails env (List.length (dbTrace w1)) = false)
    by (unfold w1; now rewrite dbTrace_after_statement).
  rewrite Hkeys.
  destruct (filter (fun s => String.eqb (sub_endpoint s) (ins_endpoint data))
              (pushSubscriptions w)) as [|s0 l].
  - unfold insertSubscription. rewrite Hok2'. eexists. split; reflexivity.
  - unfold updateSubscriptionByEndpoint.
    rewrite (statement_answered env _ _ w1 Hok2'). eexists. split; reflexivity.
Qed.

(** Null keys, the select being answered: the database refuses the write,
    the reply is 500 and the rows are what they were. *)
Lemma pushSubscribe_null_keys env userId b data w :
  parseInsertPushSubscription userId b w = (Ok data, w) ->
  ins_keys data = None ->
  dbFails env (List.length (dbTrace w)) = false ->
  fst (pushSubscribe env userId b w) = Ok (Status500 DbError)
  /\ pushSubscriptions (snd (pushSubscribe env userId b w)) = pushSubscriptions w.
Proof.
  intros Hparse Hkeys Hok.
  rewrite (pushSubscribe_write env userId b data w Hparse Hok). cbn zeta.
  rewrite Hkeys.
  destruct (filter (fun s => String.eqb (sub_endpoint s) (ins_endpoint data))
              (pushSubscriptions w)) as [|s0 l].
  - unfold insertSubscription.
    destruct (dbFails env (List.length (dbTrace (recordStatement _ w))));
      [destruct (drawsId env (List.length (dbTrace (recordStatement _ w))))|];
      split; reflexivity.
  - split; reflexivity.
Qed.

(** C10, as stated, fails: a request for the endpoint of device 11 that
    carries no userAgent, as the browser client sends it, replaces the
    keys of the row and leaves its userAgent, "Firefox", as it was; and a
    request whose keys are null passes the schema, is refused by the
    database and updates nothing. *)
Lemma resubscribe_keeps_userAgent :
  nth_error
    (pushSubscriptions
       (snd (pushSubscribe (envAt 9 0 noFault allAccepted) 2
               {| body_endpoint := Value "https://push.example/a";
                  body_keys := Value "{new}";
                  body_userAgent := Missing |} threeDevices))) 0
  = Some {| sub_id := 11; sub_userId := 1; sub_endpoint := "https://push.example/a";
            sub_keys := "{new}"; sub_userAgent := Some "Firefox"; sub_createdAt := 0 |}
  /\ pushSubscribe (envAt 9 0 noFault allAccepted) 2
       {| body_endpoint := Value "https://push.example/a";
          body_keys := Null;
          body_userAgent := Value "Chrome" |} threeDevices
     = (Ok (Status500 DbError),
        recordLine (ErrPushSubscription DbError)
          (recordStatement
             (UpdateSubscriptionByEndpoint "https://push.example/a" None
                (Some (Some "Chrome")))
             (recordStatement (SelectSubscriptionsByEndpoint "https://push.example/a" 1)
                threeDevices))).
Proof. split; reflexivity. Qed.

(** C10, amended. For a subscribe request that passes validation, the two
    statements being answered. With keys that are not null: if a row with
    the endpoint exists, the table afterwards has the same rows in the
    same places; each row with that endpoint has the keys of the request,
    has the userAgent of the request when the request carries one (a
    string or null) and its own userAgent as before when the request
    carries none, and keeps its id, its owning userId (the authenticated
    user is never written), its endpoint and its createdAt; every row with
    another endpoint is what it was; no row is added. If no row has the
    endpoint, one row is appended, owned by the authenticated user, with
    the endpoint and keys of the request, and with its userAgent or null.
    With null keys the reply is 500 and no row is changed or added. *)
Theorem subscribe_upsert env userId b data w :
  parseInsertPushSubscription userId b w = (Ok data, w) ->
  dbFails env (List.length (dbTrace w)) = false ->
  dbFails env (S (List.length (dbTrace w))) = false ->
  let before := pushSubscriptions w in
  let after := pushSubscriptions (snd (pushSubscribe env userId b w)) in
  (forall keys, ins_keys data = Some keys ->
     fst (pushSubscribe env userId b w) = Ok Json200
     /\ ((exists s, In s before /\ sub_endpoint s = ins_endpoint data) ->
           List.length after = List.length before
           /\ (forall i s, nth_error before i = Some s ->
                 sub_endpoint s <> ins_endpoint data -> nth_error after i = Some s)
           /\ (forall i s, nth_error before i = Some s ->
                 sub_endpoint s = ins_endpoint data ->
                 exists s',
                   nth_error after i = Some s'
                   /\ sub_keys s' = keys
                   /\ sub_userAgent s' = match ins_userAgent data with
                                         | Some ua => ua
                                         | None => sub_userAgent s
                                         end
                   /\ sub_id s' = sub_id s
                   /\ sub_userId s' = sub_userId s
                   /\ sub_endpoint s' = sub_endpoint s
                   /\ sub_createdAt s' = sub_createdAt s))
     /\ ((forall s, In s before -> sub_endpoint s <> ins_endpoint data) ->
           exists row,
             after = (before ++ [row])%list
             /\ sub_userId row = userId
             /\ sub_endpoint row = ins_endpoint data
             /\ sub_keys row = keys
             /\ sub_userAgent row = match ins_userAgent data with
                                    | Some ua => ua
                                    | None => None
                                    end
             /\ sub_id row = pushSubscriptionsSerial w))
  /\ (ins_keys data = None ->
        fst (pushSubscribe env userId b w) = Ok (Status500 DbError)
        /\ after = before).
Proof.
  intros Hparse Hok1 Hok2 before after. split.
  - intros keys Hkeys.
    destruct (pushSubscribe_run env userId b data keys w Hparse Hkeys Hok1 Hok2)
      as [w' [Hrun Htable]].
    destruct (parseInsertPushSubscription_ok _ _ _ _ _ Hparse) as [_ [Huser _]].
    subst after. rewrite Hrun. cbn [fst snd]. fold before in Htable.
    split; [reflexivity|]. split.
    + intros Hex. apply endpoint_lookup in Hex. fold before in Hex.
      destruct (filter (fun s => String.eqb (sub_endpoint s) (ins_endpoint data)) before)
        as [|s0 l]; [congruence|].
      rewrite Htable. clear Htable Hex.
      split; [apply length_map|]. split.
      * intros i s Hi Hother. rewrite nth_error_map, Hi. cbn.
        apply String.eqb_neq in Hother. now rewrite Hother.
      * intros i s Hi Hsame. rewrite nth_error_map, Hi. cbn.
        apply String.eqb_eq in Hsame. rewrite Hsame.
        eexists. split; [reflexivity|]. repeat split.
    + intros Hnone.
      destruct (filter (fun s => String.eqb (sub_endpoint s) (ins_endpoint data)) before)
        as [|s0 l] eqn:E.
      * rewrite Htable. eexists. split; [reflexivity|]. cbn. repeat split. exact Huser.
      * exfalso.
        assert (Hs : In s0 (filter (fun s => String.eqb (sub_endpoint s) (ins_endpoint data))
                              before)) by (rewrite E; now left).
        apply filter_In in Hs. destruct Hs as [Hin Heq].
        apply String.eqb_eq in Heq. exact (Hnone s0 Hin Heq).
  - intros Hkeys. now apply (pushSubscribe_null_keys env userId b data w).
Qed.

(** C10 amended, at work: user 2 subscribes again the endpoint of device
    11, which belongs to user 1, with new keys and a userAgent; the row
    keeps its id and its owner and takes the new keys and userAgent, and
    the device of user 2 is what it was. *)
Lemma subscribe_upsert_witness :
  exists s',
    nth_error
      (pushSubscriptions
         (snd (pushSubscribe (envAt 9 0 noFault allAccepted) 2 resubscribe threeDevices)))
      0 = Some s'
    /\ sub_keys s' = "{new}" /\ sub_userAgent s' = Some "Chrome"
    /\ sub_id s' = 11 /\ sub_userId s' = 1.
Proof.
  pose (data := {| ins_userId := 2; ins_endpoint := "https://push.example/a";
                   ins_keys := Some "{new}"; ins_userAgent := Some (Some "Chrome") |}).
  destruct (subscribe_upsert (envAt 9 0 noFault allAccepted) 2 resubscribe data threeDevices
              eq_refl eq_refl eq_refl) as [Hkeys _].
  destruct (Hkeys "{new}" eq_refl) as [_ [Hupdate _]].
  assert (Hex : exists s, In s (pushSubscriptions threeDevices)
                          /\ sub_endpoint s = ins_endpoint data).
  { exists (device 11 1 "https://push.example/a"). split; [now left | reflexivity]. }
  destruct (Hupdate Hex) as [_ [_ Hsame]].
  destruct (Hsame 0%nat (device 11 1 "https://push.example/a") eq_refl eq_refl)
    as [s' [Hrow [Hk [Hua [Hid [Howner _]]]]]].
  exists s'. repeat split; assumption.
Defined.

(** * More of the code *)

(** ** PushNotificationService.isQuietHours *)

Lemma string_compare_refl (s : string) : String.compare s s = Eq.
Proof.
  induction s as [|c s IH]; cbn; [reflexivity|].
  unfold Ascii.compare. now rewrite N.compare_refl.
Qed.

Lemma digitChar_compare (a b : Z) :
  0 <= a < 10 -> 0 <= b < 10 ->
  Ascii.compare (digitChar a) (digitChar b) = (a ?= b).
Proof.
  intros Ha Hb.
  rewrite <- (Z2Nat.id a), <- (Z2Nat.id b) by lia.
  assert (Hi : (Z.to_nat a < 10)%nat) by lia.
  assert (Hj : (Z.to_nat b < 10)%nat) by lia.
  generalize dependent (Z.to_nat b). generalize dependent (Z.to_nat a).
  clear. intros i Hi j Hj.
  do 10 (destruct i as [|i];
         [do 10 (destruct j as [|j]; [vm_compute; reflexivity|]); lia|]).
  lia.
Qed.

(** Two digits in front of two strings: the numbers decide, then the
    rest. *)
Lemma twoDigits_compare (x y : Z) (s t : string) :
  0 <= x < 100 -> 0 <= y < 100 ->
  String.compare (twoDigits x ++ s) (twoDigits y ++ t)
  = match x ?= y with
    | Eq => String.compare s t
    | c => c
    end.
Proof.
  intros Hx Hy. unfold twoDigits. cbn [append String.compare].
  rewrite !digitChar_compare by (Z.to_euclidean_division_equations; lia).
  destruct (Z.compare_spec (x / 10) (y / 10));
    destruct (Z.compare_spec (x mod 10) (y mod 10));
    destruct (Z.compare_spec x y);
    try reflexivity; exfalso; Z.to_euclidean_division_equations; lia.
Qed.

(** Well-formed times of day compare as strings the way their minutes
    compare as numbers. *)
Lemma hhmm_compare (h1 m1 h2 m2 : Z) :
  0 <= h1 < 100 -> 0 <= m1 < 60 -> 0 <= h2 < 100 -> 0 <= m2 < 60 ->
  String.compare (hhmm h1 m1) (hhmm h2 m2) = (h1 * 60 + m1 ?= h2 * 60 + m2).
Proof.
  intros H1 M1 H2 M2. unfold hhmm.
  rewrite twoDigits_compare by lia.
  change (":" ++ twoDigits m1) with (String ":"%char (twoDigits m1 ++ "")).
  change (":" ++ twoDigits m2) with (String ":"%char (twoDigits m2 ++ "")).
  cbn [String.compare].
  replace (Ascii.compare ":"%char ":"%char) with Eq by reflexivity.
  rewrite twoDigits_compare by lia. cbn [String.compare].
  destruct (Z.compare_spec h1 h2); destruct (Z.compare_spec m1 m2);
    destruct (Z.compare_spec (h1 * 60 + m1) (h2 * 60 + m2));
    try reflexivity; exfalso; lia.
Qed.

Lemma hhmm_ltb (h1 m1 h2 m2 : Z) :
  0 <= h1 < 100 -> 0 <= m1 < 60 -> 0 <= h2 < 100 -> 0 <= m2 < 60 ->
  String.ltb (hhmm h1 m1) (hhmm h2 m2) = (h1 * 60 + m1 <? h2 * 60 + m2).
Proof.
  intros. unfold String.ltb, Z.ltb. now rewrite hhmm_compare.
Qed.

Lemma padStart_twoDigits (n : Z) :
  0 <= n < 100 -> PushNotificationService.padStart 2 "0"%char (showZ n) = twoDigits n.
Proof.
  intros H. rewrite <- (Z2Nat.id n) by lia.
  assert (Hk : (Z.to_nat n < 100)%nat) by lia.
  generalize dependent (Z.to_nat n). clear H. intros k Hk.
  do 100 (destruct k as [|k]; [vm_compute; reflexivity|]). lia.
Qed.

Lemma getHours_range env date : 0 <= getHours env date < 24.
Proof. unfold getHours. apply Z.mod_pos_bound. lia. Qed.

Lemma getMinutes_range env date : 0 <= getMinutes env date < 60.
Proof. unfold getMinutes. apply Z.mod_pos_bound. lia. Qed.

(** The current time of the service is the clock reading in HH:MM. *)
Lemma currentTime_hhmm env :
  PushNotificationService.currentTime env
  = hhmm (getHours env (clock env)) (getMinutes env (clock env)).
Proof.
  unfold PushNotificationService.currentTime, hhmm.
  pose proof (getHours_range env (clock env)).
  pose proof (getMinutes_range env (clock env)).
  now rewrite !padStart_twoDigits by lia.
Qed.

Lemma orDefault_hhmm (h m : Z) (dflt : string) :
  orDefault (Some (hhmm h m)) dflt = hhmm h m.
Proof. reflexivity. Qed.

(** X1. With equal bounds the service's predicate is never quiet, for any
    strings: nothing is at least a bound and also less than it. *)
Theorem service_quiet_hours_equal_bounds env prefs :
  orDefault (quietHoursStart prefs) "22:00" = orDefault (quietHoursEnd prefs) "08:00" ->
  PushNotificationService.isQuietHours env prefs = false.
Proof.
  intros Heq. unfold PushNotificationService.isQuietHours. rewrite Heq.
  unfold PushNotificationService.greaterThan, PushNotificationService.atLeast,
    PushNotificationService.lessThan.
  unfold String.ltb at 1. rewrite string_compare_refl.
  apply andb_negb_l.
Qed.

Lemma service_quiet_hours_equal_bounds_witness :
  PushNotificationService.isQuietHours (envAt 12 0 noFault allAccepted)
    (withTimes "09:00" "12:00" "12:00" (defaultPreferences 1 1)) = false.
Proof.
  apply service_quiet_hours_equal_bounds. reflexivity.
Defined.

(** The service's predicate on well-formed bounds, in minutes. *)
Lemma service_isQuietHours_minutes env prefs h1 m1 h2 m2 :
  0 <= h1 < 24 -> 0 <= m1 < 60 -> 0 <= h2 < 24 -> 0 <= m2 < 60 ->
  quietHoursStart prefs = Some (hhmm h1 m1) ->
  quietHoursEnd prefs = Some (hhmm h2 m2) ->
  let startTime := h1 * 60 + m1 in
  let endTime := h2 * 60 + m2 in
  let now := currentMinutes env in
  PushNotificationService.isQuietHours env prefs
  = if endTime <? startTime
    then (startTime <=? now) || (now <? endTime)
    else (startTime <=? now) && (now <? endTime).
Proof.
  intros H1 M1 H2 M2 Hs He startTime endTime now.
  pose proof (getHours_range env (clock env)) as Hh.
  pose proof (getMinutes_range env (clock env)) as Hm.
  unfold PushNotificationService.isQuietHours. rewrite Hs, He, !orDefault_hhmm.
  unfold PushNotificationService.greaterThan, PushNotificationService.atLeast,
    PushNotificationService.lessThan.
  rewrite currentTime_hhmm, !hhmm_ltb by lia.
  fold startTime endTime. fold (currentMinutes env). fold now.
  rewrite <- Z.leb_antisym. reflexivity.
Qed.

(** X2. On well-formed bounds the service's predicate is a half-open window
    on the minutes of the day: from the start, up to but without the end;
    around midnight when the start is after the end. *)
Theorem service_quiet_hours_half_open env prefs h1 m1 h2 m2 :
  0 <= h1 < 24 -> 0 <= m1 < 60 -> 0 <= h2 < 24 -> 0 <= m2 < 60 ->
  quietHoursStart prefs = Some (hhmm h1 m1) ->
  quietHoursEnd prefs = Some (hhmm h2 m2) ->
  let startTime := h1 * 60 + m1 in
  let endTime := h2 * 60 + m2 in
  let now := currentMinutes env in
  PushNotificationService.isQuietHours env prefs
  = if endTime <? startTime
    then (startTime <=? now) || (now <? endTime)
    else (startTime <=? now) && (now <? endTime).
Proof. exact (service_isQuietHours_minutes env prefs h1 m1 h2 m2). Qed.

Lemma service_quiet_hours_half_open_witness :
  PushNotificationService.isQuietHours (envAt 8 0 noFault allAccepted)
    (withTimes "09:00" (hhmm 22 0) (hhmm 8 0) (defaultPreferences 1 1)) = false.
Proof.
  rewrite (service_quiet_hours_half_open (envAt 8 0 noFault allAccepted) _ 22 0 8 0);
    try lia; reflexivity.
Defined.

(** X3. The scheduler and the service do not have the same quiet hours: on
    well-formed bounds the service is quiet exactly when the scheduler is
    and the clock is not at the end minute. *)
Theorem quiet_hours_differ_at_end env prefs h1 m1 h2 m2 :
  0 <= h1 < 24 -> 0 <= m1 < 60 -> 0 <= h2 < 24 -> 0 <= m2 < 60 ->
  quietHoursStart prefs = Some (hhmm h1 m1) ->
  quietHoursEnd prefs = Some (hhmm h2 m2) ->
  PushNotificationService.isQuietHours env prefs
  = quietNow env prefs && negb (currentMinutes env =? h2 * 60 + m2).
Proof.
  intros H1 M1 H2 M2 Hs He.
  rewrite (service_isQuietHours_minutes env prefs h1 m1 h2 m2) by assumption.
  unfold quietNow. rewrite Hs, He, !orDefault_hhmm.
  rewrite isQuietHours_hhmm by lia. js_compare.
  destruct (Z.ltb_spec (h2 * 60 + m2) (h1 * 60 + m1));
    destruct (Z.leb_spec (h1 * 60 + m1) (currentMinutes env));
    destruct (Z.ltb_spec (currentMinutes env) (h2 * 60 + m2));
    destruct (Z.leb_spec (currentMinutes env) (h2 * 60 + m2));
    destruct (Z.eqb_spec (currentMinutes env) (h2 * 60 + m2));
    cbn; try reflexivity; exfalso; lia.
Qed.

(** At eight o'clock, with quiet hours from 22:00 to 08:00, the scheduler
    filters the user out and the service does not. *)
Lemma quiet_hours_differ_at_end_witness :
  quietNow (envAt 8 0 noFault allAccepted)
    (withTimes "09:00" (hhmm 22 0) (hhmm 8 0) (defaultPreferences 1 1)) = true
  /\ PushNotificationService.isQuietHours (envAt 8 0 noFault allAccepted)
       (withTimes "09:00" (hhmm 22 0) (hhmm 8 0) (defaultPreferences 1 1)) = false.
Proof.
  split; [vm_compute; reflexivity|].
  rewrite (quiet_hours_differ_at_end (envAt 8 0 noFault allAccepted) _ 22 0 8 0);
    try lia; reflexivity.
Defined.

(** ** PushNotificationService.sendToUsers *)

(** X4. sendToUsers calls sendToUser once for each id, in order, and returns
    normally whatever these calls throw. *)
Theorem sendToUsers_settles env userIds payload : forall w,
  fst (PushNotificationService.sendToUsers env userIds payload w) = Ok tt
  /\ notified (snd (PushNotificationService.sendToUsers env userIds payload w))
     = (notified w ++ map (fun userId => (userId, payload)) userIds)%list.
Proof.
  unfold PushNotificationService.sendToUsers.
  induction userIds as [|u rest IH]; intros w.
  - cbn. now rewrite app_nil_r.
  - change (forEach (u :: rest) (fun userId => settled (sendToUser env userId payload)) w)
      with (forEach rest (fun userId => settled (sendToUser env userId payload))
              (snd (sendToUser env u payload w))).
    destruct (IH (snd (sendToUser env u payload w))) as [Hr Hn].
    split; [exact Hr|].
    rewrite Hn, sendToUser_notified. cbn [map]. now rewrite <- app_assoc.
Qed.

(** ** getUsersForNotifications *)

Lemma recordStatements_app l1 l2 w :
  recordStatements (l1 ++ l2) w = recordStatements l2 (recordStatements l1 w).
Proof. apply fold_left_app. Qed.

Lemma recordStatements_data l : forall w,
  notificationPreferences (recordStatements l w) = notificationPreferences w
  /\ pushSubscriptions (recordStatements l w) = pushSubscriptions w
  /\ events (recordStatements l w) = events w
  /\ pushSubscriptionsSerial (recordStatements l w) = pushSubscriptionsSerial w
  /\ pushTrace (recordStatements l w) = pushTrace w
  /\ notified (recordStatements l w) = notified w
  /\ console (recordStatements l w) = console w
  /\ dbTrace (recordStatements l w) = (dbTrace w ++ l)%list.
Proof.
  induction l as [|s l IH]; intros w; cbn [recordStatements fold_left].
  - rewrite app_nil_r. repeat split.
  - destruct (IH (recordStatement s w)) as [H1 [H2 [H3 [H4 [H5 [H6 [H7 H8]]]]]]].
    unfold recordStatements in *.
    rewrite H1, H2, H3, H4, H5, H6, H7, H8. cbn. rewrite <- app_assoc.
    repeat split.
Qed.

(** The loop, whenever it returns: it has added the candidate contexts of
    the rows it went through, and written one statement for each row that
    is not quiet. *)
Lemma collectContexts_returns env prefs : forall contexts w result w',
  collectContexts env prefs contexts w = (Ok result, w') ->
  result = (contexts ++ candidateContexts env prefs (pushSubscriptions w))%list
  /\ w' = recordStatements (candidateStatements env prefs) w.
Proof.
  induction prefs as [|pref rest IH]; intros contexts w result w' H.
  - cbn in H. inversion H; subst. rewrite app_nil_r. split; reflexivity.
  - cbn [collectContexts] in H.
    unfold candidateContexts, candidateStatements. cbn [flat_map filter].
    fold (quietNow env pref) in H.
    destruct (quietNow env pref) eqn:Q; cbn [negb].
    + apply IH in H. exact H.
    + unfold bind at 1, selectSubscriptionsOfUser, statement in H.
      destruct (dbFails env (List.length (dbTrace w))); [discriminate H|].
      cbn [pushSubscriptions recordStatement] in H.
      fold (subscriptionsOf (pref_userId pref) (pushSubscriptions w)) in H.
      cbn [map recordStatements fold_left].
      destruct (subscriptionsOf (pref_userId pref) (pushSubscriptions w)) as [|s0 l] eqn:E;
        apply IH in H; cbn [pushSubscriptions recordStatement] in H;
        destruct H as [-> ->]; split; try reflexivity.
      rewrite <- app_assoc. unfold contextOf. rewrite E. reflexivity.
Qed.

(** With every statement answered the loop does return. *)
Lemma collectContexts_answered env prefs :
  (forall n, dbFails env n = false) ->
  forall contexts w, exists result w',
    collectContexts env prefs contexts w = (Ok result, w').
Proof.
  intros Hok. induction prefs as [|pref rest IH]; intros contexts w.
  - eexists. eexists. reflexivity.
  - cbn [collectContexts].
    destruct (isQuietHours env _ _); [apply IH|].
    unfold bind at 1, selectSubscriptionsOfUser, statement. rewrite Hok.
    destruct (filter _ _); apply IH.
Qed.

Lemma getUsersForNotifications_returns env w contexts w' :
  getUsersForNotifications env w = (Ok contexts, w') ->
  contexts = candidateContexts env (notificationPreferences w) (pushSubscriptions w)
  /\ w' = recordStatements
            (SelectPreferences :: candidateStatements env (notificationPreferences w)) w.
Proof.
  unfold getUsersForNotifications, bind, selectPreferences, statement. intros H.
  destruct (dbFails env (List.length (dbTrace w))); [discriminate H|].
  apply collectContexts_returns in H. exact H.
Qed.

(** X5. getUsersForNotifications, whenever it returns, returns the preference
    rows that are not in quiet hours and whose user has at least one
    registration, in the order of the table, each with all the
    registrations of its user; it has changed nothing but the trace of
    statements, which shows one select of the preferences and one select
    of registrations for each row that is not quiet, none for a quiet row.
    With every statement answered it does return. *)
Theorem getUsersForNotifications_contexts env w :
  (forall contexts w',
     getUsersForNotifications env w = (Ok contexts, w') ->
     contexts = candidateContexts env (notificationPreferences w) (pushSubscriptions w)
     /\ w' = recordStatements
               (SelectPreferences :: candidateStatements env (notificationPreferences w)) w)
  /\ ((forall n, dbFails env n = false) ->
      exists contexts w', getUsersForNotifications env w = (Ok contexts, w')).
Proof.
  split.
  - intros contexts w'. apply getUsersForNotifications_returns.
  - intros Hok. unfold getUsersForNotifications, bind, selectPreferences, statement.
    rewrite Hok. apply collectContexts_answered, Hok.
Qed.

(** At nine o'clock both users of [twoUsers] are candidates; two hours
    earlier, in their quiet hours, none is and no registration is read. *)
Lemma getUsersForNotifications_contexts_witness :
  map ctx_userId (candidateContexts (envAt 9 0 noFault allAccepted)
                    (notificationPreferences twoUsers) (pushSubscriptions twoUsers))
  = [1; 2]
  /\ exists w', getUsersForNotifications (envAt 7 0 noFault allAccepted) twoUsers
                = (Ok [], w') /\ dbTrace w' = [SelectPreferences].
Proof.
  split; [vm_compute; reflexivity|].
  destruct (getUsersForNotifications_contexts (envAt 7 0 noFault allAccepted) twoUsers)
    as [Hshape Hreturns].
  destruct (Hreturns (fun _ => eq_refl)) as [contexts [w' Hrun]].
  destruct (Hshape contexts w' Hrun) as [Hc Hw].
  exists w'. rewrite Hrun, Hc, Hw. split; vm_compute; reflexivity.
Defined.

(** ** The ticks and the send window *)

Lemma cronEveryFifteenMinutes_spec (t : Z) :
  cronEveryFifteenMinutes t = true <-> t mod 15 = 0.
Proof.
  unfold cronEveryFifteenMinutes. rewrite Z.eqb_eq.
  split; intros H; Z.to_euclidean_division_equations; lia.
Qed.

(** X6. The job is scheduled every 15 minutes and the window is 15 minutes
    long. For a context with a well-formed preferred time and a category
    to fetch events for, and a clock reading that falls in a minute in
    which the job is scheduled: the turn of the loop skips the user unless
    the reading is the first scheduled minute at or after the preferred
    time, and then it does not; for a preferred time after 23:45 there is
    no such minute in the day, and the user is skipped. *)
Theorem digest_tick_alignment env context n w h m :
  0 <= h < 24 -> 0 <= m < 60 ->
  preferredNotificationTime (ctx_preferences context) = Some (hhmm h m) ->
  eventTypes (ctx_preferences context) <> [] ->
  cronEveryFifteenMinutes (currentMinutes env) = true ->
  let preferred := h * 60 + m in
  (digestForContext env context n w = (Ok n, w)
   <-> currentMinutes env <> 15 * ((preferred + 14) / 15))
  /\ (1425 < preferred -> digestForContext env context n w = (Ok n, w)).
Proof.
  intros Hh Hm Hpref Htypes Hcron preferred.
  pose proof (currentMinutes_range env) as Hnow.
  apply cronEveryFifteenMinutes_spec in Hcron.
  assert (Htotal : totalMinutes
                     (orDefault (preferredNotificationTime (ctx_preferences context))
                        "09:00") = Num preferred).
  { rewrite Hpref, orDefault_hhmm. apply totalMinutes_hhmm; lia. }
  destruct (outsideSendWindow (Num (currentMinutes env)) (Num preferred)) eqn:E.
  - assert (Hout : ~ (0 <= currentMinutes env - preferred < 15)).
    { intros Hin. apply outsideSendWindow_spec in Hin. congruence. }
    rewrite (digestForContext_outside env context n w) by (rewrite Htotal; exact E).
    split; [|reflexivity]. split; [intros _ | reflexivity].
    intros Heq. apply Hout. Z.to_euclidean_division_equations; lia.
  - assert (Hin : 0 <= currentMinutes env - preferred < 15)
      by (now apply outsideSendWindow_spec).
    rewrite (digestForContext_fetches env context n w)
      by (rewrite ?Htotal; assumption).
    split.
    + split; [discriminate|]. intros Hne. exfalso. apply Hne.
      Z.to_euclidean_division_equations; lia.
    + intros Hlate. exfalso. Z.to_euclidean_division_equations; lia.
Qed.

(** A preferred time of 09:05: at the scheduled minutes 09:00 and 09:30
    the user is skipped, at 09:15 the turn goes on to the events query. *)
Lemma digest_tick_alignment_witness :
  let context := contextWithPreferredTime (Some "09:05") boundaryContext in
  digestForContext (envAt 9 0 noFault allAccepted) context 0 twoUsers = (Ok 0, twoUsers)
  /\ digestForContext (envAt 9 15 noFault allAccepted) context 0 twoUsers
     <> (Ok 0, twoUsers)
  /\ digestForContext (envAt 9 30 noFault allAccepted) context 0 twoUsers
     = (Ok 0, twoUsers).
Proof.
  intros context.
  assert (Htypes : eventTypes (ctx_preferences context) <> [])
    by (vm_compute; discriminate).
  assert (Hpref : preferredNotificationTime (ctx_preferences context) = Some (hhmm 9 5))
    by reflexivity.
  assert (Hfirst : 15 * ((9 * 60 + 5 + 14) / 15) = 555) by reflexivity.
  assert (H900 : currentMinutes (envAt 9 0 noFault allAccepted) = 540)
    by (vm_compute; reflexivity).
  assert (H915 : currentMinutes (envAt 9 15 noFault allAccepted) = 555)
    by (vm_compute; reflexivity).
  assert (H930 : currentMinutes (envAt 9 30 noFault allAccepted) = 570)
    by (vm_compute; reflexivity).
  split; [|split].
  - apply (proj1 (digest_tick_alignment (envAt 9 0 noFault allAccepted) context 0 twoUsers
                    9 5 ltac:(lia) ltac:(lia) Hpref Htypes ltac:(vm_compute; reflexivity))).
    rewrite H900, Hfirst. lia.
  - intros Hskip.
    apply (proj1 (digest_tick_alignment (envAt 9 15 noFault allAccepted) context 0 twoUsers
                    9 5 ltac:(lia) ltac:(lia) Hpref Htypes ltac:(vm_compute; reflexivity)))
      in Hskip.
    rewrite H915, Hfirst in Hskip. lia.
  - apply (proj1 (digest_tick_alignment (envAt 9 30 noFault allAccepted) context 0 twoUsers
                    9 5 ltac:(lia) ltac:(lia) Hpref Htypes ltac:(vm_compute; reflexivity))).
    rewrite H930, Hfirst. lia.
Defined.

(** ** What the two jobs leave related *)

Section Respect.

Variable R : World -> World -> Prop.
Hypothesis R_refl : forall w, R w w.
Hypothesis R_trans : forall w1 w2 w3, R w1 w2 -> R w2 w3 -> R w1 w3.
Hypothesis R_statement : forall s w, R w (recordStatement s w).
Hypothesis R_line : forall l w, R w (recordLine l w).
Hypothesis R_push : forall e p w, R w (recordPush e p w).
Hypothesis R_notified : forall u p w, R w (recordNotified u p w).
Hypothesis R_delete : forall id w,
  R w (setPushSubscriptions (withoutId id (pushSubscriptions w))
         (pushSubscriptionsSerial w) w).

Lemma respects_ret {A} (a : A) : respects R (ret a).
Proof. intros w. apply R_refl. Qed.

Lemma respects_throw {A} (e : Exn) : respects R (@throw A e).
Proof. intros w. apply R_refl. Qed.

Lemma respects_bind {A B} (m : M A) (k : A -> M B) :
  respects R m -> (forall a, respects R (k a)) -> respects R (bind m k).
Proof.
  intros Hm Hk w. unfold bind. specialize (Hm w).
  destruct (m w) as [[a|e] w1]; cbn in *; [|exact Hm].
  eapply R_trans; [exact Hm | apply Hk].
Qed.

Lemma respects_tryCatch {A} (m : M A) (h : Exn -> M A) :
  respects R m -> (forall e, respects R (h e)) -> respects R (tryCatch m h).
Proof.
  intros Hm Hh w. unfold tryCatch. specialize (Hm w).
  destruct (m w) as [[a|e] w1]; cbn in *; [exact Hm|].
  eapply R_trans; [exact Hm | apply Hh].
Qed.

Lemma respects_tryFinally {A} (m : M A) (cleanup : M unit) :
  respects R m -> respects R cleanup -> respects R (tryFinally m cleanup).
Proof.
  intros Hm Hc w. unfold tryFinally. specialize (Hm w).
  destruct (m w) as [r w1]. specialize (Hc w1).
  destruct (cleanup w1) as [[[]|e] w2]; cbn in *; eapply R_trans; eauto.
Qed.

Lemma respects_settled (p : M unit) : respects R p -> respects R (settled p).
Proof. intros Hp w. apply Hp. Qed.

Lemma respects_forEach {A} (xs : list A) (body : A -> M unit) :
  (forall x, respects R (body x)) -> respects R (forEach xs body).
Proof.
  intros Hbody. induction xs as [|x rest IH]; cbn [forEach].
  - apply respects_ret.
  - apply respects_bind; [apply Hbody | intros _; exact IH].
Qed.

Lemma respects_consoleWrite l : respects R (consoleWrite l).
Proof. intros w. apply R_line. Qed.

(** A statement that only reads. *)
Lemma respects_query {A} env s (answer : World -> A) :
  respects R (statement env s (fun w => (answer w, w))).
Proof.
  intros w. unfold statement.
  destruct (dbFails env (List.length (dbTrace w))); cbn; apply R_statement.
Qed.

Lemma respects_delete env id : respects R (deleteSubscriptionById env id).
Proof.
  intros w. unfold deleteSubscriptionById, statement.
  destruct (dbFails env (List.length (dbTrace w))); cbn; [apply R_statement|].
  eapply R_trans; [apply R_statement | apply (R_delete id (recordStatement _ w))].
Qed.

Lemma respects_sendToDevice env userId payload sub :
  respects R (sendToDevice env userId payload sub).
Proof.
  unfold sendToDevice. apply respects_tryCatch.
  - apply respects_bind; [|intros _; apply respects_consoleWrite].
    intros w. unfold sendNotification.
    destruct (webpush env (sub_endpoint sub) payload); cbn; apply R_push.
  - intros e. destruct (isGone e); [|apply respects_consoleWrite].
    apply respects_bind; [apply respects_delete | intros _; apply respects_consoleWrite].
Qed.

Lemma respects_sendToUser env userId payload :
  respects R (sendToUser env userId payload).
Proof.
  intros w. unfold sendToUser.
  eapply R_trans; [apply (R_notified userId payload w)|].
  apply (respects_tryCatch
           (subscriptions <- selectSubscriptionsOfUser env userId ;;
            match subscriptions with
            | [] => consoleWrite (LogNoSubscriptions userId)
            | _ => fanOut env userId payload subscriptions
            end)
           (fun error => consoleWrite (ErrSendingPush error) ;;; throw error)).
  - apply respects_bind; [apply respects_query|].
    intros subs. destruct subs; [apply respects_consoleWrite|].
    apply respects_forEach. intros sub. apply respects_settled, respects_sendToDevice.
  - intros e. apply respects_bind;
      [apply respects_consoleWrite | intros _; apply respects_throw].
Qed.

Lemma respects_collectContexts env prefs : forall contexts,
  respects R (collectContexts env prefs contexts).
Proof.
  induction prefs as [|pref rest IH]; intros contexts; cbn [collectContexts].
  - apply respects_ret.
  - destruct (isQuietHours env _ _); [apply IH|].
    apply respects_bind; [apply respects_query|].
    intros subs. destruct subs; apply IH.
Qed.

Lemma respects_getUsersForNotifications env :
  respects R (getUsersForNotifications env).
Proof.
  apply respects_bind; [apply respects_query|].
  intros prefs. apply respects_collectContexts.
Qed.

Lemma respects_getRelevantEvents env context :
  respects R (getRelevantEvents env context).
Proof.
  unfold getRelevantEvents.
  destruct (eventTypes (ctx_preferences context)); [apply respects_ret|].
  intros w. apply R_statement.
Qed.

Lemma respects_digestForContext env context n :
  respects R (digestForContext env context n).
Proof.
  unfold digestForContext.
  destruct (outsideSendWindow _ _); [apply respects_ret|].
  apply respects_bind; [apply respects_getRelevantEvents|].
  intros evs. destruct evs as [|e0 evs]; [apply respects_ret|].
  apply respects_tryCatch.
  - apply respects_bind; [apply respects_sendToUser | intros _; apply respects_ret].
  - intros err. apply respects_bind;
      [apply respects_consoleWrite | intros _; apply respects_ret].
Qed.

Lemma respects_digestLoop env contexts : forall n,
  respects R (digestLoop env contexts n).
Proof.
  induction contexts as [|c rest IH]; intros n; cbn [digestLoop].
  - apply respects_ret.
  - apply respects_bind; [apply respects_digestForContext | intros n'; apply IH].
Qed.

Lemma respects_sendDailyDigest env : respects R (sendDailyDigest env).
Proof.
  unfold sendDailyDigest.
  apply respects_bind; [apply respects_consoleWrite|]. intros _.
  apply respects_tryFinally; [|apply respects_consoleWrite].
  apply respects_tryCatch; [|intros e; apply respects_consoleWrite].
  unfold digestJob.
  apply respects_bind; [apply respects_getUsersForNotifications|]. intros contexts.
  apply respects_bind; [apply respects_digestLoop|]. intros n.
  apply respects_consoleWrite.
Qed.

Lemma respects_immediateForContext env context :
  respects R (immediateForContext env context).
Proof.
  unfold immediateForContext.
  destruct (negb _ || _); [apply respects_ret|].
  apply respects_bind; [apply respects_query|].
  intros tides. apply respects_forEach. intros tide.
  apply respects_tryCatch; [apply respects_sendToUser|].
  intros e. apply respects_consoleWrite.
Qed.

Lemma respects_sendImmediateNotifications env :
  respects R (sendImmediateNotifications env).
Proof.
  unfold sendImmediateNotifications.
  apply respects_tryCatch; [|intros e; apply respects_consoleWrite].
  apply respects_bind; [apply respects_getUsersForNotifications|].
  intros contexts. apply respects_forEach. intros c. apply respects_immediateForContext.
Qed.

End Respect.

Lemma sameStore_refl w : sameStore w w.
Proof. repeat split. Qed.

Lemma sameStore_trans w1 w2 w3 : sameStore w1 w2 -> sameStore w2 w3 -> sameStore w1 w3.
Proof.
  unfold sameStore. intros [A1 [A2 A3]] [B1 [B2 B3]].
  rewrite B1, B2, B3. auto.
Qed.

Lemma noNewRows_trans w1 w2 w3 : noNewRows w1 w2 -> noNewRows w2 w3 -> noNewRows w1 w3.
Proof. unfold noNewRows. auto. Qed.

Lemma noNewRows_delete id w :
  noNewRows w (setPushSubscriptions (withoutId id (pushSubscriptions w))
                 (pushSubscriptionsSerial w) w).
Proof. intros s Hs. cbn in Hs. apply filter_In in Hs. tauto. Qed.

(** X7. A tick of either job, whatever fails in it, only reads the events and
    the preferences, leaves the serial of the subscription table alone and
    adds no row to that table: all it can do to the tables is delete
    registrations. *)
Theorem ticks_only_delete_registrations env w :
  sameStore w (snd (sendDailyDigest env w))
  /\ noNewRows w (snd (sendDailyDigest env w))
  /\ sameStore w (snd (sendImmediateNotifications env w))
  /\ noNewRows w (snd (sendImmediateNotifications env w)).
Proof.
  split; [|split; [|split]].
  - apply (respects_sendDailyDigest sameStore sameStore_refl sameStore_trans);
      intros; unfold sameStore; repeat split.
  - apply (respects_sendDailyDigest noNewRows (fun w s Hs => Hs) noNewRows_trans);
      try (intros; intros row Hrow; exact Hrow). apply noNewRows_delete.
  - apply (respects_sendImmediateNotifications sameStore sameStore_refl sameStore_trans);
      intros; unfold sameStore; repeat split.
  - apply (respects_sendImmediateNotifications noNewRows (fun w s Hs => Hs)
             noNewRows_trans);
      try (intros; intros row Hrow; exact Hrow). apply noNewRows_delete.
Qed.

(** ** Who is notified in a tick *)

Lemma candidateContexts_In env prefs subs c :
  In c (candidateContexts env prefs subs) ->
  exists pref,
    In pref prefs /\ quietNow env pref = false
    /\ subscriptionsOf (pref_userId pref) subs <> []
    /\ c = contextOf pref subs.
Proof.
  unfold candidateContexts. rewrite in_flat_map.
  intros [pref [Hin Hc]]. exists pref.
  destruct (quietNow env pref); [contradiction|].
  destruct (subscriptionsOf (pref_userId pref) subs) eqn:E; [contradiction|].
  destruct Hc as [<-|[]]. repeat split; [exact Hin | congruence].
Qed.



Lemma getUsersForNotifications_quiet env w :
  notified (snd (getUsersForNotifications env w)) = notified w
  /\ events (snd (getUsersForNotifications env w)) = events w.
Proof.
  apply (respects_getUsersForNotifications
           (fun w w' => notified w' = notified w /\ events w' = events w)).
  - intros; split; reflexivity.
  - intros w1 w2 w3 [A B] [C D]. split; congruence.
  - intros; split; reflexivity.
Qed.





Lemma differs_false (column : option string) (literal : string) :
  differs column literal = false <-> column = Some literal.
Proof.
  destruct column as [v|]; cbn.
  - rewrite negb_false_iff. destruct (String.eqb_spec v literal); split; congruence.
  - split; discriminate.
Qed.

(** One turn of the loop of the immediate job notifies nobody, or the user
    of the context with alerts of tides for the context's row. *)
Lemma immediateForContext_notifies env context w :
  events (snd (immediateForContext env context w)) = events w
  /\ exists extra,
       notified (snd (immediateForContext env context w)) = (notified w ++ extra)%list
       /\ forall u p, In (u, p) extra ->
            u = ctx_userId context
            /\ tideAlertFor env (events w) (ctx_preferences context) p.
Proof.
  split.
  - apply (respects_immediateForContext (fun w w' => events w' = events w));
      try (intros; reflexivity). intros w1 w2 w3 A B. congruence.
  - unfold immediateForContext.
    destruct (negb (truthy (tidesEnabled (ctx_preferences context)))
              || differs (tidesFrequency (ctx_preferences context)) "immediate") eqn:Hskip.
    + exists []. cbn. rewrite app_nil_r. split; [reflexivity | contradiction].
    + apply orb_false_iff in Hskip. destruct Hskip as [Hen Hfreq].
      apply negb_false_iff, truthy_true in Hen. apply differs_false in Hfreq.
      unfold bind at 1.
      destruct (selectEvents env ["tide"] (clock env) (nextHour (clock env)) 5 w)
        as [[tides|err] w1] eqn:Hq.
      * pose proof (selectEvents_rows _ _ _ _ _ _ _ _ Hq) as [_ Hrows].
        apply selectEvents_result in Hq. destruct Hq as [_ ->].
        destruct (alertTide_loop env context tides
                    (recordStatement
                       (SelectEvents ["tide"] (clock env) (nextHour (clock env)) 5) w))
          as [_ Hn].
        exists (map (fun tide => (ctx_userId context, tidePayload tide)) tides).
        split; [exact Hn|].
        intros u p Hin. apply in_map_iff in Hin. destruct Hin as [tide [Heq Hin]].
        inversion Heq; subst. split; [reflexivity|].
        split; [exact Hen|]. split; [exact Hfreq|].
        exists tide.
        pose proof (proj1 (Forall_forall _ _) Hrows tide Hin) as [He [Ht Hs]].
        destruct Ht as [Ht|[]]. unfold nextHour in Hs. auto.
      * exists []. rewrite app_nil_r. split; [|contradiction].
        unfold selectEvents, statement in Hq.
        destruct (dbFails env (List.length (dbTrace w))); inversion Hq; reflexivity.
Qed.

Lemma immediateLoop_notifies env contexts : forall w,
  events (snd (forEach contexts (immediateForContext env) w)) = events w
  /\ exists extra,
       notified (snd (forEach contexts (immediateForContext env) w))
       = (notified w ++ extra)%list
       /\ forall u p, In (u, p) extra ->
            exists c, In c contexts /\ u = ctx_userId c
                      /\ tideAlertFor env (events w) (ctx_preferences c) p.
Proof.
  induction contexts as [|c rest IH]; intros w.
  - cbn. split; [reflexivity|]. exists []. rewrite app_nil_r.
    split; [reflexivity | contradiction].
  - cbn [forEach]. unfold bind.
    destruct (immediateForContext_notifies env c w) as [He [extra1 [Hn1 Hx1]]].
    destruct (immediateForContext env c w) as [[[]|err] w1]; cbn [snd] in *.
    + destruct (IH w1) as [He2 [extra2 [Hn2 Hx2]]].
      split; [congruence|].
      exists (extra1 ++ extra2)%list. split; [now rewrite Hn2, Hn1, app_assoc|].
      intros u p Hin. apply in_app_or in Hin. destruct Hin as [Hin|Hin].
      * destruct (Hx1 u p Hin) as [Hu Hd]. exists c. split; [now left | auto].
      * destruct (Hx2 u p Hin) as [c' [Hc' [Hu Hd]]]. rewrite He in Hd.
        exists c'. split; [now right | auto].
    + split; [exact He|]. exists extra1. split; [exact Hn1|].
      intros u p Hin. destruct (Hx1 u p Hin) as [Hu Hd].
      exists c. split; [now left | auto].
Qed.

(** Who a tick of the immediate job notifies, and with what. *)
Lemma sendImmediateNotifications_notifies env w :
  fst (sendImmediateNotifications env w) = Ok tt
  /\ exists extra,
       notified (snd (sendImmediateNotifications env w)) = (notified w ++ extra)%list
       /\ forall u p, In (u, p) extra ->
            exists pref,
              In pref (notificationPreferences w) /\ pref_userId pref = u
              /\ quietNow env pref = false
              /\ subscriptionsOf u (pushSubscriptions w) <> []
              /\ tideAlertFor env (events w) pref p.
Proof.
  unfold sendImmediateNotifications, tryCatch, bind.
  destruct (getUsersForNotifications_quiet env w) as [Hn He].
  pose proof (getUsersForNotifications_returns env w) as Hshape.
  destruct (getUsersForNotifications env w) as [[cs|err] w1]; cbn [snd] in *.
  - destruct (Hshape cs w1 eq_refl) as [Hcs _].
    destruct (immediateLoop_notifies env cs w1) as [_ [extra [Hn2 Hx]]].
    assert (Hwho : forall u p, In (u, p) extra ->
              exists pref,
                In pref (notificationPreferences w) /\ pref_userId pref = u
                /\ quietNow env pref = false
                /\ subscriptionsOf u (pushSubscriptions w) <> []
                /\ tideAlertFor env (events w) pref p).
    { intros u p Hin. destruct (Hx u p Hin) as [c [Hc [Hu Halert]]].
      rewrite Hcs in Hc. apply candidateContexts_In in Hc.
      destruct Hc as [pref [Hpref [Hq [Hsubs ->]]]]. cbn in Hu, Halert. subst u.
      rewrite He in Halert. exists pref. auto. }
    destruct (forEach cs (immediateForContext env) w1) as [[[]|err] w2];
      cbn [fst snd consoleWrite notified recordLine] in *;
      (split; [reflexivity|]); exists extra; (split; [now rewrite Hn2, Hn | exact Hwho]).
  - split; [reflexivity|]. exists []. cbn. rewrite app_nil_r.
    split; [exact Hn | contradiction].
Qed.

(** X9. A tick of the immediate job never throws, and, whatever fails in it,
    everyone it notifies has a preference row that is not in quiet hours,
    with tides enabled at frequency 'immediate', and had a registration
    when the tick began; what they get is the alert of a tide event of the
    store that starts within the next hour. *)
Theorem immediate_recipients env w :
  fst (sendImmediateNotifications env w) = Ok tt
  /\ exists extra,
       notified (snd (sendImmediateNotifications env w)) = (notified w ++ extra)%list
       /\ forall u p, In (u, p) extra ->
            exists pref,
              In pref (notificationPreferences w) /\ pref_userId pref = u
              /\ quietNow env pref = false
              /\ subscriptionsOf u (pushSubscriptions w) <> []
              /\ tideAlertFor env (events w) pref p.
Proof. exact (sendImmediateNotifications_notifies env w). Qed.

(** ** Pruned registrations *)






(** ** The constraints of push_subscriptions *)

Lemma NoDup_map_filter {A B : Type} (f : A -> B) (P : A -> bool) (l : list A) :
  NoDup (map f l) -> NoDup (map f (filter P l)).
Proof.
  induction l as [|a l IH]; cbn; intros H; [constructor|].
  inversion H as [|x l' Hnotin Hrest]; subst.
  destruct (P a); cbn; [|now apply IH].
  constructor; [|now apply IH].
  intros Hin. apply Hnotin. apply in_map_iff in Hin.
  destruct Hin as [b [Hfb Hb]]. apply filter_In in Hb.
  apply in_map_iff. exists b. tauto.
Qed.

Lemma keysHold_delete id w :
  keysHold w ->
  keysHold (setPushSubscriptions (withoutId id (pushSubscriptions w))
              (pushSubscriptionsSerial w) w).
Proof.
  intros [Hid [Hep Hserial]]. unfold keysHold, withoutId. cbn.
  split; [now apply NoDup_map_filter|]. split; [now apply NoDup_map_filter|].
  intros s Hs. apply filter_In in Hs. apply Hserial. tauto.
Qed.

(** No row of the table has the endpoint. *)
Lemma endpoint_absent (endpoint : string) (subs : list PushSubscription) :
  filter (fun s => String.eqb (sub_endpoint s) endpoint) subs = [] ->
  forall s, In s subs -> String.eqb (sub_endpoint s) endpoint = false.
Proof.
  intros Hnil s Hs.
  destruct (String.eqb (sub_endpoint s) endpoint) eqn:E; [|reflexivity].
  assert (Hin : In s (filter (fun s => String.eqb (sub_endpoint s) endpoint) subs))
    by (apply filter_In; auto).
  rewrite Hnil in Hin. contradiction.
Qed.

(** What the subscribe handler can do to the table, whatever is in the
    request and whatever fails: nothing but, maybe, draw an id for an
    insert that is rejected; a refresh of the rows of one endpoint; or one
    row appended for an endpoint no row has. *)
Lemma pushSubscribe_table env userId b w :
  let w' := snd (pushSubscribe env userId b w) in
  (pushSubscriptions w' = pushSubscriptions w
   /\ (pushSubscriptionsSerial w' = pushSubscriptionsSerial w
       \/ pushSubscriptionsSerial w' = pushSubscriptionsSerial w + 1))
  \/ (exists endpoint keys userAgent,
        pushSubscriptions w'
        = map (fun s => if String.eqb (sub_endpoint s) endpoint
                        then refreshed keys userAgent s else s) (pushSubscriptions w)
        /\ pushSubscriptionsSerial w' = pushSubscriptionsSerial w)
  \/ (exists row,
        (forall s, In s (pushSubscriptions w) ->
           String.eqb (sub_endpoint s) (sub_endpoint row) = false)
        /\ sub_id row = pushSubscriptionsSerial w
        /\ pushSubscriptions w' = (pushSubscriptions w ++ [row])%list
        /\ pushSubscriptionsSerial w' = pushSubscriptionsSerial w + 1).
Proof.
  intros w'. assert (Hw : w' = snd (pushSubscribe env userId b w)) by reflexivity.
  clearbody w'. revert Hw.
  unfold pushSubscribe, tryCatch. unfold bind at 1.
  destruct (parseInsertPushSubscription userId b w) as [[data|err] w0] eqn:Hparse.
  - apply parseInsertPushSubscription_ok in Hparse. destruct Hparse as [-> _].
    unfold bind at 1, selectSubscriptionsByEndpoint, statement at 1.
    destruct (dbFails env (List.length (dbTrace w)));
      [intros ->; left; split; [reflexivity | left; reflexivity]|].
    cbn [pushSubscriptions recordStatement].
    set (w1 := recordStatement _ w).
    destruct (filter (fun s => String.eqb (sub_endpoint s) (ins_endpoint data))
                (pushSubscriptions w)) as [|s0 l] eqn:E;
      cbn [firstn]; unfold bind.
    + unfold insertSubscription.
      destruct (dbFails env (List.length (dbTrace w1))).
      * destruct (drawsId env (List.length (dbTrace w1))); intros ->; left;
          (split; [reflexivity|]); [right | left]; reflexivity.
      * destruct (ins_keys data) as [k|]; intros ->.
        -- right. right. eexists. split; [|split; [|split; reflexivity]].
           ++ cbn [sub_endpoint]. now apply endpoint_absent.
           ++ reflexivity.
        -- left. split; [reflexivity | right; reflexivity].
    + unfold updateSubscriptionByEndpoint.
      destruct (ins_keys data) as [k|].
      * unfold statement. destruct (dbFails env (List.length (dbTrace w1))); intros ->.
        -- left. split; [reflexivity | left; reflexivity].
        -- right. left. do 3 eexists. split; reflexivity.
      * intros ->. left. split; [reflexivity | left; reflexivity].
  - unfold parseInsertPushSubscription in Hparse.
    destruct (body_endpoint b), (acceptedKeys (body_keys b));
      try (inversion Hparse; subst; intros ->; left; split;
           [reflexivity | left; reflexivity]).
    destruct (body_userAgent b); inversion Hparse; subst; intros ->; left;
      (split; [reflexivity | left; reflexivity]).
Qed.

(** X11. The subscribe handler keeps the constraints of the table (distinct
    ids, distinct endpoints, ids below the serial), whatever the request
    and whatever fails: it never attempts an insert that the unique
    endpoint would refuse. *)
Theorem pushSubscribe_keeps_keys env userId b w :
  keysHold w -> keysHold (snd (pushSubscribe env userId b w)).
Proof.
  intros [Hid [Hep Hserial]].
  destruct (pushSubscribe_table env userId b w)
    as [[Ht Hs]|[[endpoint [keys [ua [Ht Hs]]]]|[row [Habsent [Hrow [Ht Hs]]]]]];
    unfold keysHold; rewrite Ht.
  - split; [exact Hid|]. split; [exact Hep|].
    intros s Hs'. specialize (Hserial s Hs'). destruct Hs as [-> | ->]; lia.
  - rewrite Hs. assert (Hfield : forall (l : list PushSubscription),
              map sub_id (map (fun s => if String.eqb (sub_endpoint s) endpoint
                                        then refreshed keys ua s else s) l) = map sub_id l
              /\ map sub_endpoint (map (fun s => if String.eqb (sub_endpoint s) endpoint
                                                 then refreshed keys ua s else s) l)
                 = map sub_endpoint l).
    { intros l. rewrite !map_map. split; apply map_ext; intros s;
        destruct (String.eqb (sub_endpoint s) endpoint); reflexivity. }
    destruct (Hfield (pushSubscriptions w)) as [-> ->].
    split; [exact Hid|]. split; [exact Hep|].
    intros s Hs'. apply in_map_iff in Hs'. destruct Hs' as [s' [<- Hs']].
    specialize (Hserial s' Hs').
    destruct (String.eqb (sub_endpoint s') endpoint); exact Hserial.
  - rewrite Hs, !map_app. cbn [map]. split; [|split].
    + apply NoDup_app; [exact Hid | repeat constructor; intros [] |].
      intros x Hx [Heq|[]]. apply in_map_iff in Hx. destruct Hx as [s [Hsx Hs']].
      specialize (Hserial s Hs'). lia.
    + apply NoDup_app; [exact Hep | repeat constructor; intros [] |].
      intros x Hx [Heq|[]]. apply in_map_iff in Hx. destruct Hx as [s [Hsx Hs']].
      specialize (Habsent s Hs'). apply String.eqb_neq in Habsent. congruence.
    + intros s Hs'. apply in_app_or in Hs'. destruct Hs' as [Hs'|[<-|[]]].
      * specialize (Hserial s Hs'). lia.
      * lia.
Qed.

Lemma pushSubscribe_keeps_keys_witness :
  keysHold (snd (pushSubscribe (envAt 9 0 noFault allAccepted) 2 subscribeNew
                   threeDevices)).
Proof.
  apply pushSubscribe_keeps_keys. unfold keysHold. cbn.
  split; [repeat constructor; cbn; intuition discriminate|].
  split; [repeat constructor; cbn; intuition discriminate|].
  intros s Hs. repeat (destruct Hs as [<-|Hs]; [cbn; lia|]). contradiction.
Defined.

(** X12. [sendToUser] and a tick of either job keep the constraints of the
    subscription table (distinct ids, distinct endpoints, ids below the
    serial), whatever fails in them. *)
Theorem delivery_keeps_keys env userId payload w :
  keysHold w ->
  keysHold (snd (sendToUser env userId payload w))
  /\ keysHold (snd (sendDailyDigest env w))
  /\ keysHold (snd (sendImmediateNotifications env w)).
Proof.
  intros Hk.
  pose (R := fun w w' : World => keysHold w -> keysHold w').
  assert (Hrefl : forall w, R w w) by (intros w0 H; exact H).
  assert (Htrans : forall w1 w2 w3, R w1 w2 -> R w2 w3 -> R w1 w3)
    by (intros w1 w2 w3 A B H; auto).
  assert (Hs : forall s w, R w (recordStatement s w)) by (intros s w0 H; exact H).
  assert (Hl : forall l w, R w (recordLine l w)) by (intros l w0 H; exact H).
  assert (Hp : forall e p w, R w (recordPush e p w)) by (intros e p w0 H; exact H).
  assert (Hn : forall u p w, R w (recordNotified u p w)) by (intros u p w0 H; exact H).
  assert (Hd : forall id w,
             R w (setPushSubscriptions (withoutId id (pushSubscriptions w))
                    (pushSubscriptionsSerial w) w))
    by (intros id w0 H; now apply keysHold_delete).
  split; [|split].
  - exact (respects_sendToUser R Hrefl Htrans Hs Hl Hp Hn Hd env userId payload w Hk).
  - exact (respects_sendDailyDigest R Hrefl Htrans Hs Hl Hp Hn Hd env w Hk).
  - exact (respects_sendImmediateNotifications R Hrefl Htrans Hs Hl Hp Hn Hd env w Hk).
Qed.

Lemma delivery_keeps_keys_witness :
  keysHold (snd (sendToUser (envAt 9 0 noFault goneAndBusy) 1 testPayload threeDevices)).
Proof.
  apply (delivery_keeps_keys (envAt 9 0 noFault goneAndBusy) 1 testPayload threeDevices).
  unfold keysHold. cbn.
  split; [repeat constructor; cbn; intuition discriminate|].
  split; [repeat constructor; cbn; intuition discriminate|].
  intros s Hs. repeat (destruct Hs as [<-|Hs]; [cbn; lia|]). contradiction.
Defined.

(** ** Subscribing twice *)

(** Validation does not look at the world. *)
Lemma parseInsertPushSubscription_pure userId b data w w' :
  parseInsertPushSubscription userId b w = (Ok data, w') ->
  forall w2, parseInsertPushSubscription userId b w2 = (Ok data, w2).
Proof.
  unfold parseInsertPushSubscription.
  destruct (body_endpoint b); try (intros H; discriminate H).
  destruct (acceptedKeys (body_keys b)); try (intros H; discriminate H).
  destruct (body_userAgent b); intros H w2; inversion H; reflexivity.
Qed.

(** The world after the subscribe handler when the request is valid, its
    keys are not null and its two statements are answered. *)
Lemma pushSubscribe_world env userId b data keys w :
  parseInsertPushSubscription userId b w = (Ok data, w) ->
  ins_keys data = Some keys ->
  dbFails env (List.length (dbTrace w)) = false ->
  dbFails env (S (List.length (dbTrace w))) = false ->
  let w1 := recordStatement (SelectSubscriptionsByEndpoint (ins_endpoint data) 1) w in
  let userAgent := match ins_userAgent data with
                   | Some ua => ua
                   | None => None
                   end in
  snd (pushSubscribe env userId b w)
  = match filter (fun s => String.eqb (sub_endpoint s) (ins_endpoint data))
            (pushSubscriptions w) with
    | [] =>
        setPushSubscriptions
          (pushSubscriptions w ++
             [{| sub_id := pushSubscriptionsSerial w;
                 sub_userId := ins_userId data;
                 sub_endpoint := ins_endpoint data;
                 sub_keys := keys;
                 sub_userAgent := userAgent;
                 sub_createdAt := clock env |}])
          (pushSubscriptionsSerial w + 1)
          (recordStatement
             (InsertSubscription (ins_userId data) (ins_endpoint data) (Some keys)
                userAgent) w1)
    | _ =>
        setPushSubscriptions
          (map (fun s => if String.eqb (sub_endpoint s) (ins_endpoint data)
                         then refreshed keys (ins_userAgent data) s else s)
               (pushSubscriptions w))
          (pushSubscriptionsSerial w)
          (recordStatement
             (UpdateSubscriptionByEndpoint (ins_endpoint data) (Some keys)
                (ins_userAgent data)) w1)
    end.
Proof.
  intros Hparse Hkeys Hok1 Hok2 w1 userAgent.
  rewrite (pushSubscribe_write env userId b data w Hparse Hok1). cbn zeta. fold w1.
  assert (Hok2' : dbFails env (List.length (dbTrace w1)) = false)
    by (unfold w1; now rewrite dbTrace_after_statement).
  rewrite Hkeys.
  destruct (filter (fun s => String.eqb (sub_endpoint s) (ins_endpoint data))
              (pushSubscriptions w)) as [|s0 l].
  - unfold insertSubscription. rewrite Hok2'. reflexivity.
  - unfold updateSubscriptionByEndpoint.
    rewrite (statement_answered env _ _ w1 Hok2'). reflexivity.
Qed.

Lemma filter_found {A B : Type} (P : A -> bool) (l : list A) (x : A) (none some : B) :
  In x l -> P x = true ->
  match filter P l with
  | [] => none
  | _ :: _ => some
  end = some.
Proof.
  intros Hin HP.
  assert (H : In x (filter P l)) by (apply filter_In; auto).
  destruct (filter P l); [contradiction | reflexivity].
Qed.

(** X13. Sending the same valid subscribe request a second time leaves the
    table as the first request left it, and, when the keys are not null,
    its serial too: the row the first request inserted or refreshed is
    refreshed to what it already is. (With null keys both requests are
    refused by the database and no row changes.) Every statement the
    environment can reject is answered. *)
Theorem subscribe_twice_is_once env userId b data w :
  parseInsertPushSubscription userId b w = (Ok data, w) ->
  (forall n, dbFails env n = false) ->
  let w1 := snd (pushSubscribe env userId b w) in
  let w2 := snd (pushSubscribe env userId b w1) in
  pushSubscriptions w2 = pushSubscriptions w1
  /\ (ins_keys data <> None -> pushSubscriptionsSerial w2 = pushSubscriptionsSerial w1).
Proof.
  intros Hparse Hok w1 w2.
  pose proof (parseInsertPushSubscription_pure _ _ _ _ _ Hparse w1) as Hparse1.
  destruct (ins_keys data) as [keys|] eqn:Hkeys.
  2:{ split; [|congruence]. unfold w2.
      exact (proj2 (pushSubscribe_null_keys env userId b data w1 Hparse1 Hkeys (Hok _))). }
  set (upd := fun s => if String.eqb (sub_endpoint s) (ins_endpoint data)
                       then refreshed keys (ins_userAgent data) s else s).
  assert (Hupd : forall s, upd (upd s) = upd s).
  { intros s. unfold upd.
    destruct (String.eqb (sub_endpoint s) (ins_endpoint data)) eqn:E;
      [|now rewrite E].
    cbn [sub_endpoint refreshed]. rewrite E.
    destruct s; destruct (ins_userAgent data); reflexivity. }
  assert (Hep : forall s, sub_endpoint (upd s) = sub_endpoint s).
  { intros s. unfold upd.
    destruct (String.eqb (sub_endpoint s) (ins_endpoint data)); reflexivity. }
  set (row := {| sub_id := pushSubscriptionsSerial w;
                 sub_userId := ins_userId data;
                 sub_endpoint := ins_endpoint data;
                 sub_keys := keys;
                 sub_userAgent := match ins_userAgent data with
                                  | Some ua => ua
                                  | None => None
                                  end;
                 sub_createdAt := clock env |}).
  assert (Hfirst :
            (filter (fun s => String.eqb (sub_endpoint s) (ins_endpoint data))
               (pushSubscriptions w) = []
             /\ pushSubscriptions w1 = (pushSubscriptions w ++ [row])%list)
            \/ (exists s0, In s0 (pushSubscriptions w)
                           /\ String.eqb (sub_endpoint s0) (ins_endpoint data) = true
                           /\ pushSubscriptions w1 = map upd (pushSubscriptions w))).
  { unfold w1.
    rewrite (pushSubscribe_world env userId b data keys w Hparse Hkeys (Hok _) (Hok _)).
    destruct (filter (fun s => String.eqb (sub_endpoint s) (ins_endpoint data))
                (pushSubscriptions w)) as [|s0 l] eqn:E.
    - left. split; reflexivity.
    - right. exists s0.
      assert (H : In s0 (filter (fun s => String.eqb (sub_endpoint s) (ins_endpoint data))
                           (pushSubscriptions w))) by (rewrite E; now left).
      apply filter_In in H. destruct H as [Hin Heq]. repeat split; assumption. }
  clearbody w1. subst w2.
  rewrite (pushSubscribe_world env userId b data keys w1 Hparse1 Hkeys (Hok _) (Hok _)).
  destruct Hfirst as [[E HT]|[s0 [Hin [Heq HT]]]].
  - (* the first request inserted the row *)
    rewrite (filter_found _ _ row);
      [| rewrite HT; apply in_or_app; right; now left | apply String.eqb_refl].
    cbn [pushSubscriptions pushSubscriptionsSerial setPushSubscriptions].
    split; [|reflexivity].
    fold upd. rewrite HT, map_app. cbn [map]. f_equal.
    + rewrite <- (map_id (pushSubscriptions w)) at 2.
      apply map_ext_in. intros s Hs. unfold upd.
      now rewrite (endpoint_absent _ _ E s Hs).
    + unfold upd, row. cbn [sub_endpoint]. rewrite String.eqb_refl.
      destruct (ins_userAgent data); reflexivity.
  - (* the first request refreshed existing rows *)
    rewrite (filter_found _ _ (upd s0));
      [| rewrite HT; now apply in_map | now rewrite Hep].
    cbn [pushSubscriptions pushSubscriptionsSerial setPushSubscriptions].
    split; [|reflexivity].
    fold upd. rewrite HT, map_map. apply map_ext. exact Hupd.
Qed.

(** The new endpoint of [subscribeNew], subscribed twice by user 2: one
    row for it, with id 100. *)
Lemma subscribe_twice_is_once_witness :
  let env := envAt 9 0 noFault allAccepted in
  map sub_id
    (pushSubscriptions
       (snd (pushSubscribe env 2 subscribeNew (snd (pushSubscribe env 2 subscribeNew
                                                      threeDevices)))))
  = [11; 12; 13; 14; 100].
Proof.
  intros env.
  pose (data := {| ins_userId := 2; ins_endpoint := "https://push.example/z";
                   ins_keys := Some "{new}"; ins_userAgent := None |}).
  destruct (subscribe_twice_is_once env 2 subscribeNew data threeDevices eq_refl
              (fun _ => eq_refl)) as [Htable _].
  rewrite Htable. vm_compute. reflexivity.
Defined.

(** ** Handlers on a site *)

Lemma routeStatement_answered {A : Type} env label (run : Site -> A * Site) s :
  dbFails env (position s) = false ->
  routeStatement env label run s
  = (Ok (fst (run (recordRouteStatement label s))),
     snd (run (recordRouteStatement label s))).
Proof.
  intros Hok. unfold routeStatement. rewrite Hok.
  destruct (run (recordRouteStatement label s)); reflexivity.
Qed.

Lemma routeStatement_rejected {A : Type} env label (run : Site -> A * Site) s :
  dbFails env (position s) = true ->
  routeStatement env label run s = (Throw DbError, recordRouteStatement label s).
Proof. intros Hno. unfold routeStatement. now rewrite Hno. Qed.

Lemma position_after_statement label s :
  position (recordRouteStatement label s) = S (position s).
Proof.
  unfold position. cbn. rewrite length_app. cbn. lia.
Qed.

(** The number of the next statement, as the lifted computation sees
    it. *)
Lemma shifted_position env s :
  dbFails (shifted env (List.length (routeStatements s))) (List.length (dbTrace (site_world s)))
  = dbFails env (position s).
Proof. reflexivity. Qed.

Lemma shifted_answered env k :
  (forall n, dbFails env n = false) -> forall n, dbFails (shifted env k) n = false.
Proof. intros Hok n. apply Hok. Qed.

(** ** PushNotificationService.sendWithPreferences *)

(** The first preference row of a user, as [.limit(1)] and [prefs[0]]
    give it. *)
Lemma firstn_one_hd {A : Type} (l : list A) :
  firstn 1 l = match hd_error l with
               | Some a => [a]
               | None => []
               end.
Proof. destruct l; reflexivity. Qed.

(** sendWithPreferences after its select has been answered. *)
Lemma sendWithPreferences_answered env userId notificationType payload s :
  dbFails env (position s) = false ->
  sendWithPreferences env userId notificationType payload s
  = hcatch
      (match hd_error (filter (fun p => pref_userId p =? userId)
                         (notificationPreferences (site_world s))) with
       | None => lift env (fun e => sendToUser e userId payload)
       | Some pref =>
           if negb (truthy (categoryEnabled pref notificationType))
           then routeWrite (LogTypeDisabled userId notificationType)
           else if negb (differs (categoryFrequency pref notificationType) "immediate")
                then lift env (fun e => sendToUser e userId payload)
                else routeWrite (LogWillBeBatched userId notificationType
                                   (categoryFrequency pref notificationType))
       end)
      (fun error => hbind (routeWrite (ErrCheckingPreferences error))
                      (fun _ => hthrow error))
      (recordRouteStatement (SelectPreferencesOfUser userId 1) s).
Proof.
  intros Hok. unfold sendWithPreferences, hcatch. unfold hbind at 1.
  unfold selectPreferencesOfUser.
  rewrite (routeStatement_answered env _ _ s Hok). cbn [fst snd].
  change (notificationPreferences
            (site_world (recordRouteStatement (SelectPreferencesOfUser userId 1) s)))
    with (notificationPreferences (site_world s)).
  rewrite firstn_one_hd.
  destruct (hd_error (filter (fun p => pref_userId p =? userId)
                        (notificationPreferences (site_world s)))); reflexivity.
Qed.

(** X14. With the select of the preferences answered, sendWithPreferences calls
    sendToUser, once, when the user has no preference row, and when the
    first row of the user has the category enabled with the frequency
    'immediate'; in every other case it returns without calling it and
    without changing the world. Quiet hours play no part. When the select
    is rejected it throws and nobody is notified. *)
Theorem sendWithPreferences_decision env userId notificationType payload s :
  let rows := filter (fun p => pref_userId p =? userId)
                (notificationPreferences (site_world s)) in
  let s' := snd (sendWithPreferences env userId notificationType payload s) in
  (dbFails env (position s) = false ->
     (rows = [] ->
        notified (site_world s') = (notified (site_world s) ++ [(userId, payload)])%list)
     /\ (forall pref, hd_error rows = Some pref ->
           categoryEnabled pref notificationType = Some true ->
           categoryFrequency pref notificationType = Some "immediate" ->
           notified (site_world s') = (notified (site_world s) ++ [(userId, payload)])%list)
     /\ (forall pref, hd_error rows = Some pref ->
           categoryEnabled pref notificationType <> Some true
           \/ categoryFrequency pref notificationType <> Some "immediate" ->
           fst (sendWithPreferences env userId notificationType payload s) = Ok tt
           /\ site_world s' = site_world s))
  /\ (dbFails env (position s) = true ->
        fst (sendWithPreferences env userId notificationType payload s) = Throw DbError
        /\ site_world s' = site_world s).
Proof.
  intros rows s'. subst s'. split.
  - intros Hok. rewrite (sendWithPreferences_answered env _ _ _ s Hok). fold rows.
    set (s1 := recordRouteStatement _ s).
    assert (Hcall :
              notified (site_world
                          (snd (hcatch (lift env (fun e => sendToUser e userId payload))
                                  (fun error =>
                                     hbind (routeWrite (ErrCheckingPreferences error))
                                       (fun _ => hthrow error)) s1)))
              = (notified (site_world s) ++ [(userId, payload)])%list).
    { unfold hcatch, lift.
      pose proof (sendToUser_notified (shifted env (List.length (routeStatements s1)))
                    userId payload (site_world s1)) as Hn.
      destruct (sendToUser _ userId payload (site_world s1)) as [[[]|err] w'];
        exact Hn. }
    split; [|split].
    + intros Hnone. rewrite Hnone. cbn [hd_error]. exact Hcall.
    + intros pref Hhd Hen Hfreq. rewrite Hhd, Hen, Hfreq. cbn [truthy negb].
      replace (differs (Some "immediate") "immediate") with false by reflexivity.
      cbn [negb]. exact Hcall.
    + intros pref Hhd Hoff. rewrite Hhd. unfold hcatch.
      destruct (truthy (categoryEnabled pref notificationType)) eqn:Hen; cbn [negb];
        [|split; reflexivity].
      apply truthy_true in Hen.
      destruct (differs (categoryFrequency pref notificationType) "immediate") eqn:Hd;
        cbn [negb]; [split; reflexivity|].
      apply differs_false in Hd. exfalso. destruct Hoff as [H|H]; contradiction.
  - intros Hno. unfold sendWithPreferences, hcatch, hbind, selectPreferencesOfUser.
    rewrite (routeStatement_rejected env _ _ s Hno). split; reflexivity.
Qed.

(** User 1 of [twoUsers] has sports at 'daily' and tides at 'immediate':
    a sports notification is held back, a tide notification is sent. *)
Lemma sendWithPreferences_decision_witness :
  let env := envAt 23 0 noFault allAccepted in
  notified (site_world (snd (sendWithPreferences env 1 Sports testPayload (siteOf twoUsers))))
  = []
  /\ notified (site_world (snd (sendWithPreferences env 1 Tides testPayload (siteOf twoUsers))))
     = [(1, testPayload)].
Proof.
  intros env.
  destruct (sendWithPreferences_decision env 1 Sports testPayload (siteOf twoUsers))
    as [Hs _].
  destruct (sendWithPreferences_decision env 1 Tides testPayload (siteOf twoUsers))
    as [Ht _].
  destruct (Hs eq_refl) as [_ [_ Hheld]]. destruct (Ht eq_refl) as [_ [Hsent _]].
  split.
  - destruct (Hheld (defaultPreferences 1 1) eq_refl) as [_ Hw];
      [right; discriminate|]. now rewrite Hw.
  - exact (Hsent (defaultPreferences 1 1) eq_refl eq_refl eq_refl).
Defined.

(** ** The push routes *)

(** The unsubscribe handler, once its statement is answered or
    rejected. *)
Lemma pushUnsubscribe_run env userId endpoint s :
  pushUnsubscribe env userId endpoint s
  = if dbFails env (position s)
    then (Ok (ReplyError DbError),
          recordRouteLine (ErrPushUnsubscribe DbError)
            (recordRouteStatement (DeleteSubscriptionsByEndpoint endpoint) s))
    else (Ok ReplySuccess,
          withWorld
            (setPushSubscriptions
               (filter (fun r => negb (String.eqb (sub_endpoint r) endpoint))
                  (pushSubscriptions (site_world s)))
               (pushSubscriptionsSerial (site_world s)) (site_world s))
            (recordRouteStatement (DeleteSubscriptionsByEndpoint endpoint) s)).
Proof.
  unfold pushUnsubscribe, hcatch, hbind, deleteSubscriptionsByEndpoint, routeStatement.
  destruct (dbFails env (position s)); reflexivity.
Qed.

(** X15. When its delete is answered, the unsubscribe handler answers success
    and removes every row that has the endpoint, whoever owns it and
    whoever asks, also when there is none; the rows of other endpoints
    stay, in their order. When the delete is rejected it answers 500 and
    the table is as before. *)
Theorem unsubscribe_removes_endpoint env userId endpoint s :
  let s' := snd (pushUnsubscribe env userId endpoint s) in
  (dbFails env (position s) = false ->
     fst (pushUnsubscribe env userId endpoint s) = Ok ReplySuccess
     /\ pushSubscriptions (site_world s')
        = filter (fun r => negb (String.eqb (sub_endpoint r) endpoint))
            (pushSubscriptions (site_world s))
     /\ (forall r, In r (pushSubscriptions (site_world s')) -> sub_endpoint r <> endpoint)
     /\ (forall r, In r (pushSubscriptions (site_world s)) -> sub_endpoint r <> endpoint ->
           In r (pushSubscriptions (site_world s'))))
  /\ (dbFails env (position s) = true ->
        fst (pushUnsubscribe env userId endpoint s) = Ok (ReplyError DbError)
        /\ pushSubscriptions (site_world s') = pushSubscriptions (site_world s)).
Proof.
  intros s'. subst s'. rewrite pushUnsubscribe_run. split; intros H; rewrite H.
  - cbn [fst snd site_world withWorld pushSubscriptions setPushSubscriptions].
    split; [reflexivity|]. split; [reflexivity|]. split.
    + intros r Hr. apply filter_In in Hr. destruct Hr as [_ Hne].
      apply negb_true_iff, String.eqb_neq in Hne. exact Hne.
    + intros r Hr Hne. apply filter_In. split; [exact Hr|].
      now apply negb_true_iff, String.eqb_neq.
  - split; reflexivity.
Qed.

(** User 2 unsubscribes the endpoint of a device of user 1. *)
Lemma unsubscribe_removes_endpoint_witness :
  map sub_id
    (pushSubscriptions
       (site_world (snd (pushUnsubscribe (envAt 9 0 noFault allAccepted) 2
                           "https://push.example/a" (siteOf threeDevices)))))
  = [12; 13; 14].
Proof.
  destruct (unsubscribe_removes_endpoint (envAt 9 0 noFault allAccepted) 2
              "https://push.example/a" (siteOf threeDevices)) as [Hok _].
  destruct (Hok eq_refl) as [_ [Htable _]]. rewrite Htable. reflexivity.
Defined.

(** The subscribe handler inside a site. *)
Lemma pushSubscribeRoute_world env userId b s :
  site_world (snd (pushSubscribeRoute env userId b s))
  = snd (pushSubscribe (shifted env (List.length (routeStatements s))) userId b
           (site_world s))
  /\ fst (pushSubscribeRoute env userId b s)
     = fst (pushSubscribe (shifted env (List.length (routeStatements s))) userId b
              (site_world s))
  /\ routeStatements (snd (pushSubscribeRoute env userId b s)) = routeStatements s.
Proof.
  unfold pushSubscribeRoute, lift.
  destruct (pushSubscribe _ userId b (site_world s)); repeat split.
Qed.

(** X16. Subscribing an endpoint that no row has and then unsubscribing it
    gives back the subscription table as it was. Every statement is
    answered. *)
Theorem subscribe_then_unsubscribe env userId other b data s :
  parseInsertPushSubscription userId b (site_world s) = (Ok data, site_world s) ->
  (forall n, dbFails env n = false) ->
  (forall r, In r (pushSubscriptions (site_world s)) ->
     sub_endpoint r <> ins_endpoint data) ->
  let s1 := snd (pushSubscribeRoute env userId b s) in
  let s2 := snd (pushUnsubscribe env other (ins_endpoint data) s1) in
  pushSubscriptions (site_world s2) = pushSubscriptions (site_world s).
Proof.
  intros Hparse Hok Hfresh s1 s2.
  assert (Hnone : filter (fun r => String.eqb (sub_endpoint r) (ins_endpoint data))
                    (pushSubscriptions (site_world s)) = []).
  { destruct (filter _ _) as [|r l] eqn:E; [reflexivity|]. exfalso.
    assert (Hr : In r (filter (fun r => String.eqb (sub_endpoint r) (ins_endpoint data))
                         (pushSubscriptions (site_world s)))) by (rewrite E; now left).
    apply filter_In in Hr. destruct Hr as [Hin Heq]. apply String.eqb_eq in Heq.
    exact (Hfresh r Hin Heq). }
  assert (Hkeep : filter (fun r => negb (String.eqb (sub_endpoint r) (ins_endpoint data)))
                    (pushSubscriptions (site_world s))
                  = pushSubscriptions (site_world s)).
  { rewrite <- (filter_all (pushSubscriptions (site_world s))) at 2.
    apply filter_ext_in. intros r Hr.
    apply negb_true_iff, String.eqb_neq. now apply Hfresh. }
  unfold s2. rewrite pushUnsubscribe_run, Hok.
  cbn [snd site_world withWorld pushSubscriptions setPushSubscriptions].
  unfold s1. destruct (pushSubscribeRoute_world env userId b s) as [-> _].
  destruct (ins_keys data) as [keys|] eqn:Hkeys.
  - rewrite (pushSubscribe_world _ userId b data keys (site_world s) Hparse Hkeys
               (shifted_answered env (List.length (routeStatements s)) Hok _)
               (shifted_answered env (List.length (routeStatements s)) Hok _)).
    rewrite Hnone. cbn [pushSubscriptions setPushSubscriptions].
    rewrite filter_app. cbn [filter sub_endpoint]. rewrite String.eqb_refl.
    cbn [negb]. rewrite app_nil_r. exact Hkeep.
  - rewrite (proj2 (pushSubscribe_null_keys _ userId b data (site_world s) Hparse Hkeys
                      (shifted_answered env (List.length (routeStatements s)) Hok _))).
    exact Hkeep.
Qed.

Lemma subscribe_then_unsubscribe_witness :
  let env := envAt 9 0 noFault allAccepted in
  pushSubscriptions
    (site_world
       (snd (pushUnsubscribe env 2 "https://push.example/z"
               (snd (pushSubscribeRoute env 2 subscribeNew (siteOf threeDevices))))))
  = pushSubscriptions threeDevices.
Proof.
  intros env.
  pose (data := {| ins_userId := 2; ins_endpoint := "https://push.example/z";
                   ins_keys := Some "{new}"; ins_userAgent := None |}).
  apply (subscribe_then_unsubscribe env 2 2 subscribeNew data (siteOf threeDevices)
           eq_refl (fun _ => eq_refl)).
  intros r Hr. repeat (destruct Hr as [<-|Hr]; [discriminate|]). contradiction.
Defined.

(** The status handler, once its select is answered. *)
Lemma subscriptionStatus_run env userId s :
  dbFails env (position s) = false ->
  fst (subscriptionStatus env userId s)
  = Ok (StatusJson
          (match subscriptionsOf userId (pushSubscriptions (site_world s)) with
           | [] => false
           | _ => true
           end)
          (hd_error (subscriptionsOf userId (pushSubscriptions (site_world s))))).
Proof.
  intros Hok. unfold subscriptionStatus, hcatch, hbind, selectSubscriptionsOfUserLimit.
  rewrite (routeStatement_answered env _ _ s Hok). cbn [fst snd].
  change (pushSubscriptions (site_world (recordRouteStatement _ s)))
    with (pushSubscriptions (site_world s)).
  destruct (subscriptionsOf userId (pushSubscriptions (site_world s))); reflexivity.
Qed.

(** Whether a user has a registration in a table. *)
Lemma owns_iff userId (l : list PushSubscription) :
  (match subscriptionsOf userId l with [] => false | _ => true end) = true
  <-> exists r, In r l /\ sub_userId r = userId.
Proof.
  unfold subscriptionsOf. split.
  - destruct (filter (fun s0 => sub_userId s0 =? userId) l) as [|r l'] eqn:E;
      [discriminate|]. intros _.
    assert (H : In r (filter (fun s0 => sub_userId s0 =? userId) l))
      by (rewrite E; now left).
    apply filter_In in H. destruct H as [Hin Heq]. apply Z.eqb_eq in Heq. eauto.
  - intros [r [Hin Heq]].
    assert (H : In r (filter (fun s0 => sub_userId s0 =? userId) l))
      by (apply filter_In; split; [exact Hin | now apply Z.eqb_eq]).
    destruct (filter (fun s0 => sub_userId s0 =? userId) l); [contradiction|reflexivity].
Qed.

(** X17. A subscribe request that passes validation is answered with
    success when its keys are not null (with null keys the database
    refuses the write and the answer is 500), and the status route then
    says the requester is subscribed exactly when the requester already
    had a registration, or the keys are not null and the endpoint was
    new: subscribing an endpoint that is registered under another account
    answers success and leaves the requester without any registration.
    Every statement the environment can reject is answered. *)
Theorem status_after_subscribe env userId b data s :
  parseInsertPushSubscription userId b (site_world s) = (Ok data, site_world s) ->
  (forall n, dbFails env n = false) ->
  let before := pushSubscriptions (site_world s) in
  let s1 := snd (pushSubscribeRoute env userId b s) in
  fst (pushSubscribeRoute env userId b s)
  = Ok (match ins_keys data with
        | Some _ => Json200
        | None => Status500 DbError
        end)
  /\ exists isSubscribed subscription,
       fst (subscriptionStatus env userId s1) = Ok (StatusJson isSubscribed subscription)
       /\ (isSubscribed = true
           <-> (exists r, In r before /\ sub_userId r = userId)
               \/ (ins_keys data <> None
                   /\ forall r, In r before -> sub_endpoint r <> ins_endpoint data)).
Proof.
  intros Hparse Hok before s1.
  destruct (pushSubscribeRoute_world env userId b s) as [Hw [Hr _]].
  destruct (parseInsertPushSubscription_ok _ _ _ _ _ Hparse) as [_ [Huser _]].
  fold s1 in Hw.
  destruct (ins_keys data) as [keys|] eqn:Hkeys.
  - pose proof (pushSubscribe_world _ userId b data keys (site_world s) Hparse Hkeys
                  (shifted_answered env (List.length (routeStatements s)) Hok _)
                  (shifted_answered env (List.length (routeStatements s)) Hok _))
      as Hworld.
    cbn zeta in Hworld.
    destruct (pushSubscribe_run _ userId b data keys (site_world s) Hparse Hkeys
                (shifted_answered env (List.length (routeStatements s)) Hok _)
                (shifted_answered env (List.length (routeStatements s)) Hok _))
      as [w' [Hrun _]].
    split; [rewrite Hr, Hrun; reflexivity|].
    do 2 eexists. split; [apply subscriptionStatus_run, Hok|].
    rewrite Hw, Hworld. fold before.
    destruct (filter (fun r => String.eqb (sub_endpoint r) (ins_endpoint data)) before)
      as [|r0 l0] eqn:E; cbn [pushSubscriptions setPushSubscriptions]; rewrite owns_iff.
    + (* a new endpoint: the row appended belongs to the requester *)
      split; [intros _; right|intros _].
      * split; [discriminate|]. intros r Hin. apply String.eqb_neq.
        exact (endpoint_absent _ _ E r Hin).
      * eexists. split; [apply in_or_app; right; now left | exact Huser].
    + (* a known endpoint: owners are what they were *)
      assert (Hr0 : In r0 before /\ sub_endpoint r0 = ins_endpoint data).
      { assert (H : In r0 (filter (fun r => String.eqb (sub_endpoint r) (ins_endpoint data))
                             before)) by (rewrite E; now left).
        apply filter_In in H. destruct H as [Hin Heq]. apply String.eqb_eq in Heq. auto. }
      split.
      * intros [r [Hin Hown]]. left. apply in_map_iff in Hin.
        destruct Hin as [r' [<- Hin]]. exists r'. split; [exact Hin|].
        destruct (String.eqb (sub_endpoint r') (ins_endpoint data)); exact Hown.
      * intros [[r [Hin Hown]]|[_ Hnew]].
        -- exists (if String.eqb (sub_endpoint r) (ins_endpoint data)
                   then refreshed keys (ins_userAgent data) r else r).
           split; [apply in_map_iff; eauto|].
           destruct (String.eqb (sub_endpoint r) (ins_endpoint data)); exact Hown.
        -- exfalso. destruct Hr0 as [Hin Heq]. exact (Hnew r0 Hin Heq).
  - destruct (pushSubscribe_null_keys _ userId b data (site_world s) Hparse Hkeys
                (shifted_answered env (List.length (routeStatements s)) Hok _))
      as [Hreply Htable].
    split; [now rewrite Hr|].
    do 2 eexists. split; [apply subscriptionStatus_run, Hok|].
    rewrite Hw, Htable. fold before. rewrite owns_iff.
    split; [intros H; now left | intros [H|[H _]]; [exact H | congruence]].
Qed.

(** User 2 of [threeDevices] owns device 14; a third user who subscribes
    the endpoint of device 11 is answered success and is not
    subscribed. *)
Lemma status_after_subscribe_witness :
  let env := envAt 9 0 noFault allAccepted in
  fst (pushSubscribeRoute env 3 resubscribe (siteOf threeDevices)) = Ok Json200
  /\ fst (subscriptionStatus env 3
            (snd (pushSubscribeRoute env 3 resubscribe (siteOf threeDevices))))
     = Ok (StatusJson false None).
Proof.
  intros env.
  pose (data := {| ins_userId := 3; ins_endpoint := "https://push.example/a";
                   ins_keys := Some "{new}"; ins_userAgent := Some (Some "Chrome") |}).
  destruct (status_after_subscribe env 3 resubscribe data (siteOf threeDevices) eq_refl
              (fun _ => eq_refl)) as [Hreply _].
  split; [exact Hreply | vm_compute; reflexivity].
Defined.

(** X18. The test route answers success as soon as the select of the
    registrations is answered: also when the user has no registration,
    and also when the push service rejects every delivery. It answers 500
    only when that select is rejected. *)
Theorem pushTest_reply env userId s :
  (dbFails env (position s) = false -> fst (pushTest env userId s) = Ok ReplySuccess)
  /\ (dbFails env (position s) = true ->
        fst (pushTest env userId s) = Ok (ReplyError DbError)).
Proof.
  unfold pushTest, hcatch, hbind, lift. split; intros H.
  - rewrite (sendToUser_run (shifted env (List.length (routeStatements s))) userId
               testNotification (site_world s)) by exact H.
    reflexivity.
  - unfold sendToUser, tryCatch, bind, selectSubscriptionsOfUser, statement.
    cbn [dbTrace recordNotified].
    change (dbFails (shifted env (List.length (routeStatements s)))
              (List.length (dbTrace (site_world s))))
      with (dbFails env (position s)).
    rewrite H. reflexivity.
Qed.

(** The device of [threeDevices] that is gone and the one that is busy:
    the test route still answers success. *)
Lemma pushTest_reply_witness :
  fst (pushTest (envAt 9 0 noFault goneAndBusy) 1 (siteOf threeDevices)) = Ok ReplySuccess.
Proof.
  apply (pushTest_reply (envAt 9 0 noFault goneAndBusy) 1 (siteOf threeDevices)).
  reflexivity.
Defined.

(** ** The preference routes *)

(** GET /api/notifications/preferences, once its select is answered. *)
Lemma getPreferences_answered env userId s :
  dbFails env (position s) = false ->
  fst (getPreferences env userId s)
  = Ok (match hd_error (filter (fun p => pref_userId p =? userId)
                          (notificationPreferences (site_world s))) with
        | Some row => PreferencesRow row
        | None => PreferencesDefaults defaultSettings
        end).
Proof.
  intros Hok. unfold getPreferences, hcatch, hbind, selectPreferencesOfUser.
  rewrite (routeStatement_answered env _ _ s Hok). cbn [fst snd].
  change (notificationPreferences (site_world (recordRouteStatement _ s)))
    with (notificationPreferences (site_world s)).
  destruct (filter _ (notificationPreferences (site_world s))); reflexivity.
Qed.

(** PUT /api/notifications/preferences, by what is accepted and what is
    answered. *)
Lemma putPreferences_run env userId b s :
  putPreferences env userId b s
  = match acceptedPreferences b with
    | None => (Ok (ReplyError ZodError), recordRouteLine (ErrUpdatePreferences ZodError) s)
    | Some d =>
        let s1 := recordRouteStatement (SelectPreferencesOfUser userId 1) s in
        if dbFails env (position s)
        then (Ok (ReplyError DbError), recordRouteLine (ErrUpdatePreferences DbError) s1)
        else
          match filter (fun p => pref_userId p =? userId)
                  (notificationPreferences (site_world s)) with
          | _ :: _ =>
              let s2 := recordRouteStatement (UpdatePreferencesOfUser userId d) s1 in
              if dbFails env (S (position s))
              then (Ok (ReplyError DbError),
                    recordRouteLine (ErrUpdatePreferences DbError) s2)
              else (Ok ReplySuccess,
                    setNotificationPreferences
                      (map (fun p => if pref_userId p =? userId then applyData d p else p)
                         (notificationPreferences (site_world s)))
                      (preferencesSerial s) s2)
          | [] =>
              let s2 := recordRouteStatement (InsertPreferences userId d) s1 in
              if dbFails env (S (position s))
              then (Ok (ReplyError DbError),
                    recordRouteLine (ErrUpdatePreferences DbError)
                      (if drawsId env (S (position s)) then drawPreferencesId s2 else s2))
              else (Ok ReplySuccess,
                    setNotificationPreferences
                      (notificationPreferences (site_world s) ++
                         [applyData d (defaultPreferences (preferencesSerial s) userId)])
                      (preferencesSerial s + 1) s2)
          end
    end.
Proof.
  unfold putPreferences, hcatch, hbind, parsePreferences.
  destruct (acceptedPreferences b) as [d|]; [|reflexivity].
  unfold hret at 1. unfold selectPreferencesOfUser. unfold routeStatement at 1.
  destruct (dbFails env (position s)) eqn:H1; [reflexivity|].
  change (notificationPreferences
            (site_world (recordRouteStatement (SelectPreferencesOfUser userId 1) s)))
    with (notificationPreferences (site_world s)).
  destruct (filter (fun p => pref_userId p =? userId)
              (notificationPreferences (site_world s))) as [|row rest];
    cbn [firstn]; unfold updatePreferencesOfUser, insertPreferences, routeStatement;
    rewrite position_after_statement;
    destruct (dbFails env (S (position s))); reflexivity.
Qed.

Lemma filter_updated userId (g : NotificationPreferences -> NotificationPreferences)
    (l : list NotificationPreferences) :
  (forall p, pref_userId (g p) = pref_userId p) ->
  filter (fun p => pref_userId p =? userId)
    (map (fun p => if pref_userId p =? userId then g p else p) l)
  = map g (filter (fun p => pref_userId p =? userId) l).
Proof.
  intros Hg. induction l as [|p l IH]; [reflexivity|]. cbn [map filter].
  destruct (pref_userId p =? userId) eqn:E.
  - rewrite Hg, E. cbn [map]. now rewrite IH.
  - rewrite E. exact IH.
Qed.

Lemma filter_others_updated userId (g : NotificationPreferences -> NotificationPreferences)
    (l : list NotificationPreferences) :
  (forall p, pref_userId (g p) = pref_userId p) ->
  filter (fun p => negb (pref_userId p =? userId))
    (map (fun p => if pref_userId p =? userId then g p else p) l)
  = filter (fun p => negb (pref_userId p =? userId)) l.
Proof.
  intros Hg. induction l as [|p l IH]; [reflexivity|]. cbn [map filter].
  destruct (pref_userId p =? userId) eqn:E.
  - rewrite Hg, E. exact IH.
  - rewrite E. cbn [negb]. now rewrite IH.
Qed.

Lemma userIds_updated userId (g : NotificationPreferences -> NotificationPreferences)
    (l : list NotificationPreferences) :
  (forall p, pref_userId (g p) = pref_userId p) ->
  map pref_userId (map (fun p => if pref_userId p =? userId then g p else p) l)
  = map pref_userId l.
Proof.
  intros Hg. rewrite map_map. apply map_ext. intros p.
  destruct (pref_userId p =? userId); [apply Hg | reflexivity].
Qed.

Lemma no_row_of_user userId (l : list NotificationPreferences) :
  filter (fun p => pref_userId p =? userId) l = [] ->
  ~ In userId (map pref_userId l)
  /\ filter (fun p => negb (pref_userId p =? userId)) l = l.
Proof.
  induction l as [|p l IH]; cbn [filter map]; [intros _; split; [intros []|reflexivity]|].
  destruct (pref_userId p =? userId) eqn:E; [discriminate|]. intros Hnil.
  destruct (IH Hnil) as [Hnot Hsame]. cbn [negb]. split.
  - intros [Heq|Hin]; [apply Z.eqb_neq in E; contradiction | exact (Hnot Hin)].
  - now rewrite Hsame.
Qed.

(** X19. A preference request that is accepted and whose statements are
    answered is answered with success, and the row a GET returns
    afterwards is the row the user had, or the column defaults under a new
    id when the user had none, with every property of the request written
    over it: a property left out keeps what was there, null and a value
    replace it. The three times are stored as they are sent. *)
Theorem preferences_put_then_get env userId b d s :
  acceptedPreferences b = Some d ->
  (forall n, dbFails env n = false) ->
  let base := match filter (fun p => pref_userId p =? userId)
                      (notificationPreferences (site_world s)) with
              | row :: _ => row
              | [] => defaultPreferences (preferencesSerial s) userId
              end in
  fst (putPreferences env userId b s) = Ok ReplySuccess
  /\ fst (getPreferences env userId (snd (putPreferences env userId b s)))
     = Ok (PreferencesRow (applyData d base)).
Proof.
  intros Hd Hok base. rewrite (getPreferences_answered env userId _ (Hok _)).
  rewrite putPreferences_run, Hd. cbn zeta. rewrite !Hok. subst base.
  destruct (filter (fun p => pref_userId p =? userId)
              (notificationPreferences (site_world s))) as [|row rest] eqn:E;
    cbn [fst snd site_world setNotificationPreferences notificationPreferences];
    (split; [reflexivity|]).
  - rewrite filter_app, E. cbn [filter app applyData pref_userId defaultPreferences].
    rewrite Z.eqb_refl. reflexivity.
  - rewrite (filter_updated userId (applyData d)) by reflexivity.
    rewrite E. reflexivity.
Qed.

(** User 1 of [twoUsers] sends three times that are not times. *)
Lemma preferences_put_then_get_witness :
  let env := envAt 9 0 noFault allAccepted in
  let s := siteOf twoUsers in
  fst (putPreferences env 1 (timesBody "soon" "late" "early") s) = Ok ReplySuccess
  /\ fst (getPreferences env 1 (snd (putPreferences env 1 (timesBody "soon" "late" "early") s)))
     = Ok (PreferencesRow (withTimes "soon" "late" "early" (defaultPreferences 1 1))).
Proof.
  intros env s.
  exact (preferences_put_then_get env 1 (timesBody "soon" "late" "early") _ s eq_refl
           (fun _ => eq_refl)).
Defined.

(** X20. Whatever is in a preference request and whatever fails, the rows of
    the other users, the registrations and the events are as before, and
    user ids that were unique among the preference rows still are. *)
Theorem putPreferences_other_users env userId b s :
  let prefs := notificationPreferences (site_world s) in
  let s' := snd (putPreferences env userId b s) in
  filter (fun p => negb (pref_userId p =? userId)) (notificationPreferences (site_world s'))
  = filter (fun p => negb (pref_userId p =? userId)) prefs
  /\ pushSubscriptions (site_world s') = pushSubscriptions (site_world s)
  /\ events (site_world s') = events (site_world s)
  /\ (NoDup (map pref_userId prefs) ->
      NoDup (map pref_userId (notificationPreferences (site_world s')))).
Proof.
  intros prefs s'. subst s'. rewrite putPreferences_run.
  destruct (acceptedPreferences b) as [d|]; [|repeat split; auto].
  cbn zeta. destruct (dbFails env (position s)); [repeat split; auto|].
  destruct (filter (fun p => pref_userId p =? userId)
              (notificationPreferences (site_world s))) as [|row rest] eqn:E;
    (destruct (dbFails env (S (position s)));
     [destruct (drawsId env (S (position s))); repeat split; auto|]);
    cbn [fst snd site_world setNotificationPreferences notificationPreferences
         pushSubscriptions events].
  - destruct (no_row_of_user userId _ E) as [Hnot Hsame].
    split; [|split; [reflexivity|split; [reflexivity|]]].
    + rewrite filter_app. cbn [filter applyData pref_userId defaultPreferences].
      rewrite Z.eqb_refl. cbn [negb]. now rewrite app_nil_r.
    + intros Hnodup. rewrite map_app. cbn [map applyData pref_userId defaultPreferences].
      apply NoDup_app; [exact Hnodup | repeat constructor; intros []|].
      intros u Hu [<-|[]]. exact (Hnot Hu).
  - split; [|split; [reflexivity|split; [reflexivity|]]].
    + now apply filter_others_updated.
    + intros Hnodup. now rewrite userIds_updated.
Qed.

Lemma putPreferences_other_users_witness :
  NoDup (map pref_userId
           (notificationPreferences
              (site_world (snd (putPreferences (envAt 9 0 noFault allAccepted) 3
                                  emptyBody (siteOf twoUsers)))))).
Proof.
  apply (putPreferences_other_users (envAt 9 0 noFault allAccepted) 3 emptyBody
           (siteOf twoUsers)).
  repeat constructor; cbn; intuition discriminate.
Defined.

(** X21. The preference handler never throws; a request with an ill-typed
    property is answered 500 before any statement is sent; and whenever
    the answer is an error, whichever statement was rejected, no row of
    any table was written. *)
Theorem putPreferences_failure env userId b s :
  let s' := snd (putPreferences env userId b s) in
  (exists reply, fst (putPreferences env userId b s) = Ok reply)
  /\ (acceptedPreferences b = None ->
        fst (putPreferences env userId b s) = Ok (ReplyError ZodError)
        /\ routeStatements s' = routeStatements s)
  /\ (forall e, fst (putPreferences env userId b s) = Ok (ReplyError e) ->
        site_world s' = site_world s).
Proof.
  intros s'. subst s'. rewrite putPreferences_run.
  destruct (acceptedPreferences b) as [d|].
  - cbn zeta. split; [|split; [discriminate|]].
    + destruct (dbFails env (position s)); [eexists; reflexivity|].
      destruct (filter _ _); destruct (dbFails env (S (position s)));
        eexists; reflexivity.
    + intros e.
      destruct (dbFails env (position s)); [intros _; reflexivity|].
      destruct (filter _ _); destruct (dbFails env (S (position s)));
        cbn [fst snd]; intros H; try discriminate H;
        try (destruct (drawsId env (S (position s)))); reflexivity.
  - split; [eexists; reflexivity|]. split; [intros _; split; reflexivity|].
    intros e _. reflexivity.
Qed.

(** A request whose [tidesEnabled] is not a boolean, and one whose update
    is rejected. *)
Lemma putPreferences_failure_witness :
  let illTyped :=
    {| pb_tidesEnabled := IllTyped; pb_sportsEnabled := Missing;
       pb_astronomyEnabled := Missing; pb_agricultureEnabled := Missing;
       pb_culturalEnabled := Missing; pb_holidaysEnabled := Missing;
       pb_tidesFrequency := Missing; pb_sportsFrequency := Missing;
       pb_astronomyFrequency := Missing; pb_agricultureFrequency := Missing;
       pb_culturalFrequency := Missing; pb_holidaysFrequency := Missing;
       pb_preferredNotificationTime := Missing;
       pb_quietHoursStart := Missing;
       pb_quietHoursEnd := Missing |} in
  fst (putPreferences (envAt 9 0 noFault allAccepted) 1 illTyped (siteOf twoUsers))
  = Ok (ReplyError ZodError)
  /\ site_world (snd (putPreferences (envAt 9 0 (faultAt 1) allAccepted) 1
                        (timesBody "07:30" "23:00" "06:00") (siteOf twoUsers)))
     = twoUsers.
Proof.
  intros illTyped. split.
  - destruct (putPreferences_failure (envAt 9 0 noFault allAccepted) 1 illTyped
                (siteOf twoUsers)) as [_ [Hzod _]].
    destruct (Hzod eq_refl) as [Hreply _]. exact Hreply.
  - destruct (putPreferences_failure (envAt 9 0 (faultAt 1) allAccepted) 1
                (timesBody "07:30" "23:00" "06:00") (siteOf twoUsers)) as [_ [_ Herr]].
    exact (Herr DbError eq_refl).
Defined.


